(** * The streaming cache protocol of the SRU++ transducer modules

    A shallow embedding of [experiments/e2e_asr/extension.py]: the two
    transform modules [SRUppTransducerAttention] and
    [SRUppTransducerLinear], and the recurrent cell
    [SRUppTransducerCell] that wraps one of them.

    Tensors carry their shape and their entries over an abstract scalar
    type; the incremental state is a pair of Python dictionaries living
    in a store, so that in-place mutation and object identity are
    visible; exceptions are results. *)

From Stdlib Require Import ZArith QArith.
From stdpp Require Import base gmap strings list fin_maps.

Local Open Scope Z_scope.

(** ** Exceptions and results *)

Inductive exn : Type :=
| AssertionError
| ValueError (msg : string)
| RuntimeError (msg : string)
| ZeroDivisionError.

Inductive result (A : Type) : Type :=
| Ok (a : A)
| Raise (e : exn).
Arguments Ok {A} a.
Arguments Raise {A} e.

Definition is_ok {A} (r : result A) : bool :=
  match r with Ok _ => true | Raise _ => false end.

(** Messages of the errors raised by the source, and of the errors torch
    raises in the tensor operations the source calls. *)
Definition msg_divisible : string :=
  "proj_features ({}) must be divisible by num_heads ({})".
Definition msg_attn_mask : string := "attn_mask has size {} but expect {}.".
Definition msg_mask_pad : string := "mask_pad has size {} but expect {}.".
Definition msg_input_dim : string := "Input must be 3 dimensional (length, bsz, d)".
Definition msg_cat : string := "Sizes of tensors must match except in dimension 0".
Definition msg_linear : string := "mat1 and mat2 shapes cannot be multiplied".
Definition msg_layer_norm : string := "Given normalized_shape, expected input with matching shape".
Definition msg_view_size : string := "shape is invalid for input of size".
Definition msg_view_ambiguous : string :=
  "cannot reshape tensor of 0 elements: the unspecified dimension size -1 is ambiguous".
Definition msg_view_negative : string := "invalid shape dimension".
Definition msg_negative_dim : string := "Trying to create tensor with negative dimension".
Definition msg_dropout_p : string := "dropout probability has to be between 0 and 1".
Definition msg_unpack : string := "not enough values to unpack (expected 2, got 1)".
Definition msg_bmm : string := "batch1 and batch2 must have same number of batches".
Definition msg_broadcast : string := "The size of tensor a must match the size of tensor b".

(** ** Python slicing *)

(** [l[start:stop]] with step 1: a negative index counts from the end,
    and both ends are clamped to the sequence. *)
Definition py_index (len : nat) (i : Z) : nat :=
  Z.to_nat (if i <? 0 then Z.max 0 (i + Z.of_nat len) else Z.min i (Z.of_nat len)).

Definition py_slice {A} (l : list A) (start stop : option Z) : list A :=
  let a := from_option (py_index (length l)) 0%nat start in
  let b := from_option (py_index (length l)) (length l) stop in
  take (b - a)%nat (drop a l).

(** ** Scalars and tensors *)

(** The entries of a tensor: floating-point numbers in the source, here
    any type with the operations the modules use. No law is assumed. *)
Class Scalar (R : Type) : Type := {
  r0 : R;
  r1 : R;
  radd : R -> R -> R;
  rmul : R -> R -> R;
  rltb : R -> R -> bool;
  rneg_inf : R;
  (** [float(n) ** -0.5] *)
  rpow_neg_half : Z -> R;
  (** [(1 - p) ** 0.5] *)
  rsqrt_one_minus : R -> R;
  (** [F.softmax] along one row *)
  softmax : list R -> list R;
}.

(** The random generator behind dropout: [bernoulli_drop g p x] is the
    entry [x] after dropout with probability [p], and the next state. *)
Class Dropper (R Rng : Type) : Type := {
  bernoulli_drop : Rng -> R -> R -> R * Rng;
}.

(** A location of a dictionary object in the store. *)
Definition loc : Type := nat.

(** A tensor with two axes, as the attention mask (real entries), the
    pad mask (booleans) and the carry. *)
Record Tensor2 (A : Type) : Type := mkTensor2 {
  m_cols : nat;
  m_rows : list (list A);
}.
Arguments mkTensor2 {A} m_cols m_rows.
Arguments m_cols {A} t.
Arguments m_rows {A} t.

Section Model.

Context {R : Type} `{Scalar R}.
(** State of the random generator that dropout draws from. *)
Context {Rng : Type} `{Dropper R Rng}.

(** A tensor with axes (time, batch, feature): its two trailing sizes
    and, per timestep, the [batch * feature] entries in row-major order. *)
Record Tensor : Type := mkTensor {
  t_bsz : nat;
  t_feat : nat;
  t_steps : list (list R);
}.

Definition size0 (t : Tensor) : nat := length (t_steps t).
Definition numel (t : Tensor) : nat := (size0 t * t_bsz t * t_feat t)%nat.
Definition size2 {A} (m : Tensor2 A) : list nat := [length (m_rows m); m_cols m].

Definition wf_tensor (t : Tensor) : Prop :=
  Forall (fun fr => length fr = (t_bsz t * t_feat t)%nat) (t_steps t).

(** [torch.zeros(n, bsz, d)] and [torch.zeros(bsz, d)] *)
Definition zeros3 (n bsz d : nat) : Tensor :=
  mkTensor bsz d (replicate n (replicate (bsz * d) r0)).
Definition zeros2 (bsz d : nat) : Tensor2 R :=
  mkTensor2 d (replicate bsz (replicate d r0)).

(** [torch.cat([a, b], dim=0)] *)
Definition cat0 (a b : Tensor) : result Tensor :=
  if decide (t_bsz a = t_bsz b /\ t_feat a = t_feat b)
  then Ok (mkTensor (t_bsz a) (t_feat a) (t_steps a ++ t_steps b))
  else Raise (RuntimeError msg_cat).

(** [t[start:stop]] *)
Definition slice0 (t : Tensor) (start stop : option Z) : Tensor :=
  mkTensor (t_bsz t) (t_feat t) (py_slice (t_steps t) start stop).

Definition slice_rows {A} (m : Tensor2 A) (start stop : option Z) : Tensor2 A :=
  mkTensor2 (m_cols m) (py_slice (m_rows m) start stop).

(** The [n] rows of [d] entries of a row-major block. *)
Definition rows_of (n d : nat) (fr : list R) : list (list R) :=
  map (fun b => take d (drop (b * d) fr)) (seq 0 n).

Definition dot (u v : list R) : R := foldr radd r0 (zip_with rmul u v).
Definition matvec (W : list (list R)) (x : list R) : list R :=
  map (fun w => dot w x) W.

(** [nn.Linear(in, out, bias=False)]: the weight has [out] rows of [in]
    entries and acts on the last axis. *)
Record Linear : Type := mkLinear {
  lin_in : nat;
  lin_out : nat;
  lin_weight : list (list R);
}.

Definition nn_Linear (in_features out_features : Z) (weight : list (list R))
  : result Linear :=
  if (in_features <? 0) || (out_features <? 0)
  then Raise (RuntimeError msg_negative_dim)
  else Ok (mkLinear (Z.to_nat in_features) (Z.to_nat out_features) weight).

Definition Linear_rows (l : Linear) (bsz : nat) (fr : list R) : list R :=
  concat (map (matvec (lin_weight l)) (rows_of bsz (lin_in l) fr)).

Definition Linear_forward (l : Linear) (x : Tensor) : result Tensor :=
  if decide (t_feat x = lin_in l)
  then Ok (mkTensor (t_bsz x) (lin_out l) (map (Linear_rows l (t_bsz x)) (t_steps x)))
  else Raise (RuntimeError msg_linear).

(** [nn.init.xavier_uniform_(l.weight)]: the bound of the uniform law
    is computed from [2.0 / float(fan_in + fan_out)], a division by zero
    for a weight with neither rows nor columns. What is drawn is an
    argument, and replaces the weight. *)
Definition xavier_uniform_ (l : Linear) (draw : list (list R)) : result Linear :=
  if decide ((lin_in l + lin_out l)%nat = 0%nat) then Raise ZeroDivisionError
  else Ok (mkLinear (lin_in l) (lin_out l) draw).

(** [nn.LayerNorm(d)]: normalises every row of the last axis; the
    normalisation itself (mean, variance, affine map) is the function
    [ln_apply]. *)
Record LayerNorm : Type := mkLayerNorm {
  ln_shape : nat;
  ln_apply : list R -> list R;
}.

Definition LayerNorm_rows (ln : LayerNorm) (bsz : nat) (fr : list R) : list R :=
  concat (map (ln_apply ln) (rows_of bsz (ln_shape ln) fr)).

Definition LayerNorm_forward (ln : LayerNorm) (x : Tensor) : result Tensor :=
  if decide (t_feat x = ln_shape ln)
  then Ok (mkTensor (t_bsz x) (t_feat x) (map (LayerNorm_rows ln (t_bsz x)) (t_steps x)))
  else Raise (RuntimeError msg_layer_norm).

(** ** The store and the monad of a call *)

(** The incremental state is [Dict[str, Dict[str, Optional[Tensor]]]]:
    an outer dictionary whose values are references to inner
    dictionaries. Both kinds of objects live in the store. *)
Inductive event : Type :=
| EvRecurrence (length : nat).

Record World : Type := mkWorld {
  w_outer : gmap loc (gmap string loc);
  w_inner : gmap loc (gmap string (option Tensor));
  w_rng : Rng;
  (** calls of the elementwise recurrence made so far, latest first *)
  w_log : list event;
}.

Definition M (A : Type) : Type := World -> result A * World.

Definition ret {A} (a : A) : M A := fun w => (Ok a, w).
Definition raise {A} (e : exn) : M A := fun w => (Raise e, w).
Definition bindM {A B} (m : M A) (k : A -> M B) : M B :=
  fun w => match m w with
           | (Ok a, w') => k a w'
           | (Raise e, w') => (Raise e, w')
           end.
Definition lift {A} (r : result A) : M A := fun w => (r, w).

(** [assert b] *)
Definition assert_ (b : bool) : M unit :=
  if b then ret tt else raise AssertionError.

Definition bindR {A B} (r : result A) (k : A -> result B) : result B :=
  match r with Ok a => k a | Raise e => Raise e end.

Notation "x <~ m ;~ k" := (bindM m (fun x => k))
  (at level 20, m at level 100, k at level 200, only parsing).
Notation "m ;;; k" := (bindM m (fun _ => k))
  (at level 100, k at level 200, only parsing, right associativity).
Notation "x <~! m ;~ k" := (bindR m (fun x => k))
  (at level 20, m at level 100, k at level 200, only parsing).

Definition is_none {A} (o : option A) : bool :=
  match o with None => true | Some _ => false end.

(** *** Dictionary objects *)

Definition outer_dict (w : World) (inc : loc) : gmap string loc :=
  default ∅ (w_outer w !! inc).
Definition inner_dict (w : World) (s : loc) : gmap string (option Tensor) :=
  default ∅ (w_inner w !! s).

(** [{}] as an inner dictionary: a new object. *)
Definition new_inner : M loc := fun w =>
  let s := fresh (dom (w_inner w)) in
  (Ok s, mkWorld (w_outer w) (<[s := ∅]> (w_inner w)) (w_rng w) (w_log w)).

(** [{}] as an incremental state: a new object. *)
Definition new_outer : M loc := fun w =>
  let i := fresh (dom (w_outer w)) in
  (Ok i, mkWorld (<[i := ∅]> (w_outer w)) (w_inner w) (w_rng w) (w_log w)).

(** [key in state] and [state[key]] in one step: [None] when the key is
    absent, [Some v] with the value otherwise. *)
Definition dict_get (s : loc) (key : string) : M (option (option Tensor)) :=
  fun w => (Ok (inner_dict w s !! key), w).

(** [state[key] = v] *)
Definition dict_set (s : loc) (key : string) (v : option Tensor) : M unit :=
  fun w => (Ok tt, mkWorld (w_outer w) (<[s := <[key := v]> (inner_dict w s)]> (w_inner w))
                     (w_rng w) (w_log w)).

(** [incremental_state[key] = state] *)
Definition outer_set (inc : loc) (key : string) (s : loc) : M unit :=
  fun w => (Ok tt, mkWorld (<[inc := <[key := s]> (outer_dict w inc)]> (w_outer w)) (w_inner w)
                     (w_rng w) (w_log w)).

(** [state = incremental_state["attn_state"]] when the key is there,
    [state = {}] otherwise. *)
Definition fetch_attn_state (inc : loc) : M loc := fun w =>
  match outer_dict w inc !! "attn_state" with
  | Some s => (Ok s, w)
  | None => new_inner w
  end.

(** *** Dropout *)

Fixpoint drop_list (p : R) (l : list R) (g : Rng) : list R * Rng :=
  match l with
  | [] => ([], g)
  | x :: l' =>
      let '(y, g1) := bernoulli_drop g p x in
      let '(ys, g2) := drop_list p l' g1 in
      (y :: ys, g2)
  end.

Fixpoint drop_rows (p : R) (ls : list (list R)) (g : Rng) : list (list R) * Rng :=
  match ls with
  | [] => ([], g)
  | l :: ls' =>
      let '(y, g1) := drop_list p l g in
      let '(ys, g2) := drop_rows p ls' g1 in
      (y :: ys, g2)
  end.

Fixpoint drop_mats (p : R) (ms : list (list (list R))) (g : Rng)
  : list (list (list R)) * Rng :=
  match ms with
  | [] => ([], g)
  | m :: ms' =>
      let '(y, g1) := drop_rows p m g in
      let '(ys, g2) := drop_mats p ms' g1 in
      (y :: ys, g2)
  end.

Definition bad_probability (p : R) : bool := rltb p r0 || rltb r1 p.

(** [F.dropout(x, p, training)] on the entries of a batch of matrices
    and on the entries of a tensor. *)
Definition F_dropout_mats (x : list (list (list R))) (p : R) (training : bool)
  : M (list (list (list R))) :=
  if bad_probability p then raise (ValueError msg_dropout_p)
  else if training
       then fun w => let '(y, g) := drop_mats p x (w_rng w) in
                     (Ok y, mkWorld (w_outer w) (w_inner w) g (w_log w))
       else ret x.

Definition F_dropout (x : Tensor) (p : R) (training : bool) : M Tensor :=
  if bad_probability p then raise (ValueError msg_dropout_p)
  else if training
       then fun w => let '(y, g) := drop_rows p (t_steps x) (w_rng w) in
                     (Ok (mkTensor (t_bsz x) (t_feat x) y),
                      mkWorld (w_outer w) (w_inner w) g (w_log w))
       else ret x.

(** [nn.Dropout(p)]; a module is created in training mode. *)
Record Dropout : Type := mkDropout {
  drop_p : R;
  drop_training : bool;
}.

Definition nn_Dropout (p : R) : result Dropout :=
  if bad_probability p then Raise (ValueError msg_dropout_p)
  else Ok (mkDropout p true).

Definition Dropout_forward (d : Dropout) (x : Tensor) : M Tensor :=
  F_dropout x (drop_p d) (drop_training d).

(** ** The chunked sequence cursor (lines 121-137 and 298-314) *)

Record Cursor : Type := mkCursor {
  all_query : Tensor;
  num_query_ready : Z;
  query_ready : Tensor;
  query_not_ready : Tensor;
}.

Definition take_saved_queries (right_window : Z) (q : Tensor) (inc : loc)
  : M (loc * Cursor) :=
  state <~ fetch_attn_state inc ;~
  slot <~ dict_get state "saved_query" ;~
  all_query <~ match slot with
               | Some saved_query =>
                   match saved_query with
                   | Some saved_query => lift (cat0 saved_query q)
                   | None => raise AssertionError
                   end
               | None => ret q
               end ;~
  let num_query_ready := Z.of_nat (size0 all_query) - right_window in
  let num_query_ready := if num_query_ready <? 0 then 0 else num_query_ready in
  let query_ready := slice0 all_query None (Some num_query_ready) in
  let query_not_ready := slice0 all_query (Some num_query_ready) None in
  ret (state, mkCursor all_query num_query_ready query_ready query_not_ready).

(** Lines 142-145: the rows of the attention mask for the ready queries. *)
Definition align_attn_mask (attn_mask : Tensor2 R) (cur : Cursor) : Tensor2 R :=
  let rows := Z.of_nat (length (m_rows attn_mask)) in
  slice_rows attn_mask
    (Some (rows - Z.of_nat (size0 (all_query cur))))
    (Some (rows - Z.of_nat (size0 (query_not_ready cur)))).

(** ** SRUppTransducerLinear *)

Record SRUppTransducerLinear : Type := mkSRUppTransducerLinear {
  L_in_features : Z;
  L_out_features : Z;
  L_proj_features : Z;
  L_right_window : Z;
  L_dropout : Dropout;
  L_linear1 : Linear;
  L_linear2 : Linear;
  L_layer_norm : option LayerNorm;
}.

(** [weight.data.mul_(c)] *)
Definition scale_weight (c : R) (W : list (list R)) : list (list R) :=
  map (map (fun x => rmul x c)) W.

(** The constructor. The weights that [nn.Linear] draws for itself are
    replaced by [reset_parameters] before anything reads them; what the
    Xavier initialiser draws ([xavier1], [xavier2]) is an argument. *)
Definition SRUppTransducerLinear_init
    (in_features out_features proj_features : Z) (dropout : R)
    (layer_norm : bool) (right_window : Z)
    (xavier1 xavier2 : list (list R)) (norm : list R -> list R)
  : result SRUppTransducerLinear :=
  d <~! nn_Dropout dropout ;~
  linear1 <~! nn_Linear in_features proj_features [] ;~
  linear2 <~! nn_Linear proj_features out_features [] ;~
  let ln := if layer_norm then Some (mkLayerNorm (Z.to_nat proj_features) norm) else None in
  (* reset_parameters *)
  linear1 <~! xavier_uniform_ linear1 xavier1 ;~
  linear2 <~! xavier_uniform_ linear2 xavier2 ;~
  let linear2 := if rltb r0 (drop_p d)
                 then mkLinear (lin_in linear2) (lin_out linear2)
                        (scale_weight (rsqrt_one_minus (drop_p d)) (lin_weight linear2))
                 else linear2 in
  Ok (mkSRUppTransducerLinear in_features out_features proj_features right_window
        d linear1 linear2 ln).

(** Lines 321-323: normalisation, dropout and the second projection. *)
Definition SRUppTransducerLinear_tail (self : SRUppTransducerLinear) (q : Tensor)
  : M Tensor :=
  q <~ match L_layer_norm self with
       | Some layer_norm => lift (LayerNorm_forward layer_norm q)
       | None => ret q
       end ;~
  d <~ Dropout_forward (L_dropout self) q ;~
  lift (Linear_forward (L_linear2 self) d).

(** The forward method, returning besides its two results the locals of
    the streaming branch ([None] when [incremental_state is None]). *)
Definition SRUppTransducerLinear_locals (self : SRUppTransducerLinear)
    (input : Tensor) (mask_pad : option (Tensor2 bool)) (attn_mask : option (Tensor2 R))
    (incremental_state : option loc)
  : M (Tensor * option loc * option Cursor) :=
  q <~ lift (Linear_forward (L_linear1 self) input) ;~
  qc <~ match incremental_state with
        | Some inc =>
            assert_ (is_none mask_pad) ;;;
            sc <~ take_saved_queries (L_right_window self) q inc ;~
            dict_set sc.1 "saved_query" (Some (query_not_ready sc.2)) ;;;
            outer_set inc "attn_state" sc.1 ;;;
            ret (query_ready sc.2, Some sc.2)
        | None => ret (q, None)
        end ;~
  output <~ SRUppTransducerLinear_tail self qc.1 ;~
  ret (output, incremental_state, qc.2).

Definition SRUppTransducerLinear_forward (self : SRUppTransducerLinear)
    (input : Tensor) (mask_pad : option (Tensor2 bool)) (attn_mask : option (Tensor2 R))
    (incremental_state : option loc)
  : M (Tensor * option loc) :=
  r <~ SRUppTransducerLinear_locals self input mask_pad attn_mask incremental_state ;~
  ret r.1.

(** ** SRUppTransducerAttention *)

Record SRUppTransducerAttention : Type := mkSRUppTransducerAttention {
  A_in_features : Z;
  A_out_features : Z;
  A_proj_features : Z;
  A_num_heads : Z;
  A_right_window : Z;
  A_dropout : Dropout;
  A_attn_dropout : R;
  A_rezero_init_alpha : R;
  A_linear1 : Linear;
  A_linear2 : Linear;
  A_linear3 : Linear;
  A_alpha : R;
  A_normalize_after : bool;
  A_layer_norm : option LayerNorm;
  A_training : bool;
}.

(** The constructor. The weights that [nn.Linear] draws for itself are
    replaced by [reset_parameters] before anything reads them; what the
    Xavier initialiser draws ([xavier1], [xavier2], [xavier3]) is an
    argument. *)
Definition SRUppTransducerAttention_init
    (in_features out_features proj_features num_heads : Z)
    (dropout attn_dropout rezero_init_alpha : R)
    (layer_norm normalize_after : bool) (right_window : Z)
    (xavier1 xavier2 xavier3 : list (list R)) (norm : list R -> list R)
  : result SRUppTransducerAttention :=
  d <~! nn_Dropout dropout ;~
  linear1 <~! nn_Linear in_features proj_features [] ;~
  linear2 <~! nn_Linear proj_features (proj_features * 2) [] ;~
  linear3 <~! nn_Linear proj_features out_features [] ;~
  let ln := if layer_norm then Some (mkLayerNorm (Z.to_nat proj_features) norm) else None in
  (* proj_features % num_heads *)
  if num_heads =? 0 then Raise ZeroDivisionError
  else if negb (proj_features mod num_heads =? 0) then Raise (ValueError msg_divisible)
  else
    (* reset_parameters *)
    linear1 <~! xavier_uniform_ linear1 xavier1 ;~
    linear2 <~! xavier_uniform_ linear2 xavier2 ;~
    linear3 <~! xavier_uniform_ linear3 xavier3 ;~
    let linear3 := if rltb r0 (drop_p d)
                   then mkLinear (lin_in linear3) (lin_out linear3)
                          (scale_weight (rsqrt_one_minus (drop_p d)) (lin_weight linear3))
                   else linear3 in
    Ok (mkSRUppTransducerAttention in_features out_features proj_features num_heads
          right_window d attn_dropout rezero_init_alpha linear1 linear2 linear3
          rezero_init_alpha normalize_after ln true).

(** *** Tensor operations of the attention computation *)

(** [x.chunk(2, dim=-1)], unpacked into two names. *)
Definition chunk2 (x : Tensor) : result (Tensor * Tensor) :=
  let d := t_feat x in
  let h := ((d + 1) / 2)%nat in
  if decide (d = 1%nat) then Raise (ValueError msg_unpack)
  else
    let part (f : list R -> list R) :=
      map (fun fr => concat (map f (rows_of (t_bsz x) d fr))) (t_steps x) in
    Ok (mkTensor (t_bsz x) h (part (take h)),
        mkTensor (t_bsz x) (d - h) (part (drop h))).

(** [x.contiguous().view(len, -1, head_dim)]: the result has axes
    (len, numel / (len * head_dim), head_dim). *)
Definition view_heads (x : Tensor) (len : nat) (head_dim : Z) : result Tensor :=
  if head_dim <? 0 then Raise (RuntimeError msg_view_negative)
  else
    let newsize := (len * Z.to_nat head_dim)%nat in
    if bool_decide (numel x = newsize)
       || (bool_decide (0 < newsize)%nat && bool_decide (numel x mod newsize = 0)%nat)
    then
      if decide (newsize = 0%nat) then Raise (RuntimeError msg_view_ambiguous)
      else
        let mid := (numel x / newsize)%nat in
        Ok (mkTensor mid (Z.to_nat head_dim)
              (rows_of len (mid * Z.to_nat head_dim) (concat (t_steps x))))
    else Raise (RuntimeError msg_view_size).

(** The transpose of an [m] x [n] matrix given by its rows. *)
Definition transpose_n {A} (n : nat) (xss : list (list A)) : list (list A) :=
  map (fun j => omap (fun xs => xs !! j) xss) (seq 0 n).

(** [x.transpose(0, 1)] of a tensor, as a batch of matrices. *)
Definition transpose01 (x : Tensor) : list (list (list R)) :=
  transpose_n (t_bsz x) (map (rows_of (t_bsz x) (t_feat x)) (t_steps x)).

(** The product of an [m] x [n] by an [n] x [p] matrix, and [torch.bmm]. *)
Definition matmul (p : nat) (a b : list (list R)) : list (list R) :=
  map (fun row => map (dot row) (transpose_n p b)) a.

Definition bmm (p : nat) (a b : list (list (list R))) : result (list (list (list R))) :=
  if decide (length a = length b) then Ok (zip_with (matmul p) a b)
  else Raise (RuntimeError msg_bmm).

(** [x.transpose(0, 1).contiguous().view(tgt_len, bsz, proj_dim)] of a
    batch of [bh] matrices with [tgt_len] rows of [hd] entries. *)
Definition merge_heads (x : list (list (list R))) (bh hd tgt_len bsz : nat) (proj_dim : Z)
  : result Tensor :=
  if proj_dim <? 0 then Raise (RuntimeError msg_view_negative)
  else if decide (bh * tgt_len * hd = tgt_len * bsz * Z.to_nat proj_dim)%nat
       then Ok (mkTensor bsz (Z.to_nat proj_dim) (map (fun rows => concat rows) (transpose_n tgt_len x)))
       else Raise (RuntimeError msg_view_size).

(** [w.view(bsz, num_heads, tgt_len, src_len).masked_fill(
       mask_pad.transpose(0, 1).unsqueeze(1).unsqueeze(2), -inf)]:
    matrix [j] belongs to the sequence [j / num_heads] of the batch. *)
Definition masked_fill_pad (w : list (list (list R))) (mask_pad : Tensor2 bool)
    (num_heads : Z) : list (list (list R)) :=
  imap (fun j mat =>
          let b := Z.to_nat (Z.of_nat j / num_heads) in
          let col := omap (fun row => row !! b) (m_rows mask_pad) in
          map (fun row => zip_with (fun (m : bool) x => if m then rneg_inf else x) col row) mat)
       w.

(** [x * alpha + residual] *)
Definition rezero (x : Tensor) (alpha : R) (residual : Tensor) : result Tensor :=
  if decide (size0 x = size0 residual /\ t_bsz x = t_bsz residual
             /\ t_feat x = t_feat residual)
  then Ok (mkTensor (t_bsz x) (t_feat x)
             (zip_with (zip_with (fun a r => radd (rmul a alpha) r))
                       (t_steps x) (t_steps residual)))
  else Raise (RuntimeError msg_broadcast).

(** The locals of a call that the statements below speak about. *)
Record AttnLocals : Type := mkAttnLocals {
  al_cursor : option Cursor;
  al_attn_mask : option (Tensor2 R);
  al_tgt_len : nat;
  al_src_len : nat;
}.

(** Lines 158-173: the cached keys and values are put in front of the
    new ones, and the three slots are written. *)
Definition update_saved (state inc : loc) (cur : Cursor) (k v : Tensor)
  : M (Tensor * Tensor) :=
  saved_key <~ dict_get state "saved_key" ;~
  k <~ match saved_key with
       | Some saved_key =>
           match saved_key with
           | Some saved_key => lift (cat0 saved_key k)
           | None => raise AssertionError
           end
       | None => ret k
       end ;~
  saved_value <~ dict_get state "saved_value" ;~
  v <~ match saved_value with
       | Some saved_value =>
           match saved_value with
           | Some saved_value => lift (cat0 saved_value v)
           | None => raise AssertionError
           end
       | None => ret v
       end ;~
  assert_ (bool_decide (size0 v = size0 k)) ;;;
  dict_set state "saved_query" (Some (query_not_ready cur)) ;;;
  dict_set state "saved_key" (Some k) ;;;
  dict_set state "saved_value" (Some v) ;;;
  outer_set inc "attn_state" state ;;;
  ret (k, v).

(** Lines 175-219. *)
Definition attention (self : SRUppTransducerAttention) (q k v residual : Tensor)
    (tgt_len src_len bsz : nat) (head_dim : Z) (scaling : R)
    (mask_pad : option (Tensor2 bool)) (attn_mask : option (Tensor2 R))
  : M Tensor :=
  let num_heads := A_num_heads self in
  q <~ lift (view_heads q tgt_len head_dim) ;~
  k <~ lift (view_heads k src_len head_dim) ;~
  v <~ lift (view_heads v src_len head_dim) ;~
  let bh := t_bsz q in
  let hd := Z.to_nat head_dim in
  let q := transpose01 q in
  let k := transpose01 k in
  let v := transpose01 v in
  let q := map (map (map (fun x => rmul x scaling))) q in
  attn_output_weights <~ lift (bmm src_len q (map (transpose_n hd) k)) ;~
  assert_ (Z.of_nat bh =? Z.of_nat bsz * num_heads) ;;;
  attn_output_weights <~
    match attn_mask with
    | Some attn_mask =>
        if decide (size2 attn_mask = [tgt_len; src_len])
        then ret (map (fun mat => zip_with (zip_with radd) mat (m_rows attn_mask))
                      attn_output_weights)
        else raise (ValueError msg_attn_mask)
    | None => ret attn_output_weights
    end ;~
  attn_output_weights <~
    match mask_pad with
    | Some mask_pad =>
        if decide (size2 mask_pad = [src_len; bsz])
        then ret (masked_fill_pad attn_output_weights mask_pad num_heads)
        else raise (ValueError msg_mask_pad)
    | None => ret attn_output_weights
    end ;~
  let attn_output_weights := map (map softmax) attn_output_weights in
  attn_output_weights <~
    F_dropout_mats attn_output_weights (A_attn_dropout self) (A_training self) ;~
  attn_output <~ lift (bmm hd attn_output_weights v) ;~
  attn_output <~ lift (merge_heads attn_output bh hd tgt_len bsz (A_proj_features self)) ;~
  attn_output <~ lift (rezero attn_output (A_alpha self) residual) ;~
  attn_output <~ match A_layer_norm self with
                 | Some layer_norm =>
                     if A_normalize_after self
                     then lift (LayerNorm_forward layer_norm attn_output)
                     else ret attn_output
                 | None => ret attn_output
                 end ;~
  attn_output <~ Dropout_forward (A_dropout self) attn_output ;~
  lift (Linear_forward (A_linear3 self) attn_output).

(** What lines 105-173 hand over to the attention computation. *)
Record AttnInputs : Type := mkAttnInputs {
  ai_q : Tensor;
  ai_k : Tensor;
  ai_v : Tensor;
  ai_residual : Tensor;
  ai_tgt_len : nat;
  ai_src_len : nat;
  ai_bsz : nat;
  ai_head_dim : Z;
  ai_scaling : R;
  ai_attn_mask : option (Tensor2 R);
  ai_cursor : option Cursor;
}.

(** Lines 105-173: the projections, the cursor and the cache update. *)
Definition attention_inputs (self : SRUppTransducerAttention)
    (input : Tensor) (mask_pad : option (Tensor2 bool)) (attn_mask : option (Tensor2 R))
    (incremental_state : option loc)
  : M AttnInputs :=
  let src_len := size0 input in
  let tgt_len := size0 input in
  let bsz := t_bsz input in
  let proj_dim := A_proj_features self in
  let num_heads := A_num_heads self in
  head_dim <~ (if num_heads =? 0 then raise ZeroDivisionError
               else ret (proj_dim / num_heads)) ;~
  scaling <~ (if head_dim =? 0 then raise ZeroDivisionError
              else ret (rpow_neg_half head_dim)) ;~
  q <~ lift (Linear_forward (A_linear1 self) input) ;~
  (* take saved queries in the state *)
  st <~ match incremental_state with
        | Some inc =>
            assert_ (is_none mask_pad) ;;;
            sc <~ take_saved_queries (A_right_window self) q inc ;~
            let cur := sc.2 in
            let attn_mask := option_map (fun attn_mask => align_attn_mask attn_mask cur)
                               attn_mask in
            ret (query_ready cur, size0 (query_ready cur), attn_mask, Some sc)
        | None => ret (q, tgt_len, attn_mask, None)
        end ;~
  let '(q, tgt_len, attn_mask, sc) := st in
  let residual := q in
  (* pre-layernorm *)
  q <~ match A_layer_norm self with
       | Some layer_norm =>
           if negb (A_normalize_after self)
           then lift (LayerNorm_forward layer_norm q)
           else ret q
       | None => ret q
       end ;~
  (* key, value *)
  kv0 <~ (x <~ lift (Linear_forward (A_linear2 self) q) ;~ lift (chunk2 x)) ;~
  kv <~ match incremental_state, sc with
        | Some inc, Some sc =>
            kv <~ update_saved sc.1 inc sc.2 kv0.1 kv0.2 ;~
            ret (kv, size0 kv.1)
        | _, _ => ret (kv0, src_len)
        end ;~
  let '(k, v, src_len) := kv in
  ret (mkAttnInputs q k v residual tgt_len src_len bsz head_dim scaling attn_mask
         (option_map snd sc)).

(** The forward method, returning besides its two results the locals
    the statements below speak about. *)
Definition SRUppTransducerAttention_locals (self : SRUppTransducerAttention)
    (input : Tensor) (mask_pad : option (Tensor2 bool)) (attn_mask : option (Tensor2 R))
    (incremental_state : option loc)
  : M (Tensor * option loc * AttnLocals) :=
  a <~ attention_inputs self input mask_pad attn_mask incremental_state ;~
  attn_output <~ attention self (ai_q a) (ai_k a) (ai_v a) (ai_residual a)
                   (ai_tgt_len a) (ai_src_len a) (ai_bsz a) (ai_head_dim a) (ai_scaling a)
                   mask_pad (ai_attn_mask a) ;~
  ret (attn_output, incremental_state,
       mkAttnLocals (ai_cursor a) (ai_attn_mask a) (ai_tgt_len a) (ai_src_len a)).

Definition SRUppTransducerAttention_forward (self : SRUppTransducerAttention)
    (input : Tensor) (mask_pad : option (Tensor2 bool)) (attn_mask : option (Tensor2 R))
    (incremental_state : option loc)
  : M (Tensor * option loc) :=
  r <~ SRUppTransducerAttention_locals self input mask_pad attn_mask incremental_state ;~
  ret r.1.

(** ** SRUppTransducerCell *)

(** The wrapped transform module is one of the two classes above. *)
Inductive Transform : Type :=
| TAttention (m : SRUppTransducerAttention)
| TLinear (m : SRUppTransducerLinear).

Definition transform_module_forward (t : Transform)
    (input : Tensor) (mask_pad : option (Tensor2 bool)) (attn_mask : option (Tensor2 R))
    (incremental_state : option loc)
  : M (Tensor * option loc) :=
  match t with
  | TAttention m => SRUppTransducerAttention_forward m input mask_pad attn_mask incremental_state
  | TLinear m => SRUppTransducerLinear_forward m input mask_pad attn_mask incremental_state
  end.

Definition transform_right_window (t : Transform) : Z :=
  match t with
  | TAttention m => A_right_window m
  | TLinear m => L_right_window m
  end.

(** The cell inherits from [SRUCell] (package [sru], not part of
    [extension.py]) its fields and the two methods
    [get_dropout_mask_] and [apply_recurrence]. The arithmetic of one
    timestep of the recurrence is the field [C_step]: from the static
    weight, the dropout mask, the pad-mask row, the frames of [U] and of
    the chunk at that timestep and the carry, it gives the hidden frame
    and the next carry. *)
Record SRUppTransducerCell : Type := mkSRUppTransducerCell {
  C_output_size : nat;
  C_dropout : R;
  C_training : bool;
  C_weight_c : list R;
  C_transform_module : Transform;
  C_get_dropout_mask_ : Rng -> nat * nat -> R -> Tensor2 R * Rng;
  C_step : list R -> option (Tensor2 R) -> option (list bool) ->
           list R -> list R -> Tensor2 R -> list R * Tensor2 R;
}.

Definition get_dropout_mask_ (self : SRUppTransducerCell) (shape : nat * nat) (p : R)
  : M (Tensor2 R) :=
  fun w => let '(m, g) := C_get_dropout_mask_ self (w_rng w) shape p in
           (Ok m, mkWorld (w_outer w) (w_inner w) g (w_log w)).

Fixpoint recurrence (step : option (list bool) -> list R -> list R -> Tensor2 R ->
                            list R * Tensor2 R)
    (pads : nat -> option (list bool)) (t : nat)
    (us xs : list (list R)) (c : Tensor2 R) : list (list R) * Tensor2 R :=
  match us, xs with
  | u :: us', x :: xs' =>
      let '(h, c1) := step (pads t) u x c in
      let '(hs, c2) := recurrence step pads (S t) us' xs' c1 in
      (h :: hs, c2)
  | _, _ => ([], c)
  end.

(** Modelled from the spec: [SRUCell.apply_recurrence], which the cell
    inherits, is not in [extension.py]. Section 4.4 has it run the
    elementwise gated recurrence over [U], the static weight, the
    original chunk (the highway path), the carry and the dropout mask,
    the state at timestep t depending on the carry of timestep t-1, and
    give the hidden sequence and the new carry: a left-to-right pass that
    pairs the frame of [U] and the frame of the chunk at each timestep.
    Every call is recorded in the log of the store. *)
Definition apply_recurrence (self : SRUppTransducerCell)
    (U : Tensor) (V : list R) (residual : Tensor) (c0 : Tensor2 R)
    (scale_val : option R) (mask_c : option (Tensor2 R))
    (mask_pad : option (Tensor2 bool))
  : M (Tensor * Tensor2 R) :=
  fun w =>
    let pads t := mask_pad ≫= (fun m => m_rows m !! t) in
    let '(hs, c) := recurrence (C_step self V mask_c) pads 0%nat
                      (t_steps U) (t_steps residual) c0 in
    (Ok (mkTensor (t_bsz U) (C_output_size self) hs, c),
     mkWorld (w_outer w) (w_inner w) (w_rng w) (EvRecurrence (size0 U) :: w_log w)).

(** Lines 391-394: the dropout mask of the call. *)
Definition cell_dropout_mask (self : SRUppTransducerCell) (batch_size : nat)
  : M (option (Tensor2 R)) :=
  if C_training self && rltb r0 (C_dropout self)
  then m <~ get_dropout_mask_ self (batch_size, C_output_size self) (C_dropout self) ;~
       ret (Some m)
  else ret None.

(** The forward method. A [Tensor] has three axes, so the test
    [input.dim() != 3] of line 382 never fires. *)
Definition SRUppTransducerCell_forward (self : SRUppTransducerCell)
    (input : Tensor) (c0 : option (Tensor2 R))
    (mask_pad : option (Tensor2 bool)) (attn_mask : option (Tensor2 R))
    (incremental_state : option loc)
  : M (Tensor * Tensor2 R * option loc) :=
  let batch_size := t_bsz input in
  let c0 := match c0 with
            | Some c0 => c0
            | None => zeros2 batch_size (C_output_size self)
            end in
  (* get dropout mask *)
  mask_c <~ cell_dropout_mask self batch_size ;~
  (* compute U *)
  r <~ transform_module_forward (C_transform_module self) input mask_pad attn_mask
         incremental_state ;~
  let '(U, incremental_state) := r in
  let V := C_weight_c self in
  if decide (numel U = 0%nat)
  then
    let empty_h := zeros3 0 batch_size (C_output_size self) in
    ret (empty_h, c0, incremental_state)
  else
    hc <~ apply_recurrence self U V input c0 None mask_c mask_pad ;~
    ret (hc.1, hc.2, incremental_state).

(** The constructor: the transform module is built from the arguments;
    what [SRUCell.__init__] sets up (the static weight and the two
    inherited methods) is given. The cell starts in training mode. *)
Definition SRUppTransducerCell_init
    (input_size hidden_size projection_size num_heads : Z)
    (dropout attn_dropout : R)
    (layer_norm normalize_after has_attention : bool) (right_window : Z)
    (xavier1 xavier2 xavier3 : list (list R)) (norm : list R -> list R)
    (weight_c : list R)
    (get_mask : Rng -> nat * nat -> R -> Tensor2 R * Rng)
    (step : list R -> option (Tensor2 R) -> option (list bool) ->
            list R -> list R -> Tensor2 R -> list R * Tensor2 R)
  : result SRUppTransducerCell :=
  transform_module <~!
    (if has_attention
     then m <~! SRUppTransducerAttention_init input_size hidden_size projection_size
                  num_heads dropout attn_dropout r0 layer_norm normalize_after
                  right_window xavier1 xavier2 xavier3 norm ;~
          Ok (TAttention m)
     else m <~! SRUppTransducerLinear_init input_size hidden_size projection_size
                  dropout layer_norm right_window xavier1 xavier2 norm ;~
          Ok (TLinear m)) ;~
  Ok (mkSRUppTransducerCell (Z.to_nat hidden_size) dropout true weight_c
        transform_module get_mask step).

(** [module.eval()]: the module and its submodules leave training mode. *)
Definition Dropout_eval (d : Dropout) : Dropout := mkDropout (drop_p d) false.

Definition SRUppTransducerLinear_eval (m : SRUppTransducerLinear) : SRUppTransducerLinear :=
  mkSRUppTransducerLinear (L_in_features m) (L_out_features m) (L_proj_features m)
    (L_right_window m) (Dropout_eval (L_dropout m)) (L_linear1 m) (L_linear2 m)
    (L_layer_norm m).

Definition SRUppTransducerAttention_eval (m : SRUppTransducerAttention)
  : SRUppTransducerAttention :=
  mkSRUppTransducerAttention (A_in_features m) (A_out_features m) (A_proj_features m)
    (A_num_heads m) (A_right_window m) (Dropout_eval (A_dropout m)) (A_attn_dropout m)
    (A_rezero_init_alpha m) (A_linear1 m) (A_linear2 m) (A_linear3 m) (A_alpha m)
    (A_normalize_after m) (A_layer_norm m) false.

Definition Transform_eval (t : Transform) : Transform :=
  match t with
  | TAttention m => TAttention (SRUppTransducerAttention_eval m)
  | TLinear m => TLinear (SRUppTransducerLinear_eval m)
  end.

Definition SRUppTransducerCell_eval (c : SRUppTransducerCell) : SRUppTransducerCell :=
  mkSRUppTransducerCell (C_output_size c) (C_dropout c) false (C_weight_c c)
    (Transform_eval (C_transform_module c)) (C_get_dropout_mask_ c) (C_step c).

(** ** Streaming sessions

    The caller of a streaming session creates an empty incremental
    state, feeds the chunks in order, and passes what a call returns on
    to the next call. *)

Fixpoint stream {X} (call : Tensor -> option (Tensor2 R) -> option loc -> M (X * option loc))
    (chunks : list (Tensor * option (Tensor2 R))) (incremental_state : option loc)
  : M (list X * option loc) :=
  match chunks with
  | [] => ret ([], incremental_state)
  | (chunk, attn_mask) :: rest =>
      r <~ call chunk attn_mask incremental_state ;~
      rs <~ stream call rest r.2 ;~
      ret (r.1 :: rs.1, rs.2)
  end.

Definition session {X} (call : Tensor -> option (Tensor2 R) -> option loc -> M (X * option loc))
    (chunks : list (Tensor * option (Tensor2 R)))
  : M (list X * option loc) :=
  inc <~ new_outer ;~
  stream call chunks (Some inc).

(** A streaming session of the cell: the carry starts absent and is
    threaded by the caller. *)
Fixpoint stream_cell (self : SRUppTransducerCell) (chunks : list Tensor)
    (c : option (Tensor2 R)) (incremental_state : option loc)
  : M (list Tensor * option (Tensor2 R) * option loc) :=
  match chunks with
  | [] => ret ([], c, incremental_state)
  | chunk :: rest =>
      r <~ SRUppTransducerCell_forward self chunk c None None incremental_state ;~
      let '(h, c1, inc1) := r in
      rs <~ stream_cell self rest (Some c1) inc1 ;~
      let '(hs, c2, inc2) := rs in
      ret (h :: hs, c2, inc2)
  end.

Definition session_cell (self : SRUppTransducerCell) (chunks : list Tensor)
  : M (list Tensor * option (Tensor2 R) * option loc) :=
  inc <~ new_outer ;~
  stream_cell self chunks None (Some inc).

(** The frames of a list of tensors, in order. *)
Definition all_steps (ts : list Tensor) : list (list R) :=
  concat (map t_steps ts).

(** The slots of the inner dictionary of an incremental state. *)
Definition attn_state_of (w : World) (inc : loc) : option (gmap string (option Tensor)) :=
  s ← outer_dict w inc !! "attn_state"; Some (inner_dict w s).

(** A slot of the incremental state: [None] when the key (or the whole
    inner dictionary) is absent, [Some None] when it holds [None]. *)
Definition slot (w : World) (inc : loc) (key : string) : option (option Tensor) :=
  d ← attn_state_of w inc; d !! key.

Definition slot_len (w : World) (inc : loc) (key : string) : option nat :=
  v ← slot w inc key; t ← v; Some (size0 t).

(** The inner dictionary a call works on: the one under ["attn_state"],
    or an empty one. *)
Definition state_dict (w : World) (inc : loc) : gmap string (option Tensor) :=
  default ∅ (attn_state_of w inc).

(** The frames a slot holds; none when it is absent. *)
Definition saved_steps (w : World) (inc : loc) (key : string) : list (list R) :=
  match slot w inc key with
  | Some (Some t) => t_steps t
  | _ => []
  end.

(** The trailing sizes a tensor must have for lines 321-323 to accept
    it. *)
Definition L_tail_accepts (self : SRUppTransducerLinear) (feat : nat) : Prop :=
  match L_layer_norm self with
  | Some layer_norm => feat = ln_shape layer_norm
  | None => True
  end /\
  bad_probability (drop_p (L_dropout self)) = false /\
  feat = lin_in (L_linear2 self).

(** One frame through the modules of the linear transform after the
    first projection (lines 321-323, outside training), and through the
    whole transform. *)
Definition L_tail_frame (self : SRUppTransducerLinear) (bsz : nat) (fr : list R) : list R :=
  Linear_rows (L_linear2 self) bsz
    (match L_layer_norm self with
     | Some layer_norm => LayerNorm_rows layer_norm bsz fr
     | None => fr
     end).

Definition L_frame (self : SRUppTransducerLinear) (bsz : nat) (fr : list R) : list R :=
  L_tail_frame self bsz (Linear_rows (L_linear1 self) bsz fr).

(** What the cursor computes in a call that starts in the store [w]
    with the projected queries [q]. *)
Definition cursor_spec (right_window : Z) (q : Tensor) (w : World) (inc : loc)
    (cur : Cursor) : Prop :=
  t_steps (all_query cur) = saved_steps w inc "saved_query" ++ t_steps q /\
  t_bsz (all_query cur) = t_bsz q /\
  t_feat (all_query cur) = t_feat q /\
  num_query_ready cur = Z.max 0 (Z.of_nat (size0 (all_query cur)) - right_window) /\
  query_ready cur = slice0 (all_query cur) None (Some (num_query_ready cur)) /\
  query_not_ready cur = slice0 (all_query cur) (Some (num_query_ready cur)) None.

(** The store [w'] is the store [w] after a call has written the inner
    dictionary [d'] through the incremental state [inc]: the inner
    dictionary object that was under ["attn_state"], or a new object
    when the key was absent, now holds [d']; the outer dictionary
    object [inc] has it under ["attn_state"]; no other object changes. *)
Definition state_written (w w' : World) (inc : loc)
    (d' : gmap string (option Tensor)) : Prop :=
  exists s : loc,
    (outer_dict w inc !! "attn_state" = Some s \/
     (outer_dict w inc !! "attn_state" = None /\ w_inner w !! s = None)) /\
    w_outer w' = <[inc := <["attn_state" := s]> (outer_dict w inc)]> (w_outer w) /\
    w_inner w' = <[s := d']> (w_inner w).

(** The inner dictionary after a streaming call of the attention
    transform that held back [nr] and now caches [k] and [v]. *)
Definition attn_dict (d : gmap string (option Tensor)) (nr k v : Tensor)
  : gmap string (option Tensor) :=
  <["saved_value" := Some v]> (<["saved_key" := Some k]> (<["saved_query" := Some nr]> d)).

(** The calls of a streaming session of each transform: no pad mask,
    and the locals returned with the output. *)
Definition linear_call (self : SRUppTransducerLinear)
    (chunk : Tensor) (attn_mask : option (Tensor2 R)) (incremental_state : option loc)
  : M (Tensor * option Cursor * option loc) :=
  r <~ SRUppTransducerLinear_locals self chunk None attn_mask incremental_state ;~
  ret (r.1.1, r.2, r.1.2).

Definition attention_call (self : SRUppTransducerAttention)
    (chunk : Tensor) (attn_mask : option (Tensor2 R)) (incremental_state : option loc)
  : M (Tensor * AttnLocals * option loc) :=
  r <~ SRUppTransducerAttention_locals self chunk None attn_mask incremental_state ;~
  ret (r.1.1, r.2, r.1.2).

Definition transform_call (t : Transform)
    (chunk : Tensor) (attn_mask : option (Tensor2 R)) (incremental_state : option loc)
  : M (Tensor * option loc) :=
  transform_module_forward t chunk None attn_mask incremental_state.

(** The forward method of the wrapped transform with the cursor it
    computed, and the first projection of the transform. *)
Definition transform_locals (t : Transform)
    (input : Tensor) (mask_pad : option (Tensor2 bool)) (attn_mask : option (Tensor2 R))
    (incremental_state : option loc)
  : M (Tensor * option loc * option Cursor) :=
  match t with
  | TAttention m =>
      r <~ SRUppTransducerAttention_locals m input mask_pad attn_mask incremental_state ;~
      ret (r.1, al_cursor r.2)
  | TLinear m => SRUppTransducerLinear_locals m input mask_pad attn_mask incremental_state
  end.

Definition transform_linear1 (t : Transform) : Linear :=
  match t with
  | TAttention m => A_linear1 m
  | TLinear m => L_linear1 m
  end.

(** The lengths in a streaming session, as arithmetic: from the number
    [held] of saved queries and the lengths of the incoming chunks, the
    numbers of ready timesteps of the calls, and the number held back at
    the end. *)
Fixpoint cursor_lengths (right_window held : Z) (lens : list nat) : list Z * Z :=
  match lens with
  | [] => ([], held)
  | l :: rest =>
      let all := held + Z.of_nat l in
      let ready := Z.max 0 (all - right_window) in
      let r := cursor_lengths right_window (all - ready) rest in
      (ready :: r.1, r.2)
  end.

Definition sumZ (l : list Z) : Z := foldr Z.add 0 l.

(** The numbers of ready queries of the calls of a session of the
    attention transform. *)
Definition ready_counts (xs : list (Tensor * AttnLocals)) : list Z :=
  map (fun x => from_option num_query_ready 0 (al_cursor x.2)) xs.
Definition total_len (chunks : list (Tensor * option (Tensor2 R))) : Z :=
  sumZ (map (fun c => Z.of_nat (size0 c.1)) chunks).

(** A call follows the cursor: it returns the incremental state it was
    given, its output has the ready timesteps, and it leaves the rest in
    the slot of the saved queries. *)
Definition cursor_call {X} (right_window : Z) (out_len : X -> nat)
    (call : Tensor -> option (Tensor2 R) -> option loc -> M (X * option loc)) : Prop :=
  forall chunk attn_mask inc w x inc' w',
    call chunk attn_mask (Some inc) w = (Ok (x, inc'), w') ->
    let all := Z.of_nat (length (saved_steps w inc "saved_query") + size0 chunk) in
    inc' = Some inc /\
    Z.of_nat (out_len x) = Z.max 0 (all - right_window) /\
    (exists t, slot w' inc "saved_query" = Some (Some t)) /\
    Z.of_nat (length (saved_steps w' inc "saved_query")) = Z.min right_window all.

(** The first lines of a forward method accept the input: the head
    size is defined and not zero (attention), and the input has the
    feature size of the first projection. *)
Definition transform_accepts (t : Transform) (input : Tensor) : Prop :=
  match t with
  | TAttention m =>
      A_num_heads m <> 0 /\ A_proj_features m / A_num_heads m <> 0 /\
      t_feat input = lin_in (A_linear1 m)
  | TLinear m => t_feat input = lin_in (L_linear1 m)
  end.

(** What the constructor of the attention transform guarantees about
    the sizes of the module. *)
Definition attn_wf (self : SRUppTransducerAttention) : Prop :=
  A_num_heads self <> 0 /\
  A_proj_features self mod A_num_heads self = 0 /\
  0 <= A_proj_features self /\
  lin_out (A_linear1 self) = Z.to_nat (A_proj_features self) /\
  lin_out (A_linear2 self) = Z.to_nat (A_proj_features self * 2).

(** A partition of the frames of a stream into consecutive chunks, as
    the calls of a streaming session of a transform (no attention mask)
    and of the cell. *)
Definition chunk_tensors (bsz feat : nat) (pieces : list (list (list R))) : list Tensor :=
  map (mkTensor bsz feat) pieces.

Definition chunk_calls (bsz feat : nat) (pieces : list (list (list R)))
  : list (Tensor * option (Tensor2 R)) :=
  map (fun p => (mkTensor bsz feat p, None)) pieces.

(** The hidden frames and the carry the cell computes, outside
    training and without a pad mask, from the frames [xs] of a chunk of
    batch size [bsz] that the linear transform [m] passes through
    whole. *)
Definition cell_frames (self : SRUppTransducerCell) (m : SRUppTransducerLinear)
    (bsz : nat) (xs : list (list R)) (c : Tensor2 R) : list (list R) * Tensor2 R :=
  if decide (length xs * bsz * lin_out (L_linear2 m) = 0)%nat
  then ([], c)
  else recurrence (C_step self (C_weight_c self) None) (fun _ => None) 0%nat
         (map (L_frame m bsz) xs) xs c.

(** An exception that is neither the size error of [view] nor a failed
    assertion, and one that is not the size error of [view]. *)
Definition no_head_failure (e : exn) : Prop :=
  e <> RuntimeError msg_view_size /\ e <> AssertionError.
Definition no_view_size (e : exn) : Prop := e <> RuntimeError msg_view_size.

(** Every exception a computation raises satisfies [P]. *)
Definition raises_only {A} (P : exn -> Prop) (m : M A) : Prop :=
  forall w e w', m w = (Raise e, w') -> P e.

(** A computation that leaves the log of recurrence calls as it is. *)
Definition keeps_log {A} (m : M A) : Prop :=
  forall w r w', m w = (r, w') -> w_log w' = w_log w.

(** A step that only rewrites the inner dictionary object [s]. *)
Definition touches (s : loc) (w w1 : World) : Prop :=
  w_outer w1 = w_outer w /\ w_rng w1 = w_rng w /\ w_log w1 = w_log w /\
  forall d, <[s := d]> (w_inner w1) = <[s := d]> (w_inner w).

(** The slot of the saved queries is absent, or holds a tensor with
    the trailing sizes [bsz] and [feat]. *)
Definition saved_query_fits (w : World) (inc : loc) (bsz feat : nat) : Prop :=
  match slot w inc "saved_query" with
  | None => True
  | Some None => False
  | Some (Some t) => t_bsz t = bsz /\ t_feat t = feat
  end.

(** The two dictionaries and the log are the same in two stores. *)
Definition same_dicts (w w' : World) : Prop :=
  w_outer w' = w_outer w /\ w_inner w' = w_inner w /\ w_log w' = w_log w.

(** ** Predicates of the statements about the remaining code *)

(** A slot is absent, or holds a tensor with the trailing sizes [bsz]
    and [feat]. *)
Definition slot_fits (w : World) (inc : loc) (key : string) (bsz feat : nat) : Prop :=
  match slot w inc key with
  | None => True
  | Some None => False
  | Some (Some t) => t_bsz t = bsz /\ t_feat t = feat
  end.

(** The state a streaming call of the attention transform can work on:
    the three slots fit, and the two histories have the same length. *)
Definition attn_state_fits (w : World) (inc : loc) (bsz proj : nat) : Prop :=
  slot_fits w inc "saved_query" bsz proj /\
  slot_fits w inc "saved_key" bsz proj /\
  slot_fits w inc "saved_value" bsz proj /\
  length (saved_steps w inc "saved_key") = length (saved_steps w inc "saved_value").

(** The sizes and the dropout probability that the constructor of the
    attention transform sets up. *)
Definition attn_shaped (self : SRUppTransducerAttention) : Prop :=
  0 < A_num_heads self /\ 0 < A_proj_features self /\
  A_proj_features self mod A_num_heads self = 0 /\
  lin_out (A_linear1 self) = Z.to_nat (A_proj_features self) /\
  lin_in (A_linear2 self) = Z.to_nat (A_proj_features self) /\
  lin_out (A_linear2 self) = Z.to_nat (A_proj_features self * 2) /\
  lin_in (A_linear3 self) = Z.to_nat (A_proj_features self) /\
  match A_layer_norm self with
  | Some layer_norm => ln_shape layer_norm = Z.to_nat (A_proj_features self)
  | None => True
  end /\
  bad_probability (drop_p (A_dropout self)) = false.

(** What the forward method of the attention transform relies on: the
    constructor does not look at [attn_dropout]. *)
Definition attn_sized (self : SRUppTransducerAttention) : Prop :=
  attn_shaped self /\ bad_probability (A_attn_dropout self) = false.

(** The first of the checks of lines 184-206 that fails on masks of the
    wrong size or on a probability that [F.dropout] refuses, if any. *)
Definition attention_check (mask_pad : option (Tensor2 bool)) (attn_mask : option (Tensor2 R))
    (tgt_len src_len bsz : nat) (p : R) : option exn :=
  if negb (from_option (fun am => bool_decide (size2 am = [tgt_len; src_len])) true attn_mask)
  then Some (ValueError msg_attn_mask)
  else if negb (from_option (fun mp => bool_decide (size2 mp = [src_len; bsz])) true mask_pad)
  then Some (ValueError msg_mask_pad)
  else if bad_probability p then Some (ValueError msg_dropout_p)
  else None.

(** The masks of a call fit the sizes the attention computation checks. *)
Definition masks_fit (mask_pad : option (Tensor2 bool)) (attn_mask : option (Tensor2 R))
    (tgt_len src_len bsz : nat) : Prop :=
  match attn_mask with
  | Some attn_mask => size2 attn_mask = [tgt_len; src_len]
  | None => True
  end /\
  match mask_pad with
  | Some mask_pad => size2 mask_pad = [src_len; bsz]
  | None => True
  end.

(** A computation that leaves the component [f] of the store as it is,
    whatever its outcome. *)
Definition preserves {A X} (f : World -> X) (m : M A) : Prop :=
  forall w r w', m w = (r, w') -> f w' = f w.

(** The dictionary objects of a store. *)
Definition dicts (w : World) : gmap loc (gmap string loc) * gmap loc (gmap string (option Tensor)) :=
  (w_outer w, w_inner w).

(** A transform after [eval()]: neither it nor its dropout module is in
    training mode. *)
Definition transform_eval_mode (t : Transform) : Prop :=
  match t with
  | TAttention m => A_training m = false /\ drop_training (A_dropout m) = false
  | TLinear m => drop_training (L_dropout m) = false
  end.

(** The ready queries of the cursor of a call. *)
Definition ready_frames (c : option Cursor) : list (list R) :=
  from_option (fun c => t_steps (query_ready c)) [] c.

(** The projected queries of the chunks of a session, in order. *)
Definition projected (l : Linear) (chunks : list (Tensor * option (Tensor2 R)))
  : list (list R) :=
  concat (map (fun c => map (Linear_rows l (t_bsz c.1)) (t_steps c.1)) chunks).

(** A streaming call of a transform, returning its cursor. *)
Definition cursor_of_call (t : Transform)
    (chunk : Tensor) (attn_mask : option (Tensor2 R)) (incremental_state : option loc)
  : M (option Cursor * option loc) :=
  r <~ transform_locals t chunk None attn_mask incremental_state ;~
  ret (r.2, r.1.2).

(** Lines 147-153 on one timestep: the frame of the keys and the frame of
    the values of a frame of queries. *)
Definition A_kv_frame (self : SRUppTransducerAttention) (bsz : nat) (fr : list R)
  : list R * list R :=
  let fr := match A_layer_norm self with
            | Some layer_norm =>
                if negb (A_normalize_after self)
                then LayerNorm_rows layer_norm bsz fr
                else fr
            | None => fr
            end in
  let x := Linear_rows (A_linear2 self) bsz fr in
  let d := lin_out (A_linear2 self) in
  let h := ((d + 1) / 2)%nat in
  (concat (map (take h) (rows_of bsz d x)), concat (map (drop h) (rows_of bsz d x))).

End Model.

(** ** Exact scalars for concrete runs

    A run on concrete tensors is evaluated over the rationals, extended
    with minus infinity and with a value that stands for every number
    this arithmetic does not determine exactly. The operations answer
    with a rational only where the floating-point operation of the
    source gives exactly that value on small dyadic inputs. *)

Inductive xq : Type :=
| XQ (q : Q)
| XNegInf
| XUnknown.

Definition xq_add (a b : xq) : xq :=
  match a, b with
  | XQ x, XQ y => XQ (Qred (x + y))
  | XNegInf, XQ _ | XQ _, XNegInf | XNegInf, XNegInf => XNegInf
  | _, _ => XUnknown
  end.

Definition xq_mul (a b : xq) : xq :=
  match a, b with
  | XQ x, XQ y => XQ (Qred (x * y))
  | _, _ => XUnknown
  end.

Definition xq_ltb (a b : xq) : bool :=
  match a, b with
  | XQ x, XQ y => negb (Qle_bool y x)
  | XNegInf, XQ _ => true
  | _, _ => false
  end.

Definition xq_pow_neg_half (n : Z) : xq :=
  if n =? 1 then XQ 1 else if n =? 4 then XQ (1 # 2) else XUnknown.

Definition xq_sqrt_one_minus (p : xq) : xq :=
  match p with
  | XQ x => if Qeq_bool x 0 then XQ 1 else if Qeq_bool x 1 then XQ 0 else XUnknown
  | _ => XUnknown
  end.

Definition xq_pow2 (n : nat) : bool :=
  match n with
  | O => false
  | _ => Z.of_nat n =? 2 ^ Z.log2 (Z.of_nat n)
  end.

(** The softmax of a row of [n] equal finite scores is the uniform row
    of [1/n]: floating-point arithmetic gives exactly that when [n] is a
    power of two, and the answer is given for such rows only. *)
Definition xq_softmax (l : list xq) : list xq :=
  match l with
  | XQ x :: l' =>
      if xq_pow2 (length l)
         && forallb (fun y => match y with XQ y => Qeq_bool x y | _ => false end) l'
      then map (fun _ => XQ (Qred (1 / inject_Z (Z.of_nat (length l))))) l
      else map (fun _ => XUnknown) l
  | _ => map (fun _ => XUnknown) l
  end.

#[export] Instance xq_scalar : Scalar xq := {|
  r0 := XQ 0;
  r1 := XQ 1;
  radd := xq_add;
  rmul := xq_mul;
  rltb := xq_ltb;
  rneg_inf := XNegInf;
  rpow_neg_half := xq_pow_neg_half;
  rsqrt_one_minus := xq_sqrt_one_minus;
  softmax := xq_softmax;
|}.

(** Dropout with probability 0 keeps an entry, with probability 1 it
    zeroes it; the generator has one state. *)
#[export] Instance xq_dropper : Dropper xq unit := {|
  bernoulli_drop g p x :=
    match p with
    | XQ q => if Qeq_bool q 0 then (x, g) else if Qeq_bool q 1 then (XQ 0, g) else (XUnknown, g)
    | _ => (XUnknown, g)
    end;
|}.

Definition xq_world : World (R := xq) (Rng := unit) := mkWorld ∅ ∅ tt [].

(** A tensor of one sequence with one feature per timestep. *)
Definition xq_seq (l : list Z) : Tensor (R := xq) :=
  mkTensor 1 1 (map (fun z => [XQ (inject_Z z)]) l).


Definition from_ok {A} (d : A) (r : result A) : A :=
  match r with Ok a => a | Raise _ => d end.

Definition xq_one : list (list xq) := [[XQ 1]].

(** A linear transform with one feature everywhere, identity weights,
    no dropout and no normalisation, outside training mode. *)
Definition xq_linear (right_window : Z) : SRUppTransducerLinear (R := xq) :=
  SRUppTransducerLinear_eval
    (from_ok (mkSRUppTransducerLinear 0 0 0 0 (mkDropout (XQ 0) false)
                (mkLinear 0 0 []) (mkLinear 0 0 []) None)
       (SRUppTransducerLinear_init 1 1 1 (XQ 0) false right_window xq_one xq_one
          (fun x => x))).

(** An attention transform with one head and one feature everywhere:
    the key of a timestep is 0 and its value is its query, [alpha] is 1,
    no dropout and no normalisation, outside training mode. *)
Definition xq_attention (right_window : Z) : SRUppTransducerAttention (R := xq) :=
  SRUppTransducerAttention_eval
    (from_ok (mkSRUppTransducerAttention 0 0 0 0 0 (mkDropout (XQ 0) false) (XQ 0) (XQ 0)
                (mkLinear 0 0 []) (mkLinear 0 0 []) (mkLinear 0 0 []) (XQ 0) true None false)
       (SRUppTransducerAttention_init 1 1 1 1 (XQ 0) (XQ 0) (XQ 1) false true
          right_window xq_one [[XQ 0]; [XQ 1]] xq_one (fun x => x))).

(** The session of the scenario: chunks of lengths 3, 3, 3 and 2. *)
Definition xq_chunks : list (Tensor (R := xq) * option (Tensor2 xq)) :=
  [(xq_seq [1; 2; 3], None); (xq_seq [4; 5; 6], None); (xq_seq [7; 8; 9], None);
   (xq_seq [0; 0], None)].

(** A step of the recurrence for concrete runs: the carry accumulates
    the frames of [U], and the hidden frame is the carry plus the frame
    of the chunk (the highway path). *)
Definition xq_step (V : list xq) (mask_c : option (Tensor2 xq)) (pad : option (list bool))
    (u x : list xq) (c : Tensor2 xq) : list xq * Tensor2 xq :=
  let s := zip_with xq_add (concat (m_rows c)) u in
  (zip_with xq_add s x, mkTensor2 (m_cols c) (map (fun v => [v]) s)).

(** A cell of hidden size 1 around a transform, outside training mode. *)
Definition xq_cell (t : Transform (R := xq)) : SRUppTransducerCell (R := xq) (Rng := unit) :=
  mkSRUppTransducerCell 1 (XQ 0) false [] t (fun g _ _ => (mkTensor2 0 [], g)) xq_step.

(** The store after [incremental_state = {}], and that dictionary. *)
Definition xq_started : World (R := xq) (Rng := unit) := (new_outer xq_world).2.
Definition xq_state : loc := from_ok 0%nat (new_outer xq_world).1.

(** A store in which the incremental state [0] has one saved query and
    neither ["saved_key"] nor ["saved_value"]. *)
Definition xq_query_only : World (R := xq) (Rng := unit) :=
  mkWorld {[0%nat := {["attn_state" := 0%nat]}]}
          {[0%nat := {["saved_query" := Some (xq_seq [5])]}]} tt [].

(** The result and the store of a run. *)
Definition xq_value {A} (d : A) (r : result A * World (R := xq) (Rng := unit)) : A :=
  from_ok d r.1.
Definition xq_store {A} (r : result A * World (R := xq) (Rng := unit)) := r.2.

(** An attention mask of three rows over two keys; the rows differ. *)
Definition xq_mask : Tensor2 xq :=
  mkTensor2 2 [[XQ 0; XQ 0]; [XQ 1; XQ 1]; [XQ 2; XQ 2]].

(** A store in which the incremental states [0] and [1] hold the same
    inner dictionary, with one saved query. *)
Definition xq_shared : World (R := xq) (Rng := unit) :=
  mkWorld (<[1%nat := {["attn_state" := 0%nat]}]> {[0%nat := {["attn_state" := 0%nat]}]})
          {[0%nat := {["saved_query" := Some (xq_seq [5])]}]} tt [].

(** An attention transform as [xq_attention], built with an
    [attn_dropout] of 2. *)
Definition xq_attention_bad : SRUppTransducerAttention (R := xq) :=
  from_ok (mkSRUppTransducerAttention 0 0 0 0 0 (mkDropout (XQ 0) false) (XQ 0) (XQ 0)
             (mkLinear 0 0 []) (mkLinear 0 0 []) (mkLinear 0 0 []) (XQ 0) true None false)
    (SRUppTransducerAttention_init 1 1 1 1 (XQ 0) (XQ (inject_Z 2)) (XQ 1) false true
       0 xq_one [[XQ 0]; [XQ 1]] xq_one (fun x => x)).
(** * Properties *)

Section Proofs.

Context {R : Type} `{Scalar R} {Rng : Type} `{Dropper R Rng}.

Local Abbreviation tensor := (@Tensor R).
Local Abbreviation world := (@World R Rng).

(** ** Slicing *)

Lemma py_slice_to {A} (l : list A) (n : Z) :
  0 <= n -> py_slice l None (Some n) = take (Z.to_nat n) l.
Proof.
  intros Hn. unfold py_slice, py_index. simpl.
  destruct (Z.ltb_spec n 0) as [?|_]; [lia|].
  rewrite Nat.sub_0_r, drop_0.
  destruct (Z.le_gt_cases n (Z.of_nat (length l))).
  - by rewrite Z.min_l.
  - rewrite Z.min_r by lia. rewrite Nat2Z.id.
    rewrite !take_ge by lia. done.
Qed.

Lemma py_slice_from {A} (l : list A) (n : Z) :
  0 <= n -> py_slice l (Some n) None = drop (Z.to_nat n) l.
Proof.
  intros Hn. unfold py_slice, py_index. simpl.
  destruct (Z.ltb_spec n 0) as [?|_]; [lia|].
  destruct (Z.le_gt_cases n (Z.of_nat (length l))).
  - rewrite Z.min_l by lia.
    rewrite take_ge; [done|]. rewrite length_drop. lia.
  - rewrite Z.min_r by lia. rewrite Nat2Z.id, Nat.sub_diag. simpl.
    by rewrite !drop_ge by lia.
Qed.


(** ** Stepping through a call *)

Lemma bindM_Ok {A B} (m : M A) (k : A -> M B) (w w' : world) (b : B) :
  bindM m k w = (Ok b, w') ->
  exists a w1, m w = (Ok a, w1) /\ k a w1 = (Ok b, w').
Proof.
  unfold bindM. destruct (m w) as [[a|e] w1]; [eauto | discriminate].
Qed.

Lemma bindM_step {A B} (m : M A) (k : A -> M B) (w w1 : world) (a : A) :
  m w = (Ok a, w1) -> bindM m k w = k a w1.
Proof. unfold bindM. by intros ->. Qed.

Lemma bindM_raise {A B} (m : M A) (k : A -> M B) (w w1 : world) (e : exn) :
  m w = (Raise e, w1) -> bindM m k w = (Raise e, w1).
Proof. unfold bindM. by intros ->. Qed.

Lemma lift_Ok {A} (r : result A) (w w' : world) (a : A) :
  lift r w = (Ok a, w') -> r = Ok a /\ w' = w.
Proof. unfold lift. intros [= -> ->]. done. Qed.

Lemma ret_Ok {A} (x a : A) (w w' : world) :
  ret x w = (Ok a, w') -> a = x /\ w' = w.
Proof. unfold ret. intros [= -> ->]. done. Qed.

Lemma assert_Ok (b : bool) (w w' : world) (u : unit) :
  assert_ b w = (Ok u, w') -> b = true /\ w' = w.
Proof. destruct b; simpl; unfold ret, raise; intros [=]; subst; done. Qed.

End Proofs.

(** ** Dictionaries and the cursor *)

Section Dicts.

Context {R : Type} `{Scalar R} {Rng : Type} `{Dropper R Rng}.

Local Abbreviation tensor := (@Tensor R).
Local Abbreviation world := (@World R Rng).

Lemma same_dicts_refl (w : world) : same_dicts w w.
Proof. done. Qed.

Lemma same_dicts_trans (w1 w2 w3 : world) :
  same_dicts w1 w2 -> same_dicts w2 w3 -> same_dicts w1 w3.
Proof. intros (?&?&?) (?&?&?). repeat split; congruence. Qed.

Lemma same_dicts_state (w w' : world) (inc : loc) :
  same_dicts w w' -> attn_state_of w' inc = attn_state_of w inc.
Proof.
  intros (Ho & Hi & _). unfold attn_state_of, outer_dict, inner_dict.
  by rewrite Ho, Hi.
Qed.

Lemma same_dicts_slot (w w' : world) (inc : loc) (key : string) :
  same_dicts w w' -> slot w' inc key = slot w inc key.
Proof. intros Hs. unfold slot. by rewrite (same_dicts_state _ _ _ Hs). Qed.

Lemma slot_state_dict (w : world) (inc : loc) (key : string) :
  slot w inc key = state_dict w inc !! key.
Proof.
  unfold slot, state_dict. destruct (attn_state_of w inc); simpl; [done|].
  by rewrite lookup_empty.
Qed.

Lemma fetch_attn_state_Ok (inc : loc) (w w1 : world) (s : loc) :
  fetch_attn_state inc w = (Ok s, w1) ->
  inner_dict w1 s = state_dict w inc /\
  w_outer w1 = w_outer w /\ w_rng w1 = w_rng w /\ w_log w1 = w_log w /\
  (outer_dict w inc !! "attn_state" = Some s \/
   (outer_dict w inc !! "attn_state" = None /\ w_inner w !! s = None)) /\
  forall d, <[s := d]> (w_inner w1) = <[s := d]> (w_inner w).
Proof.
  unfold fetch_attn_state, state_dict, attn_state_of.
  destruct (outer_dict w inc !! "attn_state") as [s0|] eqn:E; simpl.
  - intros [= <- <-]. repeat split; eauto.
  - unfold new_inner. intros [= <- <-]. simpl.
    assert (w_inner w !! fresh (dom (w_inner w)) = None) as Hfresh.
    { apply not_elem_of_dom. apply is_fresh. }
    repeat split; eauto.
    + unfold inner_dict. simpl. by rewrite lookup_insert_eq.
    + intros d. by rewrite insert_insert_eq.
Qed.

Lemma fetch_attn_state_total (inc : loc) (w : world) :
  exists s w1, fetch_attn_state inc w = (Ok s, w1).
Proof.
  unfold fetch_attn_state.
  destruct (outer_dict w inc !! "attn_state"); unfold new_inner; eauto.
Qed.

Lemma clamp_max (n : Z) : (if n <? 0 then 0 else n) = Z.max 0 n.
Proof. destruct (Z.ltb_spec n 0); lia. Qed.

Lemma take_saved_queries_Ok (rw : Z) (q : tensor) (inc : loc) (w w1 : world)
    (s : loc) (cur : Cursor) :
  take_saved_queries rw q inc w = (Ok (s, cur), w1) ->
  inner_dict w1 s = state_dict w inc /\
  w_outer w1 = w_outer w /\ w_rng w1 = w_rng w /\ w_log w1 = w_log w /\
  (outer_dict w inc !! "attn_state" = Some s \/
   (outer_dict w inc !! "attn_state" = None /\ w_inner w !! s = None)) /\
  (forall d, <[s := d]> (w_inner w1) = <[s := d]> (w_inner w)) /\
  slot w inc "saved_query" <> Some None /\
  cursor_spec rw q w inc cur.
Proof.
  unfold take_saved_queries. intros Hrun.
  apply bindM_Ok in Hrun as (s0 & w0 & Hf & Hrun).
  apply fetch_attn_state_Ok in Hf as (Hd & Ho & Hr & Hl & Hal & Hins).
  apply bindM_Ok in Hrun as (sl & w2 & Hg & Hrun).
  unfold dict_get in Hg. injection Hg as <- <-.
  apply bindM_Ok in Hrun as (aq & w3 & Ha & Hrun).
  apply ret_Ok in Hrun as [Heq ->]. injection Heq as -> ->.
  assert (Hslot : slot w inc "saved_query" = inner_dict w0 s0 !! "saved_query")
    by (by rewrite slot_state_dict, Hd).
  unfold cursor_spec, saved_steps. rewrite Hslot. simpl.
  destruct (inner_dict w0 s0 !! "saved_query") as [[sq|]|] eqn:E.
  - apply lift_Ok in Ha as [Hc <-]. unfold cat0 in Hc.
    case_decide as Hsh; [|done]. injection Hc as <-. simpl.
    destruct Hsh as [-> ->].
    repeat split; try done. apply clamp_max.
  - discriminate.
  - apply ret_Ok in Ha as [-> <-].
    repeat split; try done. apply clamp_max.
Qed.

End Dicts.

(** ** Tensor operations *)

Section TensorOps.

Context {R : Type} `{Scalar R} {Rng : Type} `{Dropper R Rng}.

Local Abbreviation tensor := (@Tensor R).
Local Abbreviation world := (@World R Rng).

Lemma Linear_forward_Ok (l : Linear) (x y : tensor) :
  Linear_forward l x = Ok y ->
  t_feat x = lin_in l /\
  y = mkTensor (t_bsz x) (lin_out l) (map (Linear_rows l (t_bsz x)) (t_steps x)).
Proof. unfold Linear_forward. case_decide; [|done]. by intros [= <-]. Qed.

Lemma Linear_forward_shape (l : Linear) (x : tensor) :
  t_feat x = lin_in l ->
  Linear_forward l x = Ok (mkTensor (t_bsz x) (lin_out l)
                             (map (Linear_rows l (t_bsz x)) (t_steps x))).
Proof. intros Hf. unfold Linear_forward. by case_decide. Qed.

Lemma LayerNorm_forward_Ok (ln : LayerNorm) (x y : tensor) :
  LayerNorm_forward ln x = Ok y ->
  t_feat x = ln_shape ln /\
  y = mkTensor (t_bsz x) (t_feat x) (map (LayerNorm_rows ln (t_bsz x)) (t_steps x)).
Proof. unfold LayerNorm_forward. case_decide; [|done]. by intros [= <-]. Qed.

Lemma drop_list_length (p : R) (l : list R) (g : Rng) :
  length (drop_list p l g).1 = length l.
Proof.
  revert g. induction l as [|x l IH]; intros g; simpl; [done|].
  destruct (bernoulli_drop g p x) as [y g1].
  specialize (IH g1). destruct (drop_list p l g1) as [ys g2]. simpl in *.
  by rewrite IH.
Qed.

Lemma drop_rows_length (p : R) (ls : list (list R)) (g : Rng) :
  length (drop_rows p ls g).1 = length ls.
Proof.
  revert g. induction ls as [|l ls IH]; intros g; simpl; [done|].
  destruct (drop_list p l g) as [y g1].
  specialize (IH g1). destruct (drop_rows p ls g1) as [ys g2]. simpl in *.
  by rewrite IH.
Qed.

Lemma F_dropout_Ok (x y : tensor) (p : R) (training : bool) (w w' : world) :
  F_dropout x p training w = (Ok y, w') ->
  same_dicts w w' /\ size0 y = size0 x /\ t_bsz y = t_bsz x /\ t_feat y = t_feat x /\
  (training = false -> y = x /\ w' = w).
Proof.
  unfold F_dropout. destruct (bad_probability p); [done|].
  destruct training.
  - pose proof (drop_rows_length p (t_steps x) (w_rng w)) as Hlen.
    destruct (drop_rows p (t_steps x) (w_rng w)) as [ys g]. simpl in Hlen.
    intros [= <- <-]. repeat split; try done.
  - intros [= <- <-]. repeat split; done.
Qed.

Lemma F_dropout_mats_Ok (x y : list (list (list R))) (p : R) (training : bool)
    (w w' : world) :
  F_dropout_mats x p training w = (Ok y, w') ->
  same_dicts w w' /\ (training = false -> y = x /\ w' = w).
Proof.
  unfold F_dropout_mats. destruct (bad_probability p); [done|].
  destruct training.
  - destruct (drop_mats p x (w_rng w)) as [ys g]. intros [= <- <-]. by repeat split.
  - intros [= <- <-]. by repeat split.
Qed.

Lemma F_dropout_raise (x : tensor) (p : R) (training : bool) (w w' : world) (e : exn) :
  F_dropout x p training w = (Raise e, w') -> w' = w.
Proof.
  unfold F_dropout. destruct (bad_probability p); [by intros [= _ <-]|].
  destruct training; [|done].
  by destruct (drop_rows p (t_steps x) (w_rng w)).
Qed.

(** ** The cursor when the window is not negative *)

Lemma cursor_spec_sizes (rw : Z) (q : tensor) (w : world) (inc : loc) (cur : Cursor) :
  cursor_spec rw q w inc cur ->
  let all := saved_steps w inc "saved_query" ++ t_steps q in
  let n := Z.to_nat (num_query_ready cur) in
  t_steps (query_ready cur) = take n all /\
  t_steps (query_not_ready cur) = drop n all /\
  t_bsz (query_ready cur) = t_bsz q /\ t_feat (query_ready cur) = t_feat q /\
  t_bsz (query_not_ready cur) = t_bsz q /\ t_feat (query_not_ready cur) = t_feat q /\
  num_query_ready cur = Z.max 0 (Z.of_nat (length all) - rw).
Proof.
  intros (Hall & Hb & Hf & Hn & Hr & Hnr). simpl.
  assert (0 <= num_query_ready cur) by lia.
  rewrite Hr, Hnr. unfold slice0. simpl.
  rewrite py_slice_to, py_slice_from by done.
  rewrite Hall. repeat split; try done.
  rewrite Hn. unfold size0. by rewrite Hall.
Qed.

Lemma cursor_spec_lengths (rw : Z) (q : tensor) (w : world) (inc : loc) (cur : Cursor) :
  0 <= rw ->
  cursor_spec rw q w inc cur ->
  let la := (length (saved_steps w inc "saved_query") + size0 q)%nat in
  Z.of_nat (size0 (query_ready cur)) = num_query_ready cur /\
  num_query_ready cur = Z.max 0 (Z.of_nat la - rw) /\
  Z.of_nat (size0 (query_not_ready cur)) = Z.min rw (Z.of_nat la).
Proof.
  intros Hrw Hc. apply cursor_spec_sizes in Hc as (Hr & Hnr & _ & _ & _ & _ & Hn).
  simpl in *. unfold size0. rewrite Hr, Hnr, length_take, length_drop, Hn.
  rewrite length_app. unfold size0. lia.
Qed.

End TensorOps.

(** ** One call of the linear transform *)

Section LinearCall.

Context {R : Type} `{Scalar R} {Rng : Type} `{Dropper R Rng}.

Local Abbreviation tensor := (@Tensor R).
Local Abbreviation world := (@World R Rng).

Lemma state_written_state (w w' : world) (inc : loc) d' :
  state_written w w' inc d' -> attn_state_of w' inc = Some d'.
Proof.
  intros (s & _ & Ho & Hi). unfold attn_state_of, outer_dict, inner_dict.
  rewrite Ho, Hi. rewrite lookup_insert_eq. simpl.
  rewrite lookup_insert_eq. simpl. by rewrite lookup_insert_eq.
Qed.

Lemma state_written_slot (w w' : world) (inc : loc) d' (key : string) :
  state_written w w' inc d' -> slot w' inc key = d' !! key.
Proof. intros Hw. unfold slot. by rewrite (state_written_state _ _ _ _ Hw). Qed.

(** The last three lines of the forward method of the linear transform. *)
Lemma linear_tail_Ok (self : SRUppTransducerLinear) (q out : tensor) (w w' : world) :
  SRUppTransducerLinear_tail self q w = (Ok out, w') ->
  same_dicts w w' /\
  size0 out = size0 q /\ t_bsz out = t_bsz q /\
  (drop_training (L_dropout self) = false ->
   t_steps out = map (L_tail_frame self (t_bsz q)) (t_steps q) /\ w' = w).
Proof.
  unfold SRUppTransducerLinear_tail. intros Hrun.
  apply bindM_Ok in Hrun as (q1 & w1 & Hln & Hrun).
  apply bindM_Ok in Hrun as (d & w2 & Hd & Hrun).
  apply lift_Ok in Hrun as [Hl2 ->].
  apply Linear_forward_Ok in Hl2 as [_ ->].
  apply F_dropout_Ok in Hd as (Hsd & Hs & Hb & Hf & Hev).
  assert (w1 = w /\ size0 q1 = size0 q /\ t_bsz q1 = t_bsz q /\
          t_steps q1 = match L_layer_norm self with
                       | Some layer_norm => map (LayerNorm_rows layer_norm (t_bsz q)) (t_steps q)
                       | None => t_steps q
                       end) as (-> & Hs1 & Hb1 & Hst1).
  { destruct (L_layer_norm self) as [ln|].
    - apply lift_Ok in Hln as [Hln ->].
      apply LayerNorm_forward_Ok in Hln as [_ ->]. unfold size0. simpl.
      by rewrite length_map.
    - by apply ret_Ok in Hln as [-> ->]. }
  split; [done|]. unfold size0 in *. simpl. rewrite length_map.
  split; [congruence|]. split; [congruence|].
  intros Hev'. destruct (Hev Hev') as [-> ->]. split; [|done].
  rewrite Hb1, Hst1. unfold L_tail_frame.
  destruct (L_layer_norm self); [|done].
  by rewrite map_map.
Qed.

Lemma linear_streaming_call (self : SRUppTransducerLinear) (input : tensor)
    mask_pad attn_mask (inc : loc) (w w' : world) out inc' lc :
  SRUppTransducerLinear_locals self input mask_pad attn_mask (Some inc) w
    = (Ok (out, inc', lc), w') ->
  exists q cur,
    mask_pad = None /\ inc' = Some inc /\ lc = Some cur /\
    Linear_forward (L_linear1 self) input = Ok q /\
    slot w inc "saved_query" <> Some None /\
    cursor_spec (L_right_window self) q w inc cur /\
    state_written w w' inc
      (<["saved_query" := Some (query_not_ready cur)]> (state_dict w inc)) /\
    w_log w' = w_log w /\
    size0 out = size0 (query_ready cur) /\ t_bsz out = t_bsz input /\
    (drop_training (L_dropout self) = false ->
     t_steps out = map (L_tail_frame self (t_bsz input)) (t_steps (query_ready cur)) /\
     w_rng w' = w_rng w).
Proof.
  unfold SRUppTransducerLinear_locals. intros Hrun.
  apply bindM_Ok in Hrun as (q & w0 & Hq & Hrun).
  apply lift_Ok in Hq as [Hq ->].
  apply bindM_Ok in Hrun as ([qr lc0] & w1 & Hcur & Hrun).
  apply bindM_Ok in Hcur as ([] & w2 & Has & Hcur).
  apply assert_Ok in Has as [Hmp ->].
  apply bindM_Ok in Hcur as ([s cur] & w3 & Htk & Hcur).
  apply take_saved_queries_Ok in Htk as (Hd & Ho & Hr & Hl & Hal & Hins & Hnn & Hc).
  apply bindM_Ok in Hcur as ([] & w4 & Hset & Hcur).
  unfold dict_set in Hset. injection Hset as <-.
  apply bindM_Ok in Hcur as ([] & w5 & Hos & Hcur).
  unfold outer_set in Hos. injection Hos as <-.
  apply ret_Ok in Hcur as [Heq ->]. injection Heq as -> ->.
  simpl in Hrun.
  apply bindM_Ok in Hrun as (o & w6 & Htail & Hrun).
  apply ret_Ok in Hrun as [Heq ->]. injection Heq as -> -> ->.
  apply linear_tail_Ok in Htail as (Hsd & Hsz & Hbs & Hev).
  destruct Hsd as (Hso & Hsi & Hsl). simpl in *.
  exists q, cur. destruct mask_pad; [done|].
  pose proof (cursor_spec_sizes _ _ _ _ _ Hc) as (_ & _ & Hbr & _).
  pose proof (Linear_forward_Ok _ _ _ Hq) as [_ Hqe].
  assert (t_bsz q = t_bsz input) as Hbq by (by rewrite Hqe).
  split_and!; try done.
  - unfold state_written. exists s. split; [done|]. rewrite Hso, Hsi. unfold outer_dict at 1. simpl.
    rewrite Hd, Hins. split; [|done]. unfold outer_dict. by rewrite Ho.
  - congruence.
  - congruence.
  - intros Hev'. destruct (Hev Hev') as [-> ->]. simpl. split; congruence.
Qed.

End LinearCall.

(** ** One call of the attention transform *)

Section AttentionCall.

Context {R : Type} `{Scalar R} {Rng : Type} `{Dropper R Rng}.

Local Abbreviation tensor := (@Tensor R).
Local Abbreviation world := (@World R Rng).

Lemma touches_refl s (w : world) : touches s w w.
Proof. done. Qed.

Lemma dict_set_run (s : loc) (key : string) (v : option tensor) (w w1 : world) u :
  dict_set s key v w = (Ok u, w1) ->
  inner_dict w1 s = <[key := v]> (inner_dict w s) /\ touches s w w1.
Proof.
  unfold dict_set. intros [= _ <-]. split.
  - unfold inner_dict at 1. simpl. by rewrite lookup_insert_eq.
  - repeat split; try done; simpl; intros d; by rewrite insert_insert_eq.
Qed.

Lemma touches_trans s (w1 w2 w3 : world) : touches s w1 w2 -> touches s w2 w3 -> touches s w1 w3.
Proof.
  intros (?&?&?&Ha) (?&?&?&Hb). repeat split; try congruence;
    intros d; by rewrite Hb, Ha.
Qed.

Lemma get_saved_Ok (slot_v : option (option tensor)) (x y : tensor) (w w' : world) :
  match slot_v with
  | Some saved =>
      match saved with
      | Some saved => lift (cat0 saved x)
      | None => raise AssertionError
      end
  | None => ret x
  end w = (Ok y, w') ->
  w' = w /\ slot_v <> Some None /\
  t_steps y = match slot_v with Some (Some t) => t_steps t | _ => [] end ++ t_steps x /\
  t_bsz y = t_bsz x /\ t_feat y = t_feat x.
Proof.
  destruct slot_v as [[sv|]|].
  - intros Hl. apply lift_Ok in Hl as [Hc ->]. unfold cat0 in Hc.
    case_decide as Hsh; [|done]. injection Hc as <-. destruct Hsh as [-> ->]. done.
  - discriminate.
  - intros Hr. apply ret_Ok in Hr as [-> ->]. done.
Qed.

Lemma update_saved_Ok (state inc : loc) (cur : Cursor) (k0 v0 k v : tensor) (w w' : world) :
  update_saved state inc cur k0 v0 w = (Ok (k, v), w') ->
  let d := inner_dict w state in
  d !! "saved_key" <> Some None /\ d !! "saved_value" <> Some None /\
  t_steps k = match d !! "saved_key" with Some (Some t) => t_steps t | _ => [] end
              ++ t_steps k0 /\
  t_steps v = match d !! "saved_value" with Some (Some t) => t_steps t | _ => [] end
              ++ t_steps v0 /\
  t_bsz k = t_bsz k0 /\ t_feat k = t_feat k0 /\ t_bsz v = t_bsz v0 /\ t_feat v = t_feat v0 /\
  size0 v = size0 k /\
  w_outer w' = <[inc := <["attn_state" := state]> (outer_dict w inc)]> (w_outer w) /\
  w_inner w' = <[state := <["saved_value" := Some v]>
                             (<["saved_key" := Some k]>
                                (<["saved_query" := Some (query_not_ready cur)]> d))]>
                 (w_inner w) /\
  w_rng w' = w_rng w /\ w_log w' = w_log w.
Proof.
  unfold update_saved. intros Hrun. simpl.
  apply bindM_Ok in Hrun as (sk & w1 & Hg & Hrun).
  unfold dict_get in Hg. injection Hg as <- <-.
  apply bindM_Ok in Hrun as (k1 & w2 & Hk & Hrun).
  apply get_saved_Ok in Hk as (-> & Hkn & Hks & Hkb & Hkf).
  apply bindM_Ok in Hrun as (sv & w3 & Hg & Hrun).
  unfold dict_get in Hg. injection Hg as <- <-.
  apply bindM_Ok in Hrun as (v1 & w4 & Hv & Hrun).
  apply get_saved_Ok in Hv as (-> & Hvn & Hvs & Hvb & Hvf).
  apply bindM_Ok in Hrun as ([] & w5 & Has & Hrun).
  apply assert_Ok in Has as [Hsz ->]. apply bool_decide_eq_true in Hsz.
  apply bindM_Ok in Hrun as ([] & w6 & Hs1 & Hrun).
  apply dict_set_run in Hs1 as (Hd1 & Ht1).
  apply bindM_Ok in Hrun as ([] & w7 & Hs2 & Hrun).
  apply dict_set_run in Hs2 as (Hd2 & Ht2).
  apply bindM_Ok in Hrun as ([] & w8 & Hs3 & Hrun).
  pose proof Hs3 as Hs3'. apply dict_set_run in Hs3 as (Hd3 & Ht3).
  apply bindM_Ok in Hrun as ([] & w9 & Hos & Hrun).
  unfold outer_set in Hos. injection Hos as <-.
  apply ret_Ok in Hrun as [Heq ->]. injection Heq as -> ->.
  pose proof (touches_trans _ _ _ _ Ht1 Ht2) as (Ho2 & Hr2 & Hl2 & Hi2).
  destruct Ht3 as (Ho3 & Hr3 & Hl3 & Hi3).
  split_and!; try done; simpl.
  - unfold outer_dict. by rewrite Ho3, Ho2.
  - unfold dict_set in Hs3'. injection Hs3' as <-. simpl.
    rewrite Hi2. by rewrite Hd2, Hd1.
  - congruence.
  - congruence.
Qed.

Lemma view_heads_Ok (x y : tensor) (len : nat) (hd : Z) :
  view_heads x len hd = Ok y ->
  0 <= hd /\ (len * Z.to_nat hd)%nat <> 0%nat /\ size0 y = len /\
  t_feat y = Z.to_nat hd /\ t_bsz y = (numel x / (len * Z.to_nat hd))%nat.
Proof.
  unfold view_heads. destruct (Z.ltb_spec hd 0); [done|].
  destruct (_ || _); [|done]. case_decide; [done|].
  intros [= <-]. unfold size0, rows_of. simpl.
  by rewrite length_map, length_seq.
Qed.

Lemma merge_heads_Ok (x : list (list (list R))) (bh hd tgt_len bsz : nat) (proj_dim : Z)
    (y : tensor) :
  merge_heads x bh hd tgt_len bsz proj_dim = Ok y ->
  size0 y = tgt_len /\ t_bsz y = bsz /\ t_feat y = Z.to_nat proj_dim.
Proof.
  unfold merge_heads. destruct (proj_dim <? 0); [done|]. case_decide; [|done].
  intros [= <-]. unfold size0, transpose_n. simpl.
  by rewrite !length_map, length_seq.
Qed.

Lemma rezero_Ok (x residual y : tensor) (alpha : R) :
  rezero x alpha residual = Ok y ->
  size0 y = size0 x /\ t_bsz y = t_bsz x /\ t_feat y = t_feat x.
Proof.
  unfold rezero. case_decide as Hs; [|done]. destruct Hs as (Hs & _ & _).
  intros [= <-]. unfold size0 in *. simpl. rewrite length_zip_with. lia.
Qed.

Lemma attention_Ok (self : SRUppTransducerAttention) (q k v residual out : tensor)
    (tgt_len src_len bsz : nat) (head_dim : Z) (scaling : R) mask_pad attn_mask
    (w w' : world) :
  attention self q k v residual tgt_len src_len bsz head_dim scaling mask_pad attn_mask w
    = (Ok out, w') ->
  same_dicts w w' /\ size0 out = tgt_len /\ tgt_len <> 0%nat /\
  t_bsz out = bsz /\
  match attn_mask with
  | Some attn_mask => size2 attn_mask = [tgt_len; src_len]
  | None => True
  end.
Proof.
  unfold attention. intros Hrun.
  apply bindM_Ok in Hrun as (q1 & w1 & Hq & Hrun). apply lift_Ok in Hq as [Hq ->].
  apply bindM_Ok in Hrun as (k1 & w1 & Hk & Hrun). apply lift_Ok in Hk as [Hk ->].
  apply bindM_Ok in Hrun as (v1 & w1 & Hv & Hrun). apply lift_Ok in Hv as [Hv ->].
  apply bindM_Ok in Hrun as (aw & w1 & Hb & Hrun). apply lift_Ok in Hb as [Hb ->].
  apply bindM_Ok in Hrun as ([] & w1 & Has & Hrun). apply assert_Ok in Has as [Has ->].
  apply bindM_Ok in Hrun as (aw1 & w1 & Hm & Hrun).
  assert (w1 = w /\ match attn_mask with
                    | Some attn_mask => size2 attn_mask = [tgt_len; src_len]
                    | None => True
                    end) as [-> Hmask].
  { destruct attn_mask as [am|].
    - case_decide; [|done]. by apply ret_Ok in Hm as [_ ->].
    - by apply ret_Ok in Hm as [_ ->]. }
  apply bindM_Ok in Hrun as (aw2 & w1 & Hp & Hrun).
  assert (w1 = w) as ->.
  { destruct mask_pad as [mp|].
    - case_decide; [|done]. by apply ret_Ok in Hp as [_ ->].
    - by apply ret_Ok in Hp as [_ ->]. }
  apply bindM_Ok in Hrun as (aw3 & w1 & Hd & Hrun).
  apply F_dropout_mats_Ok in Hd as [Hsd1 _].
  apply bindM_Ok in Hrun as (ao & w2 & Hb2 & Hrun). apply lift_Ok in Hb2 as [Hb2 ->].
  apply bindM_Ok in Hrun as (ao1 & w2 & Hmh & Hrun). apply lift_Ok in Hmh as [Hmh ->].
  apply bindM_Ok in Hrun as (ao2 & w2 & Hrz & Hrun). apply lift_Ok in Hrz as [Hrz ->].
  apply bindM_Ok in Hrun as (ao3 & w2 & Hln & Hrun).
  apply bindM_Ok in Hrun as (ao4 & w3 & Hdr & Hrun).
  apply lift_Ok in Hrun as [Hl3 ->].
  apply view_heads_Ok in Hq as (_ & Hne & _).
  apply merge_heads_Ok in Hmh as (Hs1 & Hb1 & _).
  apply rezero_Ok in Hrz as (Hs2 & Hb2' & _).
  assert (w2 = w1 /\ size0 ao3 = size0 ao2 /\ t_bsz ao3 = t_bsz ao2) as (-> & Hs3 & Hb3).
  { destruct (A_layer_norm self) as [ln|]; [destruct (A_normalize_after self)|].
    - apply lift_Ok in Hln as [Hln ->]. apply LayerNorm_forward_Ok in Hln as [_ ->].
      unfold size0. simpl. by rewrite length_map.
    - by apply ret_Ok in Hln as [-> ->].
    - by apply ret_Ok in Hln as [-> ->]. }
  apply F_dropout_Ok in Hdr as (Hsd2 & Hs4 & Hb4 & _).
  apply Linear_forward_Ok in Hl3 as [_ ->].
  split; [by eapply same_dicts_trans|].
  unfold size0 in *. simpl. rewrite length_map.
  split_and!; try done; try congruence. lia.
Qed.

End AttentionCall.

Section AttentionStreaming.

Context {R : Type} `{Scalar R} {Rng : Type} `{Dropper R Rng}.

Local Abbreviation tensor := (@Tensor R).
Local Abbreviation world := (@World R Rng).

Lemma chunk2_Ok (x k v : tensor) :
  chunk2 x = Ok (k, v) ->
  size0 k = size0 x /\ size0 v = size0 x /\ t_bsz k = t_bsz x /\ t_bsz v = t_bsz x /\
  t_feat k = ((t_feat x + 1) / 2)%nat /\
  t_feat v = (t_feat x - (t_feat x + 1) / 2)%nat.
Proof.
  unfold chunk2. case_decide; [done|]. intros [= <- <-].
  unfold size0. simpl. by rewrite !length_map.
Qed.

Lemma pre_layer_norm_Ok (self : SRUppTransducerAttention) (q q1 : tensor) (w w1 : world) :
  match A_layer_norm self with
  | Some layer_norm =>
      if negb (A_normalize_after self)
      then lift (LayerNorm_forward layer_norm q)
      else ret q
  | None => ret q
  end w = (Ok q1, w1) ->
  w1 = w /\ size0 q1 = size0 q /\ t_bsz q1 = t_bsz q /\ t_feat q1 = t_feat q.
Proof.
  destruct (A_layer_norm self) as [ln|]; [destruct (negb _)|]; intros Hr.
  - apply lift_Ok in Hr as [Hln ->]. apply LayerNorm_forward_Ok in Hln as [_ ->].
    unfold size0. simpl. by rewrite length_map.
  - by apply ret_Ok in Hr as [-> ->].
  - by apply ret_Ok in Hr as [-> ->].
Qed.

(** Lines 105-173 in a streaming call. *)
Lemma attention_inputs_streaming (self : SRUppTransducerAttention) (input : tensor)
    mask_pad attn_mask (inc : loc) (w w' : world) (a : AttnInputs) :
  attention_inputs self input mask_pad attn_mask (Some inc) w = (Ok a, w') ->
  exists (q : tensor) (cur : Cursor) (knew vnew : tensor),
    mask_pad = None /\ ai_cursor a = Some cur /\
    Linear_forward (A_linear1 self) input = Ok q /\
    slot w inc "saved_query" <> Some None /\
    slot w inc "saved_key" <> Some None /\
    slot w inc "saved_value" <> Some None /\
    cursor_spec (A_right_window self) q w inc cur /\
    ai_residual a = query_ready cur /\
    ai_tgt_len a = size0 (query_ready cur) /\
    size0 (ai_q a) = ai_tgt_len a /\
    size0 knew = ai_tgt_len a /\ size0 vnew = ai_tgt_len a /\
    t_steps (ai_k a) = saved_steps w inc "saved_key" ++ t_steps knew /\
    t_steps (ai_v a) = saved_steps w inc "saved_value" ++ t_steps vnew /\
    size0 (ai_v a) = size0 (ai_k a) /\ ai_src_len a = size0 (ai_k a) /\
    state_written w w' inc
      (attn_dict (state_dict w inc) (query_not_ready cur) (ai_k a) (ai_v a)) /\
    w_log w' = w_log w /\ w_rng w' = w_rng w /\
    ai_attn_mask a = option_map (fun am => align_attn_mask am cur) attn_mask.
Proof.
  unfold attention_inputs. intros Hrun.
  apply bindM_Ok in Hrun as (hd & w0 & Hhd & Hrun).
  assert (w0 = w) as ->.
  { destruct (A_num_heads self =? 0); [done|]. by apply ret_Ok in Hhd as [_ ->]. }
  apply bindM_Ok in Hrun as (sc & w0 & Hsc & Hrun).
  assert (w0 = w) as ->.
  { destruct (hd =? 0); [done|]. by apply ret_Ok in Hsc as [_ ->]. }
  apply bindM_Ok in Hrun as (q & w0 & Hq & Hrun). apply lift_Ok in Hq as [Hq ->].
  apply bindM_Ok in Hrun as ([[[qr tgt] am'] sco] & w1 & Hst & Hrun).
  apply bindM_Ok in Hst as ([] & w2 & Has & Hst). apply assert_Ok in Has as [Hmp ->].
  apply bindM_Ok in Hst as ([s cur] & w3 & Htk & Hst).
  apply take_saved_queries_Ok in Htk as (Hd & Ho & Hr & Hl & Hal & Hins & Hnn & Hc).
  apply ret_Ok in Hst as [Heq ->]. injection Heq as -> -> -> ->.
  apply bindM_Ok in Hrun as (q1 & w4 & Hln & Hrun).
  apply pre_layer_norm_Ok in Hln as (-> & Hs1 & Hb1 & Hf1).
  apply bindM_Ok in Hrun as ([k0 v0] & w4 & Hkv & Hrun).
  apply bindM_Ok in Hkv as (x & w5 & Hl2 & Hkv). apply lift_Ok in Hl2 as [Hl2 ->].
  apply lift_Ok in Hkv as [Hch ->].
  apply Linear_forward_Ok in Hl2 as [_ Hx].
  apply chunk2_Ok in Hch as (Hsk & Hsv & _).
  apply bindM_Ok in Hrun as ([[k v] src] & w6 & Hup & Hrun).
  apply bindM_Ok in Hup as ([k' v'] & w7 & Hup & Hret).
  apply ret_Ok in Hret as [Heq ->]. injection Heq as -> -> ->. simpl in Hup.
  apply update_saved_Ok in Hup
    as (Hkn & Hvn & Hks & Hvs & _ & _ & _ & _ & Hsz & Hwo & Hwi & Hwr & Hwl).
  apply ret_Ok in Hrun as [-> ->]. simpl.
  exists q, cur, k0, v0.
  rewrite Hd in *.
  destruct mask_pad; [done|].
  assert (size0 x = size0 q1) as Hsx by (rewrite Hx; unfold size0; simpl; by rewrite length_map).
  split_and!; try done.
  - by rewrite slot_state_dict.
  - by rewrite slot_state_dict.
  - congruence.
  - congruence.
  - unfold saved_steps. by rewrite slot_state_dict.
  - unfold saved_steps. by rewrite slot_state_dict.
  - unfold state_written, attn_dict. exists s. split; [done|].
    rewrite Hwo, Hwi, Hins. split; [|done].
    unfold outer_dict. by rewrite Ho.
  - congruence.
  - congruence.
Qed.

Lemma attention_locals_Ok (self : SRUppTransducerAttention) (input : tensor)
    mask_pad attn_mask inc (w w' : world) out inc' L :
  SRUppTransducerAttention_locals self input mask_pad attn_mask inc w
    = (Ok (out, inc', L), w') ->
  exists a w1,
    attention_inputs self input mask_pad attn_mask inc w = (Ok a, w1) /\
    attention self (ai_q a) (ai_k a) (ai_v a) (ai_residual a) (ai_tgt_len a) (ai_src_len a)
      (ai_bsz a) (ai_head_dim a) (ai_scaling a) mask_pad (ai_attn_mask a) w1 = (Ok out, w') /\
    inc' = inc /\
    L = mkAttnLocals (ai_cursor a) (ai_attn_mask a) (ai_tgt_len a) (ai_src_len a).
Proof.
  unfold SRUppTransducerAttention_locals. intros Hrun.
  apply bindM_Ok in Hrun as (a & w1 & Ha & Hrun).
  apply bindM_Ok in Hrun as (ao & w2 & Hat & Hrun).
  apply ret_Ok in Hrun as [Heq ->]. injection Heq as E1 E2 E3. subst.
  exists a, w1. done.
Qed.

Lemma attention_streaming_call (self : SRUppTransducerAttention) (input : tensor)
    mask_pad attn_mask (inc : loc) (w w' : world) out inc' L :
  SRUppTransducerAttention_locals self input mask_pad attn_mask (Some inc) w
    = (Ok (out, inc', L), w') ->
  exists (q : tensor) (cur : Cursor) (k v knew vnew : tensor),
    mask_pad = None /\ inc' = Some inc /\ al_cursor L = Some cur /\
    Linear_forward (A_linear1 self) input = Ok q /\
    slot w inc "saved_query" <> Some None /\
    slot w inc "saved_key" <> Some None /\
    slot w inc "saved_value" <> Some None /\
    cursor_spec (A_right_window self) q w inc cur /\
    al_tgt_len L = size0 (query_ready cur) /\ al_tgt_len L <> 0%nat /\
    size0 knew = al_tgt_len L /\ size0 vnew = al_tgt_len L /\
    t_steps k = saved_steps w inc "saved_key" ++ t_steps knew /\
    t_steps v = saved_steps w inc "saved_value" ++ t_steps vnew /\
    size0 v = size0 k /\ al_src_len L = size0 k /\
    state_written w w' inc (attn_dict (state_dict w inc) (query_not_ready cur) k v) /\
    w_log w' = w_log w /\
    size0 out = al_tgt_len L /\
    al_attn_mask L = option_map (fun am => align_attn_mask am cur) attn_mask /\
    match al_attn_mask L with
    | Some am => size2 am = [al_tgt_len L; al_src_len L]
    | None => True
    end.
Proof.
  intros Hrun. apply attention_locals_Ok in Hrun as (a & w1 & Ha & Hat & -> & ->).
  apply attention_inputs_streaming in Ha
    as (q & cur & kn & vn & Hmp & Hcur & Hq & Hn1 & Hn2 & Hn3 & Hc & Hres & Htg & Hsq
        & Hkn & Hvn & Hk & Hv & Hsz & Hsrc & Hw & Hl & Hr & Ham).
  apply attention_Ok in Hat as ((Hso & Hsi & Hsl) & Hsa & Htg0 & _ & Hmask).
  exists q, cur, (ai_k a), (ai_v a), kn, vn. simpl.
  split_and!; try done.
  - destruct Hw as (s & Hal & Ho & Hi). exists s. by rewrite Hso, Hsi.
  - congruence.
Qed.

End AttentionStreaming.

(** ** Streaming sessions *)

Section Sessions.

Context {R : Type} `{Scalar R} {Rng : Type} `{Dropper R Rng}.

Local Abbreviation tensor := (@Tensor R).
Local Abbreviation world := (@World R Rng).

Lemma saved_steps_slot (w : world) (inc : loc) (key : string) (t : tensor) :
  slot w inc key = Some (Some t) -> saved_steps w inc key = t_steps t.
Proof. unfold saved_steps. by intros ->. Qed.

Lemma slot_len_slot (w : world) (inc : loc) (key : string) (t : tensor) :
  slot w inc key = Some (Some t) -> slot_len w inc key = Some (size0 t).
Proof. unfold slot_len. by intros ->. Qed.

Lemma linear_call_Ok (self : SRUppTransducerLinear) chunk attn_mask inc
    (w w' : world) out lc inc' :
  linear_call self chunk attn_mask inc w = (Ok (out, lc, inc'), w') ->
  SRUppTransducerLinear_locals self chunk None attn_mask inc w = (Ok (out, inc', lc), w').
Proof.
  unfold linear_call. intros Hrun.
  apply bindM_Ok in Hrun as ([[o i] l] & w1 & Hl & Hrun).
  apply ret_Ok in Hrun as [Heq ->]. simpl in Heq. by injection Heq as -> -> ->.
Qed.

Lemma attention_call_Ok (self : SRUppTransducerAttention) chunk attn_mask inc
    (w w' : world) out L inc' :
  attention_call self chunk attn_mask inc w = (Ok (out, L, inc'), w') ->
  SRUppTransducerAttention_locals self chunk None attn_mask inc w = (Ok (out, inc', L), w').
Proof.
  unfold attention_call. intros Hrun.
  apply bindM_Ok in Hrun as ([[o i] l] & w1 & Hl & Hrun).
  apply ret_Ok in Hrun as [Heq ->]. simpl in Heq. by injection Heq as -> -> ->.
Qed.

Lemma linear_forward_locals (self : SRUppTransducerLinear) input mask_pad attn_mask inc
    (w w' : world) out inc' :
  SRUppTransducerLinear_forward self input mask_pad attn_mask inc w = (Ok (out, inc'), w') ->
  exists lc, SRUppTransducerLinear_locals self input mask_pad attn_mask inc w
             = (Ok (out, inc', lc), w').
Proof.
  unfold SRUppTransducerLinear_forward. intros Hrun.
  apply bindM_Ok in Hrun as ([[o i] l] & w1 & Hl & Hrun).
  apply ret_Ok in Hrun as [Heq ->]. simpl in Heq. injection Heq as -> ->. eauto.
Qed.

Lemma attention_forward_locals (self : SRUppTransducerAttention) input mask_pad attn_mask inc
    (w w' : world) out inc' :
  SRUppTransducerAttention_forward self input mask_pad attn_mask inc w
    = (Ok (out, inc'), w') ->
  exists L, SRUppTransducerAttention_locals self input mask_pad attn_mask inc w
            = (Ok (out, inc', L), w').
Proof.
  unfold SRUppTransducerAttention_forward. intros Hrun.
  apply bindM_Ok in Hrun as ([[o i] l] & w1 & Hl & Hrun).
  apply ret_Ok in Hrun as [Heq ->]. simpl in Heq. injection Heq as -> ->. eauto.
Qed.

(** Both transforms follow the cursor. *)
Lemma linear_locals_cursor (self : SRUppTransducerLinear) (input : tensor)
    mask_pad attn_mask inc (w w' : world) out inc' lc :
  0 <= L_right_window self ->
  SRUppTransducerLinear_locals self input mask_pad attn_mask (Some inc) w
    = (Ok (out, inc', lc), w') ->
  let all := Z.of_nat (length (saved_steps w inc "saved_query") + size0 input) in
  inc' = Some inc /\
  Z.of_nat (size0 out) = Z.max 0 (all - L_right_window self) /\
  (exists t, slot w' inc "saved_query" = Some (Some t)) /\
  Z.of_nat (length (saved_steps w' inc "saved_query")) = Z.min (L_right_window self) all.
Proof.
  intros Hrw Hrun.
  apply linear_streaming_call in Hrun
    as (q & cur & _ & -> & _ & Hq & _ & Hc & Hw & _ & Hso & _).
  apply Linear_forward_Ok in Hq as [_ Hq].
  assert (size0 q = size0 input) as Hsq
    by (rewrite Hq; unfold size0; simpl; by rewrite length_map).
  pose proof (cursor_spec_lengths _ _ _ _ _ Hrw Hc) as (Hr & Hn & Hnr).
  simpl in *. rewrite Hsq in *.
  pose proof (state_written_slot _ _ _ _ "saved_query" Hw) as Hsl.
  rewrite lookup_insert_eq in Hsl.
  split_and!; [done | lia | eauto |].
  rewrite (saved_steps_slot _ _ _ _ Hsl). fold (size0 (query_not_ready cur)). lia.
Qed.

Lemma attention_locals_cursor (self : SRUppTransducerAttention) (input : tensor)
    mask_pad attn_mask inc (w w' : world) out inc' L :
  0 <= A_right_window self ->
  SRUppTransducerAttention_locals self input mask_pad attn_mask (Some inc) w
    = (Ok (out, inc', L), w') ->
  let all := Z.of_nat (length (saved_steps w inc "saved_query") + size0 input) in
  inc' = Some inc /\
  Z.of_nat (size0 out) = Z.max 0 (all - A_right_window self) /\
  (exists t, slot w' inc "saved_query" = Some (Some t)) /\
  Z.of_nat (length (saved_steps w' inc "saved_query")) = Z.min (A_right_window self) all.
Proof.
  intros Hrw Hrun.
  apply attention_streaming_call in Hrun
    as (q & cur & k & v & kn & vn & _ & -> & _ & Hq & _ & _ & _ & Hc & Htg & _ & _ & _
        & _ & _ & _ & _ & Hw & _ & Hso & _).
  apply Linear_forward_Ok in Hq as [_ Hq].
  assert (size0 q = size0 input) as Hsq
    by (rewrite Hq; unfold size0; simpl; by rewrite length_map).
  pose proof (cursor_spec_lengths _ _ _ _ _ Hrw Hc) as (Hr & Hn & Hnr).
  simpl in *. rewrite Hsq in *.
  pose proof (state_written_slot _ _ _ _ "saved_query" Hw) as Hsl.
  unfold attn_dict in Hsl.
  rewrite lookup_insert_ne, lookup_insert_ne, lookup_insert_eq in Hsl by done.
  split_and!; [done | lia | eauto |].
  rewrite (saved_steps_slot _ _ _ _ Hsl). fold (size0 (query_not_ready cur)). lia.
Qed.

Lemma transform_call_cursor (t : Transform) :
  0 <= transform_right_window t ->
  cursor_call (transform_right_window t) size0 (transform_call t).
Proof.
  intros Hrw chunk attn_mask inc w x inc' w' Hrun.
  unfold transform_call, transform_module_forward in Hrun. destruct t as [m|m]; simpl in *.
  - apply attention_forward_locals in Hrun as [L Hrun].
    by eapply attention_locals_cursor.
  - apply linear_forward_locals in Hrun as [lc Hrun].
    by eapply linear_locals_cursor.
Qed.

Lemma linear_call_cursor (self : SRUppTransducerLinear) :
  0 <= L_right_window self ->
  cursor_call (L_right_window self) (fun x => size0 x.1) (linear_call self).
Proof.
  intros Hrw chunk attn_mask inc w [out lc] inc' w' Hrun.
  apply linear_call_Ok in Hrun. by eapply linear_locals_cursor.
Qed.

Lemma attention_call_cursor (self : SRUppTransducerAttention) :
  0 <= A_right_window self ->
  cursor_call (A_right_window self) (fun x => size0 x.1) (attention_call self).
Proof.
  intros Hrw chunk attn_mask inc w [out lc] inc' w' Hrun.
  apply attention_call_Ok in Hrun. by eapply attention_locals_cursor.
Qed.

(** *** Streams *)

Lemma stream_app {X} (call : tensor -> option (Tensor2 R) -> option loc -> M (X * option loc))
    (pre post : list (tensor * option (Tensor2 R))) (inc inc' : option loc)
    (w w' : world) (xs : list X) :
  stream call (pre ++ post) inc w = (Ok (xs, inc'), w') ->
  exists xs1 inc1 w1 xs2,
    stream call pre inc w = (Ok (xs1, inc1), w1) /\
    stream call post inc1 w1 = (Ok (xs2, inc'), w') /\
    xs = xs1 ++ xs2.
Proof.
  revert inc w xs. induction pre as [|[c m] pre IH]; intros inc w xs Hrun; simpl in *.
  - exists [], inc, w, xs. by unfold ret.
  - apply bindM_Ok in Hrun as ([x i1] & w1 & Hc & Hrun).
    apply bindM_Ok in Hrun as ([xs' i2] & w2 & Hs & Hrun).
    apply ret_Ok in Hrun as [Heq ->]. simpl in *. injection Heq as -> ->.
    apply IH in Hs as (xs1 & inc1 & w3 & xs2 & Hpre & Hpost & ->).
    exists (x :: xs1), inc1, w3, xs2.
    rewrite (bindM_step _ _ _ _ _ Hc). simpl.
    rewrite (bindM_step _ _ _ _ _ Hpre). simpl. by unfold ret.
Qed.

Lemma stream_length {X}
    (call : tensor -> option (Tensor2 R) -> option loc -> M (X * option loc))
    (chunks : list (tensor * option (Tensor2 R))) (inc inc' : option loc)
    (w w' : world) (xs : list X) :
  stream call chunks inc w = (Ok (xs, inc'), w') -> length xs = length chunks.
Proof.
  revert inc w xs. induction chunks as [|[c m] chunks IH]; intros inc w xs Hrun; simpl in *.
  - apply ret_Ok in Hrun as [Heq _]. by injection Heq as -> _.
  - apply bindM_Ok in Hrun as ([x i1] & w1 & Hc & Hrun).
    apply bindM_Ok in Hrun as ([xs' i2] & w2 & Hs & Hrun).
    apply ret_Ok in Hrun as [Heq ->]. simpl in *. injection Heq as -> ->.
    simpl. f_equal. by eapply IH.
Qed.

Lemma stream_cursor {X} (rw : Z) (out_len : X -> nat)
    (call : tensor -> option (Tensor2 R) -> option loc -> M (X * option loc))
    (chunks : list (tensor * option (Tensor2 R))) (inc : loc) (inc' : option loc)
    (w w' : world) (xs : list X) :
  cursor_call rw out_len call ->
  stream call chunks (Some inc) w = (Ok (xs, inc'), w') ->
  let r := cursor_lengths rw (Z.of_nat (length (saved_steps w inc "saved_query")))
             (map (fun c => size0 c.1) chunks) in
  inc' = Some inc /\
  map (fun x => Z.of_nat (out_len x)) xs = r.1 /\
  Z.of_nat (length (saved_steps w' inc "saved_query")) = r.2 /\
  (chunks <> [] -> exists t, slot w' inc "saved_query" = Some (Some t)).
Proof.
  intros Hcall. revert w xs. induction chunks as [|[c m] chunks IH]; intros w xs Hrun.
  - apply ret_Ok in Hrun as [Heq ->]. injection Heq as -> ->. done.
  - simpl in Hrun.
    apply bindM_Ok in Hrun as ([x i1] & w1 & Hc & Hrun).
    apply bindM_Ok in Hrun as ([xs' i2] & w2 & Hs & Hrun).
    apply ret_Ok in Hrun as [Heq ->]. simpl in *. injection Heq as -> ->.
    apply Hcall in Hc as (-> & Hx & Hsl & Hlen).
    pose proof Hs as Hs'.
    apply IH in Hs as (-> & Hxs & Hfin & Hslot).
    rewrite Nat2Z.inj_add in Hx, Hlen.
    set (all := Z.of_nat (length (saved_steps w inc "saved_query")) + Z.of_nat (size0 c)) in *.
    assert (all - Z.max 0 (all - rw) = Z.min rw all) as Heq by lia.
    rewrite Heq, <- Hlen.
    split_and!; [done | simpl; by rewrite Hx, Hxs | done |].
    intros _. destruct chunks as [|c' chunks]; [|by apply Hslot].
    apply ret_Ok in Hs' as [_ ->]. done.
Qed.

End Sessions.

(** ** The cursor: ready timesteps and the window bound *)

Section CursorClaims.

Context {R : Type} `{Scalar R} {Rng : Type} `{Dropper R Rng}.

Local Abbreviation tensor := (@Tensor R).
Local Abbreviation world := (@World R Rng).

Lemma sumZ_of_nat_nonneg (lens : list nat) : 0 <= sumZ (map Z.of_nat lens).
Proof. induction lens; simpl; lia. Qed.

Lemma sumZ_app (a b : list Z) : sumZ (a ++ b) = sumZ a + sumZ b.
Proof. induction a; simpl; lia. Qed.

Lemma cursor_lengths_spec (rw h : Z) (lens : list nat) :
  0 <= rw -> 0 <= h <= rw ->
  let r := cursor_lengths rw h lens in
  let total := h + sumZ (map Z.of_nat lens) in
  r.2 = Z.min rw total /\ sumZ r.1 = Z.max 0 (total - rw) /\ length r.1 = length lens.
Proof.
  intros Hrw. revert h. induction lens as [|l lens IH]; intros h Hh; simpl.
  - lia.
  - set (all := h + Z.of_nat l).
    destruct (IH (all - Z.max 0 (all - rw))) as (IH1 & IH2 & IH3); [lia|].
    simpl in *. rewrite IH1, IH2, IH3.
    pose proof (sumZ_of_nat_nonneg lens). subst all. lia.
Qed.

Lemma new_outer_fresh (w w0 : world) (inc : loc) :
  new_outer w = (Ok inc, w0) ->
  w_outer w !! inc = None /\
  w0 = mkWorld (<[inc := ∅]> (w_outer w)) (w_inner w) (w_rng w) (w_log w) /\
  forall key, slot w0 inc key = None.
Proof.
  unfold new_outer. intros [= <- <-]. split_and!; [|done|].
  - apply not_elem_of_dom. apply is_fresh.
  - intros key. unfold slot, attn_state_of, outer_dict. simpl.
    by rewrite lookup_insert_eq.
Qed.

Lemma session_stream {X}
    (call : tensor -> option (Tensor2 R) -> option loc -> M (X * option loc))
    (chunks : list (tensor * option (Tensor2 R))) (w w' : world) xs inc' :
  session call chunks w = (Ok (xs, inc'), w') ->
  exists inc w0,
    new_outer w = (Ok inc, w0) /\
    stream call chunks (Some inc) w0 = (Ok (xs, inc'), w').
Proof.
  unfold session. intros Hrun.
  apply bindM_Ok in Hrun as (inc & w0 & Hn & Hrun). eauto.
Qed.

Lemma session_prefix {X}
    (call : tensor -> option (Tensor2 R) -> option loc -> M (X * option loc))
    (pre post : list (tensor * option (Tensor2 R))) (w w' : world) xs inc' :
  session call (pre ++ post) w = (Ok (xs, inc'), w') ->
  exists xs1 inc1 w1 xs2,
    session call pre w = (Ok (xs1, inc1), w1) /\
    stream call post inc1 w1 = (Ok (xs2, inc'), w') /\
    xs = xs1 ++ xs2.
Proof.
  intros Hrun. apply session_stream in Hrun as (inc & w0 & Hn & Hrun).
  apply stream_app in Hrun as (xs1 & inc1 & w1 & xs2 & Hpre & Hpost & ->).
  exists xs1, inc1, w1, xs2. split_and!; try done.
  unfold session. by rewrite (bindM_step _ _ _ _ _ Hn).
Qed.

Lemma session_cursor {X} (rw : Z) (out_len : X -> nat)
    (call : tensor -> option (Tensor2 R) -> option loc -> M (X * option loc))
    (chunks : list (tensor * option (Tensor2 R))) (w w' : world) xs inc' :
  0 <= rw ->
  cursor_call rw out_len call ->
  session call chunks w = (Ok (xs, inc'), w') ->
  exists inc,
    inc' = Some inc /\
    map (fun x => Z.of_nat (out_len x)) xs
      = (cursor_lengths rw 0 (map (fun c => size0 c.1) chunks)).1 /\
    sumZ (map (fun x => Z.of_nat (out_len x)) xs) = Z.max 0 (total_len chunks - rw) /\
    Z.of_nat (length (saved_steps w' inc "saved_query")) = Z.min rw (total_len chunks) /\
    (chunks <> [] -> exists t, slot w' inc "saved_query" = Some (Some t)).
Proof.
  intros Hrw Hcall Hrun.
  apply session_stream in Hrun as (inc & w0 & Hn & Hrun).
  apply new_outer_fresh in Hn as (_ & _ & Hslot).
  pose proof (stream_cursor _ _ _ _ _ _ _ _ _ Hcall Hrun) as (-> & Hxs & Hfin & Hsl).
  unfold saved_steps in Hxs at 1, Hfin at 2. rewrite Hslot in Hxs, Hfin. simpl in *.
  pose proof (cursor_lengths_spec rw 0 (map (fun c => size0 c.1) chunks) Hrw ltac:(lia))
    as (H2 & H1 & _). simpl in *.
  assert (sumZ (map Z.of_nat (map (fun c : tensor * option (Tensor2 R) => size0 c.1) chunks))
          = total_len chunks) as Ht.
  { unfold total_len. by rewrite map_map. }
  rewrite Ht in *.
  exists inc. split_and!; try done.
  - by rewrite Hxs.
  - by rewrite Hfin.
Qed.

End CursorClaims.

Section ClaimsCursor.

Context {R : Type} `{Scalar R} {Rng : Type} `{Dropper R Rng}.

Local Abbreviation tensor := (@Tensor R).
Local Abbreviation world := (@World R Rng).

Lemma transform_locals_streaming (t : Transform) (input : tensor) mask_pad attn_mask
    (inc : loc) (w w' : world) out inc' lc :
  transform_locals t input mask_pad attn_mask (Some inc) w = (Ok (out, inc', lc), w') ->
  exists q cur,
    mask_pad = None /\ inc' = Some inc /\ lc = Some cur /\
    Linear_forward (transform_linear1 t) input = Ok q /\
    cursor_spec (transform_right_window t) q w inc cur /\
    slot w' inc "saved_query" = Some (Some (query_not_ready cur)) /\
    size0 out = size0 (query_ready cur).
Proof.
  destruct t as [m|m]; simpl; intros Hrun.
  - apply bindM_Ok in Hrun as ([[o i] L] & w1 & Hl & Hrun).
    apply ret_Ok in Hrun as [Heq ->]. simpl in Heq. injection Heq as E1 E2 E3.
    subst out inc' lc.
    apply attention_streaming_call in Hl
      as (q & cur & k & v & kn & vn & -> & -> & Hcur & Hq & _ & _ & _ & Hc & Htg & _ & _ & _
          & _ & _ & _ & _ & Hw & _ & Hso & _).
    exists q, cur. split_and!; try done.
    + rewrite (state_written_slot _ _ _ _ "saved_query" Hw). unfold attn_dict.
      by rewrite lookup_insert_ne, lookup_insert_ne, lookup_insert_eq.
    + congruence.
  - apply linear_streaming_call in Hrun
      as (q & cur & -> & -> & -> & Hq & _ & Hc & Hw & _ & Hso & _).
    exists q, cur. split_and!; try done.
    rewrite (state_written_slot _ _ _ _ "saved_query" Hw).
    by rewrite lookup_insert_eq.
Qed.

(** C2 (amended): in a streaming call of either transform, with
    [H_prev] saved queries held back before the call and [L_in] incoming
    timesteps, exactly [num_ready = max(0, H_prev + L_in - right_window)]
    timesteps are ready: they are the first [num_ready] of the saved
    queries followed by the projected queries of the chunk, the output
    has that many timesteps, and the remaining ones are stored as the
    new [saved_query]. With [right_window = 2], the linear transform fed
    chunks of lengths 3, 3, 3 and 2 gives outputs of lengths 1, 3, 3 and
    2, and the last two timesteps stay in [saved_query]: its final
    length is 2. *)
Theorem C2_ready_count :
  (forall (t : Transform) (input : tensor) mask_pad attn_mask (inc : loc)
          (w w' : world) out inc' lc,
      0 <= transform_right_window t ->
      transform_locals t input mask_pad attn_mask (Some inc) w = (Ok (out, inc', lc), w') ->
      exists q cur,
        Linear_forward (transform_linear1 t) input = Ok q /\ lc = Some cur /\
        let saved_query := saved_steps w inc "saved_query" in
        let H_prev := length saved_query in
        let L_in := size0 input in
        let num_ready :=
          Z.max 0 (Z.of_nat (H_prev + L_in) - transform_right_window t) in
        num_query_ready cur = num_ready /\
        t_steps (query_ready cur) = take (Z.to_nat num_ready) (saved_query ++ t_steps q) /\
        Z.of_nat (size0 (query_ready cur)) = num_ready /\
        size0 out = size0 (query_ready cur) /\
        slot w' inc "saved_query" = Some (Some (query_not_ready cur)) /\
        t_steps (query_not_ready cur) = drop (Z.to_nat num_ready) (saved_query ++ t_steps q))
  /\
  (forall (self : SRUppTransducerLinear) (c1 c2 c3 c4 : tensor) m1 m2 m3 m4
          (w w' : world) outs inc',
      L_right_window self = 2 ->
      size0 c1 = 3%nat -> size0 c2 = 3%nat -> size0 c3 = 3%nat -> size0 c4 = 2%nat ->
      session (transform_call (TLinear self)) [(c1, m1); (c2, m2); (c3, m3); (c4, m4)] w
        = (Ok (outs, inc'), w') ->
      map size0 outs = [1; 3; 3; 2]%nat /\
      exists inc, inc' = Some inc /\ slot_len w' inc "saved_query" = Some 2%nat).
Proof.
  split.
  - intros t input mask_pad attn_mask inc w w' out inc' lc Hrw Hrun.
    apply transform_locals_streaming in Hrun
      as (q & cur & _ & _ & -> & Hq & Hc & Hsl & Hso).
    exists q, cur. split; [done|]. split; [done|]. simpl.
    pose proof (cursor_spec_sizes _ _ _ _ _ Hc) as (Hr & Hnr & _ & _ & _ & _ & Hn).
    pose proof (cursor_spec_lengths _ _ _ _ _ Hrw Hc) as (Hrl & _ & _).
    simpl in *.
    apply Linear_forward_Ok in Hq as [_ Hq'].
    assert (length (t_steps q) = size0 input) as Hlq
      by (rewrite Hq'; simpl; by rewrite length_map).
    rewrite length_app, Hlq in Hn.
    rewrite <- Hn. split_and!; try done.
  - intros self c1 c2 c3 c4 m1 m2 m3 m4 w w' outs inc' Hrw H1 H2 H3 H4 Hrun.
    assert (cursor_call 2 size0 (transform_call (TLinear self))) as Hcall.
    { rewrite <- Hrw. apply (transform_call_cursor (TLinear self)). simpl. lia. }
    apply (session_cursor 2 _ _ _ _ _ _ _ ltac:(lia) Hcall) in Hrun
      as (inc & -> & Hxs & _ & Hfin & Hsl).
    cbn [map fst] in Hxs. rewrite H1, H2, H3, H4 in Hxs.
    change ((cursor_lengths 2 0 [3; 3; 3; 2]%nat).1) with [1; 3; 3; 2] in Hxs.
    destruct (Hsl ltac:(done)) as [t Ht].
    split.
    + apply (f_equal (map Z.to_nat)) in Hxs. rewrite map_map in Hxs.
      change (map Z.to_nat [1; 3; 3; 2]) with [1; 3; 3; 2]%nat in Hxs.
      rewrite <- Hxs. apply map_ext. intros x. by rewrite Nat2Z.id.
    + exists inc. split; [done|]. rewrite (slot_len_slot _ _ _ _ Ht).
      rewrite (saved_steps_slot _ _ _ _ Ht) in Hfin. unfold total_len in Hfin.
      cbn [map fst sumZ foldr] in Hfin.
      rewrite H1, H2, H3, H4 in Hfin. unfold size0. f_equal. lia.
Qed.

(** C3: in a streaming session of either transform, after every call
    the stored [saved_query] has at most [right_window] timesteps:
    exactly [right_window] once that many timesteps have arrived in
    total, and all that arrived before that. *)
Theorem C3_window_bound (t : Transform)
    (pre post : list (tensor * option (Tensor2 R))) (w w' : world) outs inc' :
  0 <= transform_right_window t ->
  pre <> [] ->
  session (transform_call t) (pre ++ post) w = (Ok (outs, inc'), w') ->
  exists inc outs1 w1 n,
    session (transform_call t) pre w = (Ok (outs1, Some inc), w1) /\
    inc' = Some inc /\
    slot_len w1 inc "saved_query" = Some n /\
    Z.of_nat n <= transform_right_window t /\
    (transform_right_window t <= total_len pre -> Z.of_nat n = transform_right_window t) /\
    (total_len pre < transform_right_window t -> Z.of_nat n = total_len pre).
Proof.
  intros Hrw Hpre Hrun.
  pose proof (transform_call_cursor t Hrw) as Hcall.
  apply session_prefix in Hrun as (xs1 & inc1 & w1 & xs2 & Hp & Hpost & ->).
  pose proof (session_cursor _ _ _ _ _ _ _ _ Hrw Hcall Hp) as (inc & -> & _ & _ & Hfin & Hsl).
  destruct (Hsl Hpre) as [tq Ht].
  assert (inc' = Some inc) as ->.
  { destruct post as [|c post].
    - apply ret_Ok in Hpost as [Heq _]. by injection Heq as _ <-.
    - by apply (stream_cursor _ _ _ _ _ _ _ _ _ Hcall) in Hpost as (-> & _). }
  exists inc, xs1, w1, (size0 tq).
  rewrite (saved_steps_slot _ _ _ _ Ht) in Hfin. fold (size0 tq) in Hfin.
  split_and!; try done.
  - by apply slot_len_slot.
  - lia.
  - lia.
  - lia.
Qed.

End ClaimsCursor.

Section ClaimsAttentionState.

Context {R : Type} `{Scalar R} {Rng : Type} `{Dropper R Rng}.

Local Abbreviation tensor := (@Tensor R).
Local Abbreviation world := (@World R Rng).

(** What one streaming call of the attention transform does to the
    cached keys and values. *)
Lemma attention_call_growth (self : SRUppTransducerAttention) (chunk : tensor) attn_mask
    (inc : loc) (w w' : world) out L inc' :
  0 <= A_right_window self ->
  attention_call self chunk attn_mask (Some inc) w = (Ok (out, L, inc'), w') ->
  exists cur k v kn vn,
    inc' = Some inc /\ al_cursor L = Some cur /\
    0 <= num_query_ready cur /\
    slot w' inc "saved_key" = Some (Some k) /\
    slot w' inc "saved_value" = Some (Some v) /\
    t_steps k = saved_steps w inc "saved_key" ++ kn /\
    t_steps v = saved_steps w inc "saved_value" ++ vn /\
    length kn = Z.to_nat (num_query_ready cur) /\
    length vn = Z.to_nat (num_query_ready cur) /\
    size0 v = size0 k /\
    al_src_len L = size0 k.
Proof.
  intros Hrw Hrun. apply attention_call_Ok in Hrun.
  apply attention_streaming_call in Hrun
    as (q & cur & k & v & kn & vn & _ & -> & Hcur & _ & _ & _ & _ & Hc & Htg & _ & Hkn & Hvn
        & Hk & Hv & Hsz & Hsrc & Hw & _).
  pose proof (cursor_spec_lengths _ _ _ _ _ Hrw Hc) as (Hrl & _ & _).
  exists cur, k, v, (t_steps kn), (t_steps vn).
  pose proof (state_written_slot _ _ _ _ "saved_key" Hw) as Hsk.
  pose proof (state_written_slot _ _ _ _ "saved_value" Hw) as Hsv.
  unfold attn_dict in Hsk, Hsv.
  rewrite lookup_insert_ne, lookup_insert_eq in Hsk by done.
  rewrite lookup_insert_eq in Hsv.
  unfold size0 in *. split_and!; try done; lia.
Qed.

Lemma attention_stream_growth (self : SRUppTransducerAttention)
    (chunks : list (tensor * option (Tensor2 R))) (inc : loc) (w w' : world) xs inc' :
  0 <= A_right_window self ->
  stream (attention_call self) chunks (Some inc) w = (Ok (xs, inc'), w') ->
  exists tk tv,
    inc' = Some inc /\
    saved_steps w' inc "saved_key" = saved_steps w inc "saved_key" ++ tk /\
    saved_steps w' inc "saved_value" = saved_steps w inc "saved_value" ++ tv /\
    0 <= sumZ (ready_counts xs) /\
    length tk = Z.to_nat (sumZ (ready_counts xs)) /\
    length tv = Z.to_nat (sumZ (ready_counts xs)) /\
    (forall lst, last xs = Some lst ->
       al_src_len lst.2 = length (saved_steps w' inc "saved_key")) /\
    (chunks <> [] ->
     exists k v, slot w' inc "saved_key" = Some (Some k) /\
                 slot w' inc "saved_value" = Some (Some v)).
Proof.
  intros Hrw. revert w xs. induction chunks as [|[c m] chunks IH]; intros w xs Hrun.
  - apply ret_Ok in Hrun as [Heq ->]. injection Heq as -> ->.
    exists [], []. rewrite !app_nil_r. split_and!; try done.
  - simpl in Hrun.
    apply bindM_Ok in Hrun as ([[out L] i1] & w1 & Hc & Hrun).
    apply bindM_Ok in Hrun as ([xs' i2] & w2 & Hs & Hrun).
    apply ret_Ok in Hrun as [Heq ->]. simpl in *. injection Heq as -> ->.
    apply (attention_call_growth _ _ _ _ _ _ _ _ _ Hrw) in Hc
      as (cur & k & v & kn & vn & -> & Hcur & Hn0 & Hsk & Hsv & Hk & Hv & Hlk & Hlv & Hsz & Hsrc).
    pose proof Hs as Hs'.
    apply IH in Hs as (tk & tv & -> & Hk' & Hv' & Hsum & Hltk & Hltv & Hlast & Hslots).
    rewrite (saved_steps_slot _ _ _ _ Hsk), Hk in Hk'.
    rewrite (saved_steps_slot _ _ _ _ Hsv), Hv in Hv'.
    exists (kn ++ tk), (vn ++ tv).
    unfold ready_counts in *. simpl. rewrite Hcur. simpl.
    rewrite !length_app, !app_assoc.
    split_and!; try done; try lia.
    + intros lst Hl. destruct xs' as [|x xs'].
      * simpl in Hl. injection Hl as <-. simpl.
        pose proof (stream_length _ _ _ _ _ _ _ Hs') as Hlen.
        destruct chunks as [|c' chunks]; [|done].
        apply ret_Ok in Hs' as [_ ->].
        rewrite (saved_steps_slot _ _ _ _ Hsk). by rewrite Hsrc.
      * apply Hlast. by rewrite last_cons_cons in Hl.
    + intros _. destruct chunks as [|c' chunks]; [|by apply Hslots].
      apply ret_Ok in Hs' as [_ ->]. eauto.
Qed.

(** C4: in a streaming session of the attention transform, after every
    call the cached keys and the cached values have as many timesteps as
    there were ready queries in the calls so far, which is the
    [src_len] of that call; later calls only append to the two
    histories. *)
Theorem C4_key_value_growth (self : SRUppTransducerAttention)
    (pre post : list (tensor * option (Tensor2 R))) (w w' : world) outs inc' :
  0 <= A_right_window self ->
  pre <> [] ->
  session (attention_call self) (pre ++ post) w = (Ok (outs, inc'), w') ->
  exists inc outs1 w1 lst,
    session (attention_call self) pre w = (Ok (outs1, Some inc), w1) /\
    inc' = Some inc /\
    last outs1 = Some lst /\
    0 <= sumZ (ready_counts outs1) /\
    slot_len w1 inc "saved_key" = Some (Z.to_nat (sumZ (ready_counts outs1))) /\
    slot_len w1 inc "saved_value" = Some (Z.to_nat (sumZ (ready_counts outs1))) /\
    Z.of_nat (al_src_len lst.2) = sumZ (ready_counts outs1) /\
    exists later_k later_v,
      saved_steps w' inc "saved_key" = saved_steps w1 inc "saved_key" ++ later_k /\
      saved_steps w' inc "saved_value" = saved_steps w1 inc "saved_value" ++ later_v.
Proof.
  intros Hrw Hpre Hrun.
  apply session_prefix in Hrun as (xs1 & inc1 & w1 & xs2 & Hp & Hpost & ->).
  pose proof Hp as Hp'.
  apply session_stream in Hp as (inc & w0 & Hn & Hp).
  apply new_outer_fresh in Hn as (_ & _ & Hslot).
  pose proof (stream_length _ _ _ _ _ _ _ Hp) as Hlen.
  apply (attention_stream_growth _ _ _ _ _ _ _ Hrw) in Hp
    as (tk & tv & -> & Hk & Hv & Hsum & Hlk & Hlv & Hlast & Hslots).
  apply (attention_stream_growth _ _ _ _ _ _ _ Hrw) in Hpost
    as (tk2 & tv2 & -> & Hk2 & Hv2 & _).
  unfold saved_steps in Hk at 2, Hv at 2. rewrite !Hslot in Hk, Hv. simpl in Hk, Hv.
  destruct (Hslots Hpre) as (k & v & Hsk & Hsv).
  assert (exists lst, last xs1 = Some lst) as [lst Hl].
  { destruct xs1 as [|x xs1]; [by destruct pre|].
    apply last_is_Some. done. }
  exists inc, xs1, w1, lst.
  rewrite (slot_len_slot _ _ _ _ Hsk), (slot_len_slot _ _ _ _ Hsv).
  rewrite (saved_steps_slot _ _ _ _ Hsk) in Hk.
  rewrite (saved_steps_slot _ _ _ _ Hsv) in Hv.
  specialize (Hlast _ Hl). rewrite (saved_steps_slot _ _ _ _ Hsk) in Hlast.
  unfold size0. rewrite Hk, Hv in *.
  split_and!; try done; try (f_equal; lia); try lia.
  exists tk2, tv2.
  rewrite (saved_steps_slot _ _ _ _ Hsk), (saved_steps_slot _ _ _ _ Hsv) in *.
  by rewrite Hk, Hv in *.
Qed.

End ClaimsAttentionState.

Section ClaimsMaskSlots.

Context {R : Type} `{Scalar R} {Rng : Type} `{Dropper R Rng}.

Local Abbreviation tensor := (@Tensor R).
Local Abbreviation world := (@World R Rng).


(** C10: a streaming call of the attention transform leaves the three
    slots [saved_query], [saved_key] and [saved_value] holding tensors,
    the last two of the same time-length; a streaming call of the linear
    transform writes [saved_query] and leaves every other slot as it
    was. Both return the incremental state they were given: the same
    outer dictionary object, updated in place, and under
    ["attn_state"] the inner dictionary object that was there (a new one
    only when the key was absent). *)
Theorem C10_slots_after_call :
  (forall (self : SRUppTransducerAttention) (input : tensor) mask_pad attn_mask
          (inc : loc) (w w' : world) out inc',
      SRUppTransducerAttention_forward self input mask_pad attn_mask (Some inc) w
        = (Ok (out, inc'), w') ->
      inc' = Some inc /\
      exists nr k v,
        state_written w w' inc (attn_dict (state_dict w inc) nr k v) /\
        slot w' inc "saved_query" = Some (Some nr) /\
        slot w' inc "saved_key" = Some (Some k) /\
        slot w' inc "saved_value" = Some (Some v) /\
        size0 k = size0 v)
  /\
  (forall (self : SRUppTransducerLinear) (input : tensor) mask_pad attn_mask
          (inc : loc) (w w' : world) out inc',
      SRUppTransducerLinear_forward self input mask_pad attn_mask (Some inc) w
        = (Ok (out, inc'), w') ->
      inc' = Some inc /\
      exists nr,
        state_written w w' inc (<["saved_query" := Some nr]> (state_dict w inc)) /\
        slot w' inc "saved_query" = Some (Some nr) /\
        forall key, key <> "saved_query" -> slot w' inc key = slot w inc key).
Proof.
  split.
  - intros self input mask_pad attn_mask inc w w' out inc' Hrun.
    apply attention_forward_locals in Hrun as [L Hrun].
    apply attention_streaming_call in Hrun
      as (q & cur & k & v & kn & vn & _ & -> & _ & _ & _ & _ & _ & _ & _ & _ & _ & _
          & _ & _ & Hsz & _ & Hw & _).
    split; [done|]. exists (query_not_ready cur), k, v.
    rewrite !(state_written_slot _ _ _ _ _ Hw). unfold attn_dict.
    rewrite lookup_insert_eq.
    rewrite (lookup_insert_ne _ "saved_value" "saved_key") by done.
    rewrite lookup_insert_eq.
    rewrite (lookup_insert_ne _ "saved_value" "saved_query") by done.
    rewrite (lookup_insert_ne _ "saved_key" "saved_query") by done.
    rewrite lookup_insert_eq. done.
  - intros self input mask_pad attn_mask inc w w' out inc' Hrun.
    apply linear_forward_locals in Hrun as [lc Hrun].
    apply linear_streaming_call in Hrun
      as (q & cur & _ & -> & _ & _ & _ & _ & Hw & _).
    split; [done|]. exists (query_not_ready cur).
    split; [done|]. split.
    + rewrite (state_written_slot _ _ _ _ _ Hw). by rewrite lookup_insert_eq.
    + intros key Hkey. rewrite (state_written_slot _ _ _ _ _ Hw).
      rewrite lookup_insert_ne by done. by rewrite slot_state_dict.
Qed.

End ClaimsMaskSlots.

(** ** The log of recurrence calls *)

Section Log.

Context {R : Type} `{Scalar R} {Rng : Type} `{Dropper R Rng}.

Local Abbreviation tensor := (@Tensor R).
Local Abbreviation world := (@World R Rng).
Local Abbreviation comp := (@M R Rng).

Lemma keeps_log_ret {A} (a : A) : keeps_log (ret a : comp A).
Proof. intros w r w' [= _ <-]. done. Qed.

Lemma keeps_log_raise {A} (e : exn) : keeps_log (raise e : comp A).
Proof. intros w r w' [= _ <-]. done. Qed.

Lemma keeps_log_lift {A} (x : result A) : keeps_log (lift x : comp A).
Proof. intros w r w' [= _ <-]. done. Qed.

Lemma keeps_log_assert (b : bool) : keeps_log (assert_ b : comp unit).
Proof. destruct b; [apply keeps_log_ret | apply keeps_log_raise]. Qed.

Lemma keeps_log_bind {A B} (m : comp A) (k : A -> comp B) :
  keeps_log m -> (forall a, keeps_log (k a)) -> keeps_log (bindM m k).
Proof.
  intros Hm Hk w r w'. unfold bindM. destruct (m w) as [[a|e] w1] eqn:E.
  - intros Hr. apply Hk in Hr. apply Hm in E. congruence.
  - intros [= _ <-]. by apply Hm in E.
Qed.

Lemma keeps_log_dict_get (s : loc) (key : string) : keeps_log (dict_get s key : comp _).
Proof. intros w r w' [= _ <-]. done. Qed.

Lemma keeps_log_dict_set (s : loc) (key : string) (v : option tensor) :
  keeps_log (dict_set s key v : comp _).
Proof. intros w r w' [= _ <-]. done. Qed.

Lemma keeps_log_outer_set (inc : loc) (key : string) (s : loc) :
  keeps_log (outer_set inc key s : comp _).
Proof. intros w r w' [= _ <-]. done. Qed.

Lemma keeps_log_fetch (inc : loc) : keeps_log (fetch_attn_state inc : comp _).
Proof.
  intros w r w'. unfold fetch_attn_state, new_inner.
  destruct (outer_dict w inc !! "attn_state"); by intros [= _ <-].
Qed.

Lemma keeps_log_F_dropout (x : tensor) (p : R) (training : bool) :
  keeps_log (F_dropout x p training).
Proof.
  intros w r w'. unfold F_dropout. destruct (bad_probability p); [by intros [= _ <-]|].
  destruct training; [|by intros [= _ <-]].
  destruct (drop_rows p (t_steps x) (w_rng w)). by intros [= _ <-].
Qed.

Lemma keeps_log_F_dropout_mats (x : list (list (list R))) (p : R) (training : bool) :
  keeps_log (F_dropout_mats x p training : comp _).
Proof.
  intros w r w'. unfold F_dropout_mats. destruct (bad_probability p); [by intros [= _ <-]|].
  destruct training; [|by intros [= _ <-]].
  destruct (drop_mats p x (w_rng w)). by intros [= _ <-].
Qed.

Ltac log_step :=
  first
    [ apply keeps_log_ret | apply keeps_log_raise | apply keeps_log_lift
    | apply keeps_log_assert | apply keeps_log_dict_get | apply keeps_log_dict_set
    | apply keeps_log_outer_set | apply keeps_log_fetch | apply keeps_log_F_dropout
    | apply keeps_log_F_dropout_mats
    | apply keeps_log_bind; [|intros ?]
    | match goal with
      | |- keeps_log (match ?x with _ => _ end) => destruct x
      | |- keeps_log (if ?b then _ else _) => destruct b
      | |- keeps_log (let '(_, _) := ?p in _) => destruct p
      end ].

Lemma keeps_log_take_saved_queries (rw : Z) (q : tensor) (inc : loc) :
  keeps_log (take_saved_queries rw q inc : comp _).
Proof. unfold take_saved_queries. repeat log_step. Qed.

Lemma keeps_log_update_saved (state inc : loc) (cur : Cursor) (k v : tensor) :
  keeps_log (update_saved state inc cur k v : comp _).
Proof. unfold update_saved. repeat log_step. Qed.

Lemma keeps_log_attention (self : SRUppTransducerAttention) (q k v residual : tensor)
    (tgt_len src_len bsz : nat) (head_dim : Z) (scaling : R) mask_pad attn_mask :
  keeps_log (attention self q k v residual tgt_len src_len bsz head_dim scaling
               mask_pad attn_mask : comp _).
Proof. unfold attention, Dropout_forward. repeat log_step. Qed.

Lemma keeps_log_attention_inputs (self : SRUppTransducerAttention) (input : tensor)
    mask_pad attn_mask inc :
  keeps_log (attention_inputs self input mask_pad attn_mask inc : comp _).
Proof.
  unfold attention_inputs.
  repeat first [apply keeps_log_take_saved_queries | apply keeps_log_update_saved | log_step].
Qed.

Lemma keeps_log_attention_forward (self : SRUppTransducerAttention) (input : tensor)
    mask_pad attn_mask inc :
  keeps_log (SRUppTransducerAttention_forward self input mask_pad attn_mask inc : comp _).
Proof.
  unfold SRUppTransducerAttention_forward, SRUppTransducerAttention_locals.
  repeat first [apply keeps_log_attention_inputs | apply keeps_log_attention | log_step].
Qed.

Lemma keeps_log_linear_forward (self : SRUppTransducerLinear) (input : tensor)
    mask_pad attn_mask inc :
  keeps_log (SRUppTransducerLinear_forward self input mask_pad attn_mask inc : comp _).
Proof.
  unfold SRUppTransducerLinear_forward, SRUppTransducerLinear_locals,
    SRUppTransducerLinear_tail, Dropout_forward.
  repeat first [apply keeps_log_take_saved_queries | log_step].
Qed.

Lemma keeps_log_transform (t : Transform) (input : tensor) mask_pad attn_mask inc :
  keeps_log (transform_module_forward t input mask_pad attn_mask inc : comp _).
Proof.
  destruct t; [apply keeps_log_attention_forward | apply keeps_log_linear_forward].
Qed.

Lemma cell_dropout_mask_run (self : SRUppTransducerCell) (batch_size : nat) (w : world) :
  exists mask_c w0,
    cell_dropout_mask self batch_size w = (Ok mask_c, w0) /\ same_dicts w w0 /\
    (C_training self = false -> mask_c = None /\ w0 = w).
Proof.
  unfold cell_dropout_mask. destruct (C_training self); simpl.
  - destruct (rltb r0 (C_dropout self)).
    + unfold bindM, get_dropout_mask_.
      destruct (C_get_dropout_mask_ self (w_rng w) _ _) as [m g].
      eexists _, _. split; [done|]. split; [done|]. done.
    + eexists _, _. split; [done|]. split; [done|]. done.
  - eexists _, _. split; [done|]. split; [done|]. done.
Qed.

End Log.

Section ClaimsCell.

Context {R : Type} `{Scalar R} {Rng : Type} `{Dropper R Rng}.

Local Abbreviation tensor := (@Tensor R).
Local Abbreviation world := (@World R Rng).

(** C5: when the wrapped transform returns a chunk [U] of zero
    time-length, the cell returns a hidden output of shape
    (0, batch, output_size), the carry it was given (zeros when none
    was given) and the incremental state the transform returned, in the
    store the transform left; the elementwise recurrence is not called
    (the log of its calls is unchanged). *)
Theorem C5_starvation_short_circuit (self : SRUppTransducerCell) (input : tensor)
    (c0 : option (Tensor2 R)) mask_pad attn_mask inc (w w0 w1 : world)
    (mask_c : option (Tensor2 R)) (U : tensor) inc' :
  cell_dropout_mask self (t_bsz input) w = (Ok mask_c, w0) ->
  transform_module_forward (C_transform_module self) input mask_pad attn_mask inc w0
    = (Ok (U, inc'), w1) ->
  size0 U = 0%nat ->
  let h := zeros3 0 (t_bsz input) (C_output_size self) in
  let c := from_option id (zeros2 (t_bsz input) (C_output_size self)) c0 in
  SRUppTransducerCell_forward self input c0 mask_pad attn_mask inc w = (Ok (h, c, inc'), w1) /\
  size0 h = 0%nat /\ t_bsz h = t_bsz input /\ t_feat h = C_output_size self /\
  w_log w1 = w_log w.
Proof.
  intros Hm Ht HU. simpl. split_and!; try done.
  - unfold SRUppTransducerCell_forward.
    rewrite (bindM_step _ _ _ _ _ Hm). rewrite (bindM_step _ _ _ _ _ Ht).
    unfold numel. rewrite HU. simpl. by destruct c0.
  - apply keeps_log_transform in Ht.
    destruct (cell_dropout_mask_run self (t_bsz input) w) as (m' & w0' & Hm' & (_ & _ & Hl) & _).
    rewrite Hm in Hm'. injection Hm' as _ <-. congruence.
Qed.

Lemma transform_mask_contract (t : Transform) (input : tensor) (mask_pad : Tensor2 bool)
    attn_mask (inc : loc) (w : world) :
  exists e,
    transform_module_forward t input (Some mask_pad) attn_mask (Some inc) w = (Raise e, w) /\
    (transform_accepts t input -> e = AssertionError).
Proof.
  destruct t as [m|m]; simpl.
  - unfold SRUppTransducerAttention_forward, SRUppTransducerAttention_locals,
      attention_inputs, bindM, lift, raise, ret.
    destruct (A_num_heads m =? 0) eqn:Eh.
    { eexists. split; [done|]. intros (Hn & _). apply Z.eqb_eq in Eh. done. }
    destruct (A_proj_features m / A_num_heads m =? 0) eqn:Ed.
    { eexists. split; [done|]. intros (_ & Hn & _). apply Z.eqb_eq in Ed. done. }
    destruct (Linear_forward (A_linear1 m) input) as [q|e] eqn:El.
    + simpl. eexists. split; done.
    + eexists. split; [done|]. intros (_ & _ & Hf).
      rewrite (Linear_forward_shape _ _ Hf) in El. done.
  - unfold SRUppTransducerLinear_forward, SRUppTransducerLinear_locals,
      bindM, lift, raise, ret.
    destruct (Linear_forward (L_linear1 m) input) as [q|e] eqn:El.
    + simpl. eexists. split; done.
    + eexists. split; [done|]. intros Hf.
      rewrite (Linear_forward_shape _ _ Hf) in El. done.
Qed.

(** C7: a call of either transform with a pad mask and an incremental
    state fails and leaves the store as it was; the error is the failed
    assertion whenever the first lines accept the input. The same holds
    for the cell, whose two dictionaries are as before the call. *)
Theorem C7_mask_contract (t : Transform) (input : tensor) (mask_pad : Tensor2 bool)
    attn_mask (inc : loc) (w : world) :
  (exists e,
     transform_module_forward t input (Some mask_pad) attn_mask (Some inc) w = (Raise e, w) /\
     (transform_accepts t input -> e = AssertionError)) /\
  (forall (self : SRUppTransducerCell) c0,
     C_transform_module self = t ->
     exists e w',
       SRUppTransducerCell_forward self input c0 (Some mask_pad) attn_mask (Some inc) w
         = (Raise e, w') /\
       same_dicts w w' /\
       (transform_accepts t input -> e = AssertionError)).
Proof.
  split; [apply transform_mask_contract|].
  intros self c0 <-.
  destruct (cell_dropout_mask_run self (t_bsz input) w) as (m & w0 & Hm & Hsd & _).
  destruct (transform_mask_contract (C_transform_module self) input mask_pad attn_mask inc w0)
    as (e & He & Hacc).
  exists e, w0. split_and!; try done.
  unfold SRUppTransducerCell_forward.
  rewrite (bindM_step _ _ _ _ _ Hm). by rewrite (bindM_raise _ _ _ _ _ He).
Qed.

End ClaimsCell.

(** ** Construction of the attention transform and its head sizes *)

Section Construction.

Context {R : Type} `{Scalar R} {Rng : Type} `{Dropper R Rng}.

Local Abbreviation tensor := (@Tensor R).
Local Abbreviation world := (@World R Rng).
Local Abbreviation comp := (@M R Rng).

Lemma nn_Linear_Ok (i o : Z) (W : list (list R)) :
  0 <= i -> 0 <= o -> nn_Linear i o W = Ok (mkLinear (Z.to_nat i) (Z.to_nat o) W).
Proof.
  intros Hi Ho. unfold nn_Linear.
  destruct (Z.ltb_spec i 0); [lia|]. destruct (Z.ltb_spec o 0); [lia|]. done.
Qed.

Lemma xavier_uniform_Ok (i o : nat) (W0 W : list (list R)) :
  (0 < i + o)%nat -> xavier_uniform_ (mkLinear i o W0) W = Ok (mkLinear i o W).
Proof.
  intros Hpos. unfold xavier_uniform_. simpl.
  destruct (decide ((i + o)%nat = 0%nat)); [lia|done].
Qed.

Lemma xavier_uniform_zero (W0 W : list (list R)) :
  xavier_uniform_ (mkLinear 0 0 W0) W = Raise ZeroDivisionError.
Proof. done. Qed.

Lemma attention_init_cases
    (in_features out_features proj_features num_heads : Z)
    (dropout attn_dropout rezero_init_alpha : R)
    (layer_norm normalize_after : bool) (right_window : Z)
    (xavier1 xavier2 xavier3 : list (list R)) (norm : list R -> list R) :
  0 <= in_features -> 0 <= out_features -> 0 <= proj_features ->
  bad_probability dropout = false ->
  let r := SRUppTransducerAttention_init in_features out_features proj_features num_heads
             dropout attn_dropout rezero_init_alpha layer_norm normalize_after
             right_window xavier1 xavier2 xavier3 norm in
  (num_heads = 0 -> r = Raise ZeroDivisionError) /\
  (num_heads <> 0 -> proj_features mod num_heads <> 0 ->
   r = Raise (ValueError msg_divisible)) /\
  (num_heads <> 0 -> proj_features = 0 -> r = Raise ZeroDivisionError) /\
  (num_heads <> 0 -> proj_features mod num_heads = 0 -> 0 < proj_features ->
   exists m, r = Ok m /\ attn_wf m /\ attn_wf (SRUppTransducerAttention_eval m) /\
             A_proj_features m = proj_features /\ A_num_heads m = num_heads).
Proof.
  intros Hi Ho Hp Hd. simpl. unfold SRUppTransducerAttention_init, nn_Dropout.
  rewrite Hd. simpl.
  rewrite !nn_Linear_Ok by lia. simpl.
  split_and!.
  - intros ->. done.
  - intros Hn Hm. destruct (Z.eqb_spec num_heads 0); [done|].
    destruct (Z.eqb_spec (proj_features mod num_heads) 0); done.
  - intros Hn ->. destruct (Z.eqb_spec num_heads 0); [done|].
    rewrite Zmod_0_l. simpl.
    destruct (decide (in_features = 0)) as [->|Hin].
    + by rewrite xavier_uniform_zero.
    + rewrite xavier_uniform_Ok by lia. done.
  - intros Hn Hm Hpos. destruct (Z.eqb_spec num_heads 0); [done|].
    destruct (Z.eqb_spec (proj_features mod num_heads) 0); [|done]. simpl.
    rewrite !xavier_uniform_Ok by lia. simpl.
    eexists. split; [done|].
    unfold attn_wf. simpl. destruct (rltb r0 dropout); simpl; done.
Qed.

(** *** Raising *)

Lemma raises_only_ret {A} (P : exn -> Prop) (a : A) : raises_only P (ret a : comp A).
Proof. intros w e w' [=]. Qed.

Lemma raises_only_raise {A} (P : exn -> Prop) (e : exn) :
  P e -> raises_only P (raise e : comp A).
Proof. intros He w e' w' [= <- _]. done. Qed.

Lemma raises_only_lift {A} (P : exn -> Prop) (r : result A) :
  (forall e, r = Raise e -> P e) -> raises_only P (lift r : comp A).
Proof. intros Hr w e w' [= -> _]. by apply Hr. Qed.

Lemma raises_only_bind {A B} (P : exn -> Prop) (m : comp A) (k : A -> comp B) :
  raises_only P m ->
  (forall a w w1, m w = (Ok a, w1) -> raises_only P (k a)) ->
  raises_only P (bindM m k).
Proof.
  intros Hm Hk w e w'. unfold bindM. destruct (m w) as [[a|e1] w1] eqn:E.
  - intros Hr. by eapply Hk.
  - intros [= <- _]. by eapply Hm.
Qed.

Lemma raises_only_mono {A} (P Q : exn -> Prop) (m : comp A) :
  (forall e, P e -> Q e) -> raises_only P m -> raises_only Q m.
Proof. intros HPQ Hm w e w' Hr. apply HPQ. by eapply Hm. Qed.

End Construction.

Section HeadSizes.

Context {R : Type} `{Scalar R} {Rng : Type} `{Dropper R Rng}.

Local Abbreviation tensor := (@Tensor R).
Local Abbreviation world := (@World R Rng).
Local Abbreviation comp := (@M R Rng).

Ltac nhf := first [ done | split; [unfold msg_view_size; try done; vm_compute; discriminate | done] ].

Lemma view_heads_wf (x : tensor) (len : nat) (hd : Z) (heads : nat) :
  hd <> 0 -> t_feat x = (heads * Z.to_nat hd)%nat -> size0 x = len ->
  (forall e, view_heads x len hd = Raise e -> no_head_failure e) /\
  (forall y, view_heads x len hd = Ok y ->
             t_bsz y = (t_bsz x * heads)%nat /\ 0 < hd /\ (0 < len)%nat).
Proof.
  intros Hhd Hf Hs. unfold view_heads.
  destruct (Z.ltb_spec hd 0) as [Hneg|Hpos].
  { split; [|done]. intros e [= <-]. nhf. }
  assert (0 < Z.to_nat hd)%nat as Hd by lia.
  set (d := Z.to_nat hd) in *.
  assert (numel x = (len * d) * (t_bsz x * heads))%nat as Hnum.
  { unfold numel. rewrite Hs, Hf. lia. }
  destruct (decide (len = 0%nat)) as [->|Hlen].
  - assert (bool_decide (numel x = (0 * d)%nat) = true) as Hc
      by (apply bool_decide_eq_true_2; rewrite Hnum; lia).
    rewrite Hc. simpl. split; [|done]. intros e [= <-]. nhf.
  - assert (0 < len * d)%nat as Hnew by nia.
    rewrite (bool_decide_eq_true_2 (0 < len * d)%nat) by done.
    rewrite (bool_decide_eq_true_2 (numel x mod (len * d) = 0)%nat).
    2:{ rewrite Hnum, Nat.mul_comm. apply Nat.Div0.mod_mul. }
    rewrite orb_true_r. case_decide; [lia|].
    split; [done|]. intros y [= <-]. simpl. split_and!; try lia.
    rewrite Hnum, Nat.mul_comm. apply Nat.div_mul. lia.
Qed.

Lemma raises_only_F_dropout (x : tensor) (p : R) (training : bool) :
  raises_only no_head_failure (F_dropout x p training).
Proof.
  intros w e w'. unfold F_dropout. destruct (bad_probability p).
  - intros [= <- _]. nhf.
  - destruct training; [|done]. by destruct (drop_rows p (t_steps x) (w_rng w)).
Qed.

Lemma raises_only_F_dropout_mats (x : list (list (list R))) (p : R) (training : bool) :
  raises_only no_head_failure (F_dropout_mats x p training : comp _).
Proof.
  intros w e w'. unfold F_dropout_mats. destruct (bad_probability p).
  - intros [= <- _]. nhf.
  - destruct training; [|done]. by destruct (drop_mats p x (w_rng w)).
Qed.

Lemma Linear_forward_raise (l : Linear) (x : tensor) (e : exn) :
  Linear_forward l x = Raise e -> no_head_failure e.
Proof. unfold Linear_forward. case_decide; [done|]. intros [= <-]. nhf. Qed.

Lemma LayerNorm_forward_raise (ln : LayerNorm) (x : tensor) (e : exn) :
  LayerNorm_forward ln x = Raise e -> no_head_failure e.
Proof. unfold LayerNorm_forward. case_decide; [done|]. intros [= <-]. nhf. Qed.

Lemma bmm_raise (p : nat) (a b : list (list (list R))) (e : exn) :
  bmm p a b = Raise e -> no_head_failure e.
Proof. unfold bmm. case_decide; [done|]. intros [= <-]. nhf. Qed.

Lemma rezero_raise (x residual : tensor) (alpha : R) (e : exn) :
  rezero x alpha residual = Raise e -> no_head_failure e.
Proof. unfold rezero. case_decide; [done|]. intros [= <-]. nhf. Qed.

Lemma chunk2_raise (x : tensor) (e : exn) :
  chunk2 x = Raise e -> no_head_failure e.
Proof. unfold chunk2. case_decide; [|done]. intros [= <-]. nhf. Qed.

Lemma cat0_raise (a b : tensor) (e : exn) :
  cat0 a b = Raise e -> no_view_size e.
Proof.
  unfold cat0. case_decide; [done|]. intros [= <-]. unfold no_view_size.
  vm_compute. discriminate.
Qed.

(** The attention computation on inputs of the sizes the constructor
    guarantees. *)
Lemma attention_raises (self : SRUppTransducerAttention) (q k v residual : tensor)
    (bsz : nat) (head_dim : Z) (scaling : R) mask_pad attn_mask :
  attn_wf self ->
  head_dim = A_proj_features self / A_num_heads self -> head_dim <> 0 ->
  t_feat q = Z.to_nat (A_proj_features self) -> t_bsz q = bsz ->
  t_feat k = Z.to_nat (A_proj_features self) ->
  t_feat v = Z.to_nat (A_proj_features self) ->
  size0 v = size0 k ->
  raises_only no_head_failure
    (attention self q k v residual (size0 q) (size0 k) bsz head_dim scaling
       mask_pad attn_mask : comp _).
Proof.
  intros (Hn & Hmod & Hp & _) Hhd Hhd0 Hfq Hbq Hfk Hfv Hsv.
  assert (A_proj_features self = A_num_heads self * head_dim) as Hproj.
  { rewrite Hhd. apply Z.div_exact in Hmod; [|done]. done. }
  unfold attention.
  assert (0 < head_dim -> Z.to_nat (A_proj_features self)
                          = (Z.to_nat (A_num_heads self) * Z.to_nat head_dim)%nat
                          /\ 0 < A_num_heads self) as Hnat.
  { intros Hpos. assert (0 < A_num_heads self) by nia. split; [|done].
    rewrite Hproj. rewrite Z2Nat.inj_mul by lia. done. }
  destruct (Z.ltb_spec 0 head_dim) as [Hpos|Hneg].
  2:{ (* a negative head size: the first view fails *)
    apply raises_only_bind.
    - apply raises_only_lift. intros e. unfold view_heads.
      destruct (Z.ltb_spec head_dim 0); [|lia]. intros [= <-]. nhf.
    - intros a w w1 Hok. apply lift_Ok in Hok as [Hok _]. unfold view_heads in Hok.
      destruct (Z.ltb_spec head_dim 0); [done|lia]. }
  destruct (Hnat Hpos) as [Hpn Hheads].
  set (heads := Z.to_nat (A_num_heads self)) in *.
  destruct (view_heads_wf q (size0 q) head_dim heads Hhd0 ltac:(congruence) eq_refl)
    as [Hqr Hqo].
  destruct (view_heads_wf k (size0 k) head_dim heads Hhd0 ltac:(congruence) eq_refl)
    as [Hkr Hko].
  destruct (view_heads_wf v (size0 k) head_dim heads Hhd0 ltac:(congruence) Hsv)
    as [Hvr Hvo].
  apply raises_only_bind; [by apply raises_only_lift|].
  intros q1 w w1 Hq1. apply lift_Ok in Hq1 as [Hq1 _]. apply Hqo in Hq1 as (Hbh & _ & Htg).
  apply raises_only_bind; [by apply raises_only_lift|]. intros k1 ? ? _.
  apply raises_only_bind; [by apply raises_only_lift|]. intros v1 ? ? _.
  apply raises_only_bind; [apply raises_only_lift, bmm_raise|]. intros aw ? ? _.
  apply raises_only_bind.
  { replace (Z.of_nat (t_bsz q1) =? Z.of_nat bsz * A_num_heads self) with true.
    - apply raises_only_ret.
    - symmetry. apply Z.eqb_eq. rewrite Hbh, Hbq. subst heads. lia. }
  intros _ ? ? _.
  apply raises_only_bind.
  { destruct attn_mask as [am|]; [|apply raises_only_ret].
    case_decide; [apply raises_only_ret|]. apply raises_only_raise. nhf. }
  intros aw1 ? ? _.
  apply raises_only_bind.
  { destruct mask_pad as [mp|]; [|apply raises_only_ret].
    case_decide; [apply raises_only_ret|]. apply raises_only_raise. nhf. }
  intros aw2 ? ? _.
  apply raises_only_bind; [apply raises_only_F_dropout_mats|]. intros aw3 ? ? _.
  apply raises_only_bind; [apply raises_only_lift, bmm_raise|]. intros ao ? ? _.
  apply raises_only_bind.
  { apply raises_only_lift. intros e. unfold merge_heads.
    destruct (Z.ltb_spec (A_proj_features self) 0); [lia|].
    case_decide as Hne; [done|]. exfalso. apply Hne.
    rewrite Hbh, Hbq, Hpn. lia. }
  intros ao1 ? ? _.
  apply raises_only_bind; [apply raises_only_lift, rezero_raise|]. intros ao2 ? ? _.
  apply raises_only_bind.
  { destruct (A_layer_norm self); [destruct (A_normalize_after self)|];
      [apply raises_only_lift, LayerNorm_forward_raise | apply raises_only_ret
      | apply raises_only_ret]. }
  intros ao3 ? ? _.
  apply raises_only_bind; [apply raises_only_F_dropout|]. intros ao4 ? ? _.
  apply raises_only_lift, Linear_forward_raise.
Qed.

End HeadSizes.

Section HeadSizesForward.

Context {R : Type} `{Scalar R} {Rng : Type} `{Dropper R Rng}.

Local Abbreviation tensor := (@Tensor R).
Local Abbreviation world := (@World R Rng).
Local Abbreviation comp := (@M R Rng).

Lemma half_of_double (n : nat) : ((2 * n + 1) / 2 = n)%nat.
Proof.
  symmetry. apply (Nat.div_unique _ 2 n 1); lia.
Qed.

Lemma attention_inputs_meta (self : SRUppTransducerAttention) (input : tensor)
    mask_pad attn_mask inc (w w' : world) (a : AttnInputs) :
  attn_wf self ->
  attention_inputs self input mask_pad attn_mask inc w = (Ok a, w') ->
  ai_head_dim a = A_proj_features self / A_num_heads self /\
  ai_head_dim a <> 0 /\
  t_bsz (ai_q a) = ai_bsz a /\
  t_feat (ai_q a) = Z.to_nat (A_proj_features self) /\
  t_feat (ai_k a) = Z.to_nat (A_proj_features self) /\
  t_feat (ai_v a) = Z.to_nat (A_proj_features self) /\
  size0 (ai_v a) = size0 (ai_k a) /\
  ai_tgt_len a = size0 (ai_q a) /\
  ai_src_len a = size0 (ai_k a).
Proof.
  intros (Hn & Hmod & Hp & Hl1 & Hl2) Hrun. unfold attention_inputs in Hrun.
  apply bindM_Ok in Hrun as (hd & w0 & Hhd & Hrun).
  destruct (A_num_heads self =? 0); [done|]. apply ret_Ok in Hhd as [-> ->].
  apply bindM_Ok in Hrun as (sc & w0 & Hsc & Hrun).
  destruct (Z.eqb_spec (A_proj_features self / A_num_heads self) 0) as [|Hhd0]; [done|].
  apply ret_Ok in Hsc as [-> ->].
  apply bindM_Ok in Hrun as (q & w0 & Hq & Hrun). apply lift_Ok in Hq as [Hq ->].
  apply Linear_forward_Ok in Hq as [_ Hq].
  assert (t_bsz q = t_bsz input /\ t_feat q = Z.to_nat (A_proj_features self) /\
          size0 q = size0 input) as (Hbq & Hfq & Hsq).
  { rewrite Hq. unfold size0. simpl. by rewrite length_map. }
  apply bindM_Ok in Hrun as ([[[qr tgt] am'] sco] & w1 & Hst & Hrun).
  assert (t_bsz qr = t_bsz input /\ t_feat qr = Z.to_nat (A_proj_features self) /\
          tgt = size0 qr /\
          match inc, sco with
          | Some _, Some _ => True
          | None, None => size0 qr = size0 input
          | _, _ => False
          end) as (Hbr & Hfr & Htg & Hmode).
  { destruct inc as [i|].
    - apply bindM_Ok in Hst as ([] & w2 & Has & Hst).
      apply bindM_Ok in Hst as ([s cur] & w3 & Htk & Hst).
      apply take_saved_queries_Ok in Htk as (_ & _ & _ & _ & _ & _ & _ & Hc).
      apply ret_Ok in Hst as [Heq _]. simplify_eq/=.
      apply cursor_spec_sizes in Hc as (_ & _ & Hb & Hf & _). simpl in *.
      split_and!; try done; congruence.
    - apply ret_Ok in Hst as [Heq _]. by simplify_eq/=. }
  apply bindM_Ok in Hrun as (q1 & w4 & Hln & Hrun).
  apply pre_layer_norm_Ok in Hln as (-> & Hs1 & Hb1 & Hf1).
  apply bindM_Ok in Hrun as ([k0 v0] & w4 & Hkv & Hrun).
  apply bindM_Ok in Hkv as (x & w5 & Hlin2 & Hkv). apply lift_Ok in Hlin2 as [Hlin2 ->].
  apply lift_Ok in Hkv as [Hch ->].
  apply Linear_forward_Ok in Hlin2 as [_ Hx].
  assert (t_feat x = (2 * Z.to_nat (A_proj_features self))%nat /\ size0 x = size0 q1)
    as [Hfx Hsx].
  { rewrite Hx. unfold size0. simpl. rewrite length_map. split; [|done]. rewrite Hl2. lia. }
  apply chunk2_Ok in Hch as (Hsk & Hsv & _ & _ & Hfk & Hfv).
  rewrite Hfx, half_of_double in Hfk, Hfv.
  apply bindM_Ok in Hrun as ([[k v] src] & w6 & Hup & Hrun).
  apply ret_Ok in Hrun as [-> _]. simpl.
  assert (t_feat k = t_feat k0 /\ t_feat v = t_feat v0 /\ size0 v = size0 k /\
          src = size0 k) as (Hfk' & Hfv' & Hsz & Hsrc).
  { destruct inc as [i|], sco as [[s cur]|]; try done.
    - apply bindM_Ok in Hup as ([k' v'] & w7 & Hup & Hret).
      apply ret_Ok in Hret as [Heq _]. simplify_eq/=.
      apply update_saved_Ok in Hup as (_ & _ & _ & _ & _ & Hfk' & _ & Hfv' & Hsz & _).
      done.
    - apply ret_Ok in Hup as [Heq _]. simplify_eq/=.
      split_and!; congruence. }
  split_and!; try done; try congruence; lia.
Qed.

Lemma raises_only_take_saved_queries (rw : Z) (q : tensor) (inc : loc) :
  raises_only no_view_size (take_saved_queries rw q inc : comp _).
Proof.
  unfold take_saved_queries.
  apply raises_only_bind.
  { intros w e w' Hr. destruct (fetch_attn_state_total inc w) as (s & w1 & Hf). congruence. }
  intros s ? ? _. apply raises_only_bind; [by intros ? ? ? [=]|].
  intros slot_v ? ? _. apply raises_only_bind; [|intros; apply raises_only_ret].
  destruct slot_v as [[sq|]|].
  - apply raises_only_lift, cat0_raise.
  - by apply raises_only_raise.
  - apply raises_only_ret.
Qed.

Lemma raises_only_update_saved (state inc : loc) (cur : Cursor) (k v : tensor) :
  raises_only no_view_size (update_saved state inc cur k v : comp _).
Proof.
  unfold update_saved.
  apply raises_only_bind; [by intros ? ? ? [=]|]. intros sk ? ? _.
  apply raises_only_bind.
  { destruct sk as [[t|]|]; [apply raises_only_lift, cat0_raise | by apply raises_only_raise
                             | apply raises_only_ret]. }
  intros k1 ? ? _.
  apply raises_only_bind; [by intros ? ? ? [=]|]. intros sv ? ? _.
  apply raises_only_bind.
  { destruct sv as [[t|]|]; [apply raises_only_lift, cat0_raise | by apply raises_only_raise
                             | apply raises_only_ret]. }
  intros v1 ? ? _.
  apply raises_only_bind.
  { destruct (bool_decide _); [apply raises_only_ret | by apply raises_only_raise]. }
  intros _ ? ? _.
  repeat (apply raises_only_bind; [by intros ? ? ? [=]|]; intros _ ? ? _).
  apply raises_only_ret.
Qed.

Lemma no_head_failure_view (e : exn) : no_head_failure e -> no_view_size e.
Proof. by intros [? _]. Qed.

Lemma attention_inputs_raises (self : SRUppTransducerAttention) (input : tensor)
    mask_pad attn_mask inc :
  raises_only (fun e => no_view_size e /\ (inc = None -> e <> AssertionError))
    (attention_inputs self input mask_pad attn_mask inc : comp _).
Proof.
  unfold attention_inputs.
  apply raises_only_bind.
  { destruct (_ =? 0); [by apply raises_only_raise | apply raises_only_ret]. }
  intros hd ? ? _. apply raises_only_bind.
  { destruct (_ =? 0); [by apply raises_only_raise | apply raises_only_ret]. }
  intros sc ? ? _. apply raises_only_bind.
  { apply raises_only_lift. intros e He. apply Linear_forward_raise in He as [? ?]. done. }
  intros q ? ? _. apply raises_only_bind.
  { destruct inc as [i|]; [|apply raises_only_ret].
    apply raises_only_bind.
    { destruct (is_none mask_pad); [apply raises_only_ret | by apply raises_only_raise]. }
    intros _ ? ? _. apply raises_only_bind; [|intros; apply raises_only_ret].
    eapply raises_only_mono; [|apply raises_only_take_saved_queries]. done. }
  intros [[[qr tgt] am] sco] ? ? _. apply raises_only_bind.
  { destruct (A_layer_norm self); [destruct (negb _)|]; try apply raises_only_ret.
    apply raises_only_lift. intros e He. apply LayerNorm_forward_raise in He as [? ?]. done. }
  intros q1 ? ? _. apply raises_only_bind.
  { apply raises_only_bind.
    - apply raises_only_lift. intros e He. apply Linear_forward_raise in He as [? ?]. done.
    - intros x ? ? _. apply raises_only_lift. intros e He.
      apply chunk2_raise in He as [? ?]. done. }
  intros [k0 v0] ? ? _. apply raises_only_bind.
  { destruct inc as [i|], sco as [[s cur]|]; try apply raises_only_ret.
    apply raises_only_bind; [|intros; apply raises_only_ret].
    eapply raises_only_mono; [|apply raises_only_update_saved]. done. }
  intros [[k v] src] ? ? _. apply raises_only_ret.
Qed.

(** A call of an attention transform with the sizes its constructor
    guarantees never fails on the sizes of the heads: [view] never
    refuses a shape for the number of entries, and outside streaming
    no assertion fails. *)
Lemma attention_forward_head_sizes (self : SRUppTransducerAttention) (input : tensor)
    mask_pad attn_mask inc (w w' : world) (e : exn) :
  attn_wf self ->
  SRUppTransducerAttention_forward self input mask_pad attn_mask inc w = (Raise e, w') ->
  e <> RuntimeError msg_view_size /\ (inc = None -> e <> AssertionError).
Proof.
  intros Hwf. revert w e w'.
  change (raises_only (fun e => no_view_size e /\ (inc = None -> e <> AssertionError))
            (SRUppTransducerAttention_forward self input mask_pad attn_mask inc : comp _)).
  unfold SRUppTransducerAttention_forward, SRUppTransducerAttention_locals.
  apply raises_only_bind; [|intros; apply raises_only_ret].
  apply raises_only_bind; [apply attention_inputs_raises|].
  intros a w w1 Ha.
  apply (attention_inputs_meta _ _ _ _ _ _ _ _ Hwf) in Ha
    as (Hhd & Hhd0 & Hbq & Hfq & Hfk & Hfv & Hsz & Htg & Hsrc).
  apply raises_only_bind; [|intros; apply raises_only_ret].
  rewrite Htg, Hsrc.
  eapply raises_only_mono; [|by apply attention_raises].
  intros e [? ?]. done.
Qed.

End HeadSizesForward.

Section ClaimConstruction.

Context {R : Type} `{Scalar R} {Rng : Type} `{Dropper R Rng}.

Local Abbreviation tensor := (@Tensor R).
Local Abbreviation world := (@World R Rng).

(** C6: with sizes that are not negative and a dropout probability in
    [0, 1], the constructor of the attention transform raises the
    configuration error when [proj_features] is not a multiple of
    [num_heads] (for [num_heads = 0] the test itself raises
    [ZeroDivisionError]), so it raises for 10 and 3. A divisible
    configuration with [proj_features > 0] returns a module, so 12 and 3
    does; with [proj_features = 0], which every [num_heads] other than 0
    divides, [reset_parameters] raises [ZeroDivisionError]. A module the
    constructor returns, in training or in evaluation mode, has
    [head_dim * num_heads = proj_features], and no call of it fails on
    the sizes of the heads: [view] never refuses a shape, and outside
    streaming no assertion fails. *)
Theorem C6_construction_validation
    (in_features out_features proj_features num_heads : Z)
    (dropout attn_dropout rezero_init_alpha : R)
    (layer_norm normalize_after : bool) (right_window : Z)
    (xavier1 xavier2 xavier3 : list (list R)) (norm : list R -> list R) :
  0 <= in_features -> 0 <= out_features -> 0 <= proj_features ->
  bad_probability dropout = false ->
  let r := SRUppTransducerAttention_init in_features out_features proj_features num_heads
             dropout attn_dropout rezero_init_alpha layer_norm normalize_after
             right_window xavier1 xavier2 xavier3 norm in
  (num_heads = 0 -> r = Raise ZeroDivisionError) /\
  (num_heads <> 0 -> proj_features mod num_heads <> 0 ->
   r = Raise (ValueError msg_divisible)) /\
  (proj_features = 10 -> num_heads = 3 -> r = Raise (ValueError msg_divisible)) /\
  (proj_features = 12 -> num_heads = 3 -> is_ok r = true) /\
  (num_heads <> 0 -> proj_features = 0 -> r = Raise ZeroDivisionError) /\
  (num_heads <> 0 -> proj_features mod num_heads = 0 -> 0 < proj_features ->
   exists m,
     r = Ok m /\
     (A_proj_features m / A_num_heads m) * A_num_heads m = A_proj_features m /\
     forall self, self = m \/ self = SRUppTransducerAttention_eval m ->
       forall (input : tensor) mask_pad attn_mask inc (w w' : world) (e : exn),
         SRUppTransducerAttention_forward self input mask_pad attn_mask inc w
           = (Raise e, w') ->
         e <> RuntimeError msg_view_size /\ (inc = None -> e <> AssertionError)).
Proof.
  intros Hi Ho Hp Hd.
  destruct (attention_init_cases in_features out_features proj_features num_heads
              dropout attn_dropout rezero_init_alpha layer_norm normalize_after
              right_window xavier1 xavier2 xavier3 norm Hi Ho Hp Hd)
    as (Hzero & Hbad & Hnone & Hgood).
  simpl in *. split_and!; try done.
  - intros -> ->. by apply Hbad.
  - intros -> ->.
    destruct (Hgood ltac:(done) ltac:(done) ltac:(done)) as (m & -> & _). done.
  - intros Hn Hm Hpos. destruct (Hgood Hn Hm Hpos) as (m & -> & Hwf & Hwfe & Hpm & Hnm).
    exists m. split; [done|]. split.
    + rewrite Hpm, Hnm. apply Z.div_exact in Hm; [|done]. lia.
    + intros self [-> | ->] input mask_pad attn_mask inc w w' e Hrun.
      * exact (attention_forward_head_sizes _ _ _ _ _ _ _ _ Hwf Hrun).
      * exact (attention_forward_head_sizes _ _ _ _ _ _ _ _ Hwfe Hrun).
Qed.

End ClaimConstruction.

(** ** Chunk invariance of the linear transform *)

Section LinearChunks.

Context {R : Type} `{Scalar R} {Rng : Type} `{Dropper R Rng}.

Local Abbreviation tensor := (@Tensor R).
Local Abbreviation world := (@World R Rng).

Lemma linear_tail_eval (self : SRUppTransducerLinear) (q out : tensor) (w w' : world) :
  drop_training (L_dropout self) = false ->
  SRUppTransducerLinear_tail self q w = (Ok out, w') ->
  out = mkTensor (t_bsz q) (lin_out (L_linear2 self))
          (map (L_tail_frame self (t_bsz q)) (t_steps q)) /\
  w' = w /\ L_tail_accepts self (t_feat q).
Proof.
  intros Hev Hrun. unfold SRUppTransducerLinear_tail, Dropout_forward, F_dropout in Hrun.
  rewrite Hev in Hrun. unfold L_tail_accepts, L_tail_frame.
  apply bindM_Ok in Hrun as (q1 & w1 & Hln & Hrun).
  apply bindM_Ok in Hrun as (d & w2 & Hd & Hrun).
  destruct (bad_probability (drop_p (L_dropout self))); [done|].
  apply ret_Ok in Hd as [-> ->]. apply lift_Ok in Hrun as [Hl2 ->].
  apply Linear_forward_Ok in Hl2 as [Hf2 ->].
  destruct (L_layer_norm self) as [ln|].
  - apply lift_Ok in Hln as [Hln ->]. apply LayerNorm_forward_Ok in Hln as [Hf ->].
    simpl in *. rewrite map_map. split_and!; done.
  - apply ret_Ok in Hln as [-> ->]. done.
Qed.

Lemma linear_tail_total (self : SRUppTransducerLinear) (q : tensor) (w : world) :
  drop_training (L_dropout self) = false ->
  L_tail_accepts self (t_feat q) ->
  SRUppTransducerLinear_tail self q w
  = (Ok (mkTensor (t_bsz q) (lin_out (L_linear2 self))
           (map (L_tail_frame self (t_bsz q)) (t_steps q))), w).
Proof.
  intros Hev (Hln & Hp & Hf). unfold SRUppTransducerLinear_tail, Dropout_forward, F_dropout.
  rewrite Hev, Hp. unfold L_tail_frame, bindM, lift, ret.
  destruct (L_layer_norm self) as [ln|].
  - unfold LayerNorm_forward. rewrite decide_True by done. simpl.
    unfold Linear_forward. simpl. rewrite decide_True by congruence. simpl.
    by rewrite map_map.
  - unfold Linear_forward. rewrite decide_True by done. done.
Qed.

(** The non-streaming call, outside training. *)
Lemma linear_full_total (self : SRUppTransducerLinear) (input : tensor)
    mask_pad attn_mask (w : world) :
  drop_training (L_dropout self) = false ->
  t_feat input = lin_in (L_linear1 self) ->
  L_tail_accepts self (lin_out (L_linear1 self)) ->
  SRUppTransducerLinear_forward self input mask_pad attn_mask None w
  = (Ok (mkTensor (t_bsz input) (lin_out (L_linear2 self))
           (map (L_frame self (t_bsz input)) (t_steps input)), None), w).
Proof.
  intros Hev Hf Hacc.
  unfold SRUppTransducerLinear_forward, SRUppTransducerLinear_locals.
  set (q := mkTensor (t_bsz input) (lin_out (L_linear1 self))
              (map (Linear_rows (L_linear1 self) (t_bsz input)) (t_steps input))).
  assert (lift (Linear_forward (L_linear1 self) input) w = (Ok q, w)) as Hq.
  { unfold lift. by rewrite (Linear_forward_shape _ _ Hf). }
  erewrite bindM_step; [|erewrite bindM_step; [|exact Hq]; erewrite bindM_step; [|done];
                         simpl; erewrite bindM_step;
                         [|by apply linear_tail_total]; done].
  unfold ret. simpl. unfold L_frame. by rewrite map_map.
Qed.

Lemma linear_full_eval (self : SRUppTransducerLinear) (input : tensor)
    mask_pad attn_mask (w w' : world) out inc' :
  drop_training (L_dropout self) = false ->
  SRUppTransducerLinear_forward self input mask_pad attn_mask None w = (Ok (out, inc'), w') ->
  inc' = None /\ w' = w /\
  out = mkTensor (t_bsz input) (lin_out (L_linear2 self))
          (map (L_frame self (t_bsz input)) (t_steps input)) /\
  t_feat input = lin_in (L_linear1 self) /\
  L_tail_accepts self (lin_out (L_linear1 self)).
Proof.
  intros Hev Hrun.
  unfold SRUppTransducerLinear_forward, SRUppTransducerLinear_locals in Hrun.
  apply bindM_Ok in Hrun as ([[o9 i9] lc] & w9 & Hrun & Hret).
  apply ret_Ok in Hret as [Heq ->]. simpl in Heq. injection Heq as -> ->.
  apply bindM_Ok in Hrun as (q & w0 & Hq & Hrun).
  apply lift_Ok in Hq as [Hq ->].
  apply bindM_Ok in Hrun as ([qr lc0] & w1 & Hcur & Hrun).
  apply ret_Ok in Hcur as [Heq ->]. injection Heq as E1 E2. subst qr lc0. simpl in Hrun.
  apply bindM_Ok in Hrun as (o & w6 & Htail & Hrun).
  apply ret_Ok in Hrun as [Heq ->]. injection Heq as E1 E2 E3. subst o9 i9 lc.
  apply (linear_tail_eval _ _ _ _ _ Hev) in Htail as (-> & -> & Hacc).
  apply Linear_forward_Ok in Hq as [Hf ->]. simpl in *.
  split_and!; try done. unfold L_frame. by rewrite map_map.
Qed.

(** A streaming call, outside training. *)
Lemma linear_streaming_eval (self : SRUppTransducerLinear) (chunk : tensor)
    attn_mask (inc : loc) (w w' : world) out inc' :
  drop_training (L_dropout self) = false ->
  0 <= L_right_window self ->
  transform_call (TLinear self) chunk attn_mask (Some inc) w = (Ok (out, inc'), w') ->
  let all := saved_steps w inc "saved_query"
             ++ map (Linear_rows (L_linear1 self) (t_bsz chunk)) (t_steps chunk) in
  let n := Z.to_nat (Z.max 0 (Z.of_nat (length all) - L_right_window self)) in
  inc' = Some inc /\
  out = mkTensor (t_bsz chunk) (lin_out (L_linear2 self))
          (map (L_tail_frame self (t_bsz chunk)) (take n all)) /\
  saved_steps w' inc "saved_query" = drop n all /\
  t_feat chunk = lin_in (L_linear1 self) /\
  L_tail_accepts self (lin_out (L_linear1 self)) /\
  w_rng w' = w_rng w /\ w_log w' = w_log w.
Proof.
  intros Hev Hrw Hrun. unfold transform_call, transform_module_forward in Hrun.
  unfold SRUppTransducerLinear_forward, SRUppTransducerLinear_locals in Hrun.
  apply bindM_Ok in Hrun as ([[o9 i9] lc] & w9 & Hrun & Hret).
  apply ret_Ok in Hret as [Heq ->]. simpl in Heq. injection Heq as -> ->.
  apply bindM_Ok in Hrun as (q & w0 & Hq & Hrun).
  apply lift_Ok in Hq as [Hq ->].
  apply bindM_Ok in Hrun as ([qr lc0] & w1 & Hcur & Hrun).
  apply bindM_Ok in Hcur as ([] & w2 & Has & Hcur).
  apply assert_Ok in Has as [_ ->].
  apply bindM_Ok in Hcur as ([s cur] & w3 & Htk & Hcur).
  apply take_saved_queries_Ok in Htk as (Hd & Ho & Hr & Hl & Hal & Hins & Hnn & Hc).
  apply bindM_Ok in Hcur as ([] & w4 & Hset & Hcur).
  pose proof (dict_set_run _ _ _ _ _ _ Hset) as [Hd4 (Ho4 & Hr4 & Hl4 & Hi4)].
  apply bindM_Ok in Hcur as ([] & w5 & Hos & Hcur).
  unfold outer_set in Hos. injection Hos as <-.
  apply ret_Ok in Hcur as [Heq ->]. injection Heq as -> ->.
  simpl in Hrun.
  apply bindM_Ok in Hrun as (o & w6 & Htail & Hrun).
  apply ret_Ok in Hrun as [Heq ->]. injection Heq as -> ->.
  apply (linear_tail_eval _ _ _ _ _ Hev) in Htail as (-> & -> & Hacc).
  pose proof (cursor_spec_sizes _ _ _ _ _ Hc) as (Hqr & Hnr & Hbr & Hfr & _ & _ & Hn).
  apply Linear_forward_Ok in Hq as [Hfc ->]. simpl in *.
  rewrite Hbr, Hqr, Hn. rewrite Hfr in Hacc.
  split_and!; try done; try congruence.
  unfold saved_steps, slot, attn_state_of, outer_dict, inner_dict. simpl.
  rewrite lookup_insert_eq. simpl. rewrite lookup_insert_eq. simpl.
  unfold dict_set in Hset. injection Hset as <-. simpl.
  rewrite lookup_insert_eq. simpl. rewrite lookup_insert_eq. by rewrite Hnr, Hn.
Qed.

Lemma take_app_drop {A} (l r : list A) (n m : nat) :
  (n <= length l)%nat ->
  take n l ++ take m (drop n l ++ r) = take (n + m) (l ++ r).
Proof.
  intros Hn. rewrite <- (take_drop n l) at 3. rewrite <- app_assoc.
  rewrite take_app_add'; [done|]. rewrite length_take. lia.
Qed.

Lemma drop_app_drop {A} (l r : list A) (n m : nat) :
  (n <= length l)%nat ->
  drop m (drop n l ++ r) = drop (n + m) (l ++ r).
Proof.
  intros Hn. rewrite <- (take_drop n l) at 2. rewrite <- app_assoc.
  rewrite drop_app_add'; [done|]. rewrite length_take. lia.
Qed.

(** The stream invariant: whatever the partition, the outputs so far
    are the transformed frames of the queue of queries up to the last
    [right_window], which are the saved queries. *)
Lemma linear_stream_eval (self : SRUppTransducerLinear) (bsz feat : nat)
    (pieces : list (list (list R))) (inc : loc) (w w' : world) outs inc' :
  drop_training (L_dropout self) = false ->
  0 <= L_right_window self ->
  Z.of_nat (length (saved_steps w inc "saved_query")) <= L_right_window self ->
  stream (transform_call (TLinear self)) (chunk_calls bsz feat pieces) (Some inc) w
    = (Ok (outs, inc'), w') ->
  let all := saved_steps w inc "saved_query"
             ++ map (Linear_rows (L_linear1 self) bsz) (concat pieces) in
  let n := Z.to_nat (Z.max 0 (Z.of_nat (length all) - L_right_window self)) in
  all_steps outs = map (L_tail_frame self bsz) (take n all) /\
  saved_steps w' inc "saved_query" = drop n all /\
  (pieces <> [] ->
   feat = lin_in (L_linear1 self) /\ L_tail_accepts self (lin_out (L_linear1 self))).
Proof.
  intros Hev Hrw. revert w outs. induction pieces as [|p pieces IH]; intros w outs Hh Hrun.
  - apply ret_Ok in Hrun as [Heq ->]. injection Heq as -> _. simpl.
    rewrite app_nil_r. replace (Z.to_nat _) with 0%nat by lia.
    rewrite take_0, drop_0. done.
  - simpl in Hrun.
    apply bindM_Ok in Hrun as ([o i1] & w1 & Hc & Hrun).
    apply bindM_Ok in Hrun as ([os i2] & w2 & Hs & Hrun).
    apply ret_Ok in Hrun as [Heq ->]. simpl in *. injection Heq as -> ->.
    apply (linear_streaming_eval _ _ _ _ _ _ _ _ Hev Hrw) in Hc
      as (-> & -> & Hsv & Hf & Hacc & _). simpl in *.
    set (q1 := map (Linear_rows (L_linear1 self) bsz) p) in *.
    set (sv := saved_steps w inc "saved_query") in *.
    set (n1 := Z.to_nat (Z.max 0 (Z.of_nat (length (sv ++ q1)) - L_right_window self))) in *.
    assert (n1 <= length (sv ++ q1))%nat as Hn1 by lia.
    apply IH in Hs as (Hos & Hsv' & _).
    2:{ rewrite Hsv, length_drop. lia. }
    rewrite Hsv in Hos, Hsv'.
    rewrite map_app. fold q1. rewrite app_assoc.
    set (rest := map (Linear_rows (L_linear1 self) bsz) (concat pieces)) in *.
    set (n2 := Z.to_nat (Z.max 0 (Z.of_nat (length (drop n1 (sv ++ q1) ++ rest))
                                  - L_right_window self))) in *.
    assert (Z.to_nat (Z.max 0 (Z.of_nat (length ((sv ++ q1) ++ rest)) - L_right_window self))
            = (n1 + n2)%nat) as ->.
    { subst n1 n2. rewrite !length_app, length_drop, length_app. lia. }
    unfold all_steps in *. simpl. rewrite Hos, <- map_app.
    rewrite take_app_drop by done. rewrite Hsv', drop_app_drop by done.
    split_and!; done.
Qed.

End LinearChunks.

(** ** Chunk invariance of the cell over the linear transform without
    look-ahead *)

Section CellChunks.

Context {R : Type} `{Scalar R} {Rng : Type} `{Dropper R Rng}.

Local Abbreviation tensor := (@Tensor R).
Local Abbreviation world := (@World R Rng).
Local Abbreviation cell := (@SRUppTransducerCell R Rng).

Lemma linear_session_eval (self : SRUppTransducerLinear) (xs : tensor)
    (pad : list (list R)) (pieces : list (list (list R))) (w w' : world) outs inc' :
  drop_training (L_dropout self) = false ->
  0 <= L_right_window self ->
  pieces <> [] ->
  concat pieces = t_steps xs ++ pad ->
  L_right_window self <= Z.of_nat (length pad) ->
  session (transform_call (TLinear self)) (chunk_calls (t_bsz xs) (t_feat xs) pieces) w
    = (Ok (outs, inc'), w') ->
  let full := mkTensor (t_bsz xs) (lin_out (L_linear2 self))
                (map (L_frame self (t_bsz xs)) (t_steps xs)) in
  (forall (w0 : world),
     SRUppTransducerLinear_forward self xs None None None w0 = (Ok (full, None), w0)) /\
  take (size0 xs) (all_steps outs) = t_steps full.
Proof.
  intros Hev Hrw Hne Hcat Hpad Hrun.
  apply session_stream in Hrun as (inc & w1 & Hn & Hrun).
  apply new_outer_fresh in Hn as (_ & _ & Hslot).
  assert (saved_steps w1 inc "saved_query" = []) as Hsv
    by (unfold saved_steps; by rewrite Hslot).
  apply (linear_stream_eval _ _ _ _ _ _ _ _ _ Hev Hrw) in Hrun as (Ho & _ & Hacc).
  2:{ rewrite Hsv. simpl. lia. }
  destruct (Hacc Hne) as [Hf Hta]. simpl. split.
  - intros w0. by apply linear_full_total.
  - rewrite Ho, Hsv, Hcat. simpl. rewrite map_app, length_app, !length_map.
    rewrite firstn_map, take_take.
    unfold size0.
    replace (length (t_steps xs) `min` _)%nat with (length (t_steps xs)) by lia.
    rewrite take_app_length'; [|by rewrite length_map].
    unfold L_frame. by rewrite map_map.
Qed.

Lemma recurrence_no_pad
    (step : option (list bool) -> list R -> list R -> Tensor2 R -> list R * Tensor2 R)
    (t : nat) (us xs : list (list R)) (c : Tensor2 R) :
  recurrence step (fun _ => None) t us xs c = recurrence step (fun _ => None) 0%nat us xs c.
Proof.
  revert t xs c. induction us as [|u us IH]; intros t xs c; simpl; [done|].
  destruct xs as [|x xs]; [done|].
  destruct (step None u x c) as [h c1]. by rewrite (IH (S t)), (IH 1%nat).
Qed.

Lemma recurrence_app
    (step : option (list bool) -> list R -> list R -> Tensor2 R -> list R * Tensor2 R)
    (f : list R -> list R) (xs1 xs2 : list (list R)) (c : Tensor2 R) :
  recurrence step (fun _ => None) 0%nat (map f (xs1 ++ xs2)) (xs1 ++ xs2) c
  = let '(h1, c1) := recurrence step (fun _ => None) 0%nat (map f xs1) xs1 c in
    let '(h2, c2) := recurrence step (fun _ => None) 0%nat (map f xs2) xs2 c1 in
    (h1 ++ h2, c2).
Proof.
  revert c. induction xs1 as [|x xs1 IH]; intros c; simpl.
  - by destruct (recurrence _ _ _ _ _ _).
  - destruct (step None (f x) x c) as [h c1].
    rewrite !(recurrence_no_pad _ 1%nat). rewrite IH.
    destruct (recurrence _ _ _ (map f xs1) _ _) as [h1 c2].
    by destruct (recurrence _ _ _ (map f xs2) _ _).
Qed.

Lemma cell_frames_app (self : cell) (m : SRUppTransducerLinear)
    (bsz : nat) (xs1 xs2 : list (list R)) (c : Tensor2 R) :
  cell_frames self m bsz (xs1 ++ xs2) c
  = let '(h1, c1) := cell_frames self m bsz xs1 c in
    let '(h2, c2) := cell_frames self m bsz xs2 c1 in
    (h1 ++ h2, c2).
Proof.
  unfold cell_frames. rewrite length_app.
  set (d := lin_out (L_linear2 m)).
  assert (forall n, (n * bsz * d = 0)%nat <-> (n = 0 \/ bsz * d = 0)%nat) as Hz by nia.
  destruct (decide (bsz * d = 0)%nat) as [Hbd|Hbd].
  - rewrite !decide_True by (apply Hz; by right). done.
  - destruct xs1 as [|x1 xs1].
    { simpl. destruct (decide _); [done|]. by destruct (recurrence _ _ _ _ _ _). }
    destruct xs2 as [|x2 xs2].
    { rewrite app_nil_r. simpl length. rewrite Nat.add_0_r.
      destruct (decide _) as [Hd|Hd]; [apply Hz in Hd; lia|].
      destruct (recurrence _ _ _ _ _ _) as [h1 c1]. simpl.
      by rewrite app_nil_r. }
    rewrite !decide_False by (rewrite Hz; simpl; lia).
    rewrite recurrence_app.
    destruct (recurrence _ _ _ (map _ (x1 :: xs1)) _ _) as [h1 c1].
    by rewrite decide_False by (rewrite Hz; simpl; lia).
Qed.

(** One call of the cell over the linear transform with
    [right_window = 0], outside training: streaming with no saved query
    held, or not streaming. *)
Lemma cell_forward_frames (self : cell) (m : SRUppTransducerLinear)
    (chunk : tensor) (c0 : option (Tensor2 R)) (inc : option loc) (w w' : world) h c inc' :
  C_transform_module self = TLinear m ->
  C_training self = false -> drop_training (L_dropout m) = false ->
  L_right_window m = 0 ->
  match inc with
  | Some i => saved_steps w i "saved_query" = []
  | None => True
  end ->
  SRUppTransducerCell_forward self chunk c0 None None inc w = (Ok (h, c, inc'), w') ->
  inc' = inc /\
  (t_steps h, c) = cell_frames self m (t_bsz chunk) (t_steps chunk)
                     (from_option id (zeros2 (t_bsz chunk) (C_output_size self)) c0) /\
  match inc with
  | Some i => saved_steps w' i "saved_query" = []
  | None => True
  end /\
  t_feat chunk = lin_in (L_linear1 m) /\ L_tail_accepts m (lin_out (L_linear1 m)).
Proof.
  intros Ht Htr Hev Hrw Hsv Hrun. unfold SRUppTransducerCell_forward in Hrun.
  destruct (cell_dropout_mask_run self (t_bsz chunk) w) as (mc & w0 & Hm & _ & Hmc).
  destruct (Hmc Htr) as [-> ->].
  rewrite (bindM_step _ _ _ _ _ Hm) in Hrun.
  apply bindM_Ok in Hrun as ([U i1] & w1 & Hu & Hrun). rewrite Ht in Hu.
  assert (i1 = inc /\
          U = mkTensor (t_bsz chunk) (lin_out (L_linear2 m))
                (map (L_frame m (t_bsz chunk)) (t_steps chunk)) /\
          match inc with
          | Some i => saved_steps w1 i "saved_query" = []
          | None => True
          end /\
          t_feat chunk = lin_in (L_linear1 m) /\ L_tail_accepts m (lin_out (L_linear1 m)) /\
          w_log w1 = w_log w)
    as (-> & -> & Hsv1 & Hf & Hacc & Hlog).
  { destruct inc as [i|].
    - pose proof Hu as Hu'.
      apply (linear_streaming_eval _ _ _ _ _ _ _ _ Hev ltac:(lia)) in Hu
        as (-> & Ho & Hs & Hf & Hacc & _ & Hl).
      rewrite Hsv, Hrw in Ho, Hs. simpl in Ho, Hs.
      rewrite Z.sub_0_r, Z.max_r, Nat2Z.id in Ho, Hs by lia.
      rewrite take_ge in Ho by done. rewrite drop_ge in Hs by done.
      split_and!; try done. rewrite Ho. unfold L_frame. by rewrite map_map.
    - simpl in Hu.
      apply (linear_full_eval _ _ _ _ _ _ _ _ Hev) in Hu as (-> & -> & -> & Hf & Hacc).
      done. }
  unfold cell_frames. unfold numel, size0 in Hrun. simpl in Hrun.
  rewrite length_map in Hrun.
  destruct (decide _) as [Hz|Hnz].
  - apply ret_Ok in Hrun as [Heq ->]. injection Heq as E1 E2 E3. subst h c inc'.
    split_and!; try done.
  - apply bindM_Ok in Hrun as ([h1 c1] & w2 & Har & Hrun).
    apply ret_Ok in Hrun as [Heq ->]. simpl in Heq. injection Heq as E1 E2 E3.
    subst h c inc'.
    unfold apply_recurrence in Har. simpl in Har.
    destruct (recurrence _ _ _ _ _ _) as [hs c2] eqn:Erec.
    injection Har as E1 E2 E3. subst h1 c1 w2. simpl. rewrite <- Erec.
    split_and!; done.
Qed.

(** The non-streaming call of the cell returns. *)
Lemma cell_forward_total (self : cell) (m : SRUppTransducerLinear)
    (xs : tensor) (c0 : option (Tensor2 R)) (w : world) :
  C_transform_module self = TLinear m ->
  C_training self = false -> drop_training (L_dropout m) = false ->
  t_feat xs = lin_in (L_linear1 m) -> L_tail_accepts m (lin_out (L_linear1 m)) ->
  exists h c w',
    SRUppTransducerCell_forward self xs c0 None None None w = (Ok (h, c, None), w').
Proof.
  intros Ht Htr Hev Hf Hacc. unfold SRUppTransducerCell_forward.
  destruct (cell_dropout_mask_run self (t_bsz xs) w) as (mc & w0 & Hm & _ & Hmc).
  destruct (Hmc Htr) as [-> ->].
  rewrite (bindM_step _ _ _ _ _ Hm). rewrite Ht. simpl.
  erewrite bindM_step; [|by apply linear_full_total].
  cbv beta iota.
  destruct (decide _); [by eexists _, _, _|].
  unfold bindM, apply_recurrence. simpl.
  destruct (recurrence _ _ _ _ _ _). by eexists _, _, _.
Qed.

(** A run of streaming calls of the cell over the linear transform with
    [right_window = 0]: the hidden frames and the carry are those of one
    pass over the concatenated chunks. *)
Lemma cell_stream_frames (self : cell) (m : SRUppTransducerLinear) (bsz feat : nat)
    (pieces : list (list (list R))) (c0 : option (Tensor2 R)) (inc : option loc)
    (w w' : world) hs c inc' :
  C_transform_module self = TLinear m ->
  C_training self = false -> drop_training (L_dropout m) = false ->
  L_right_window m = 0 ->
  match inc with
  | Some i => saved_steps w i "saved_query" = []
  | None => True
  end ->
  stream_cell self (chunk_tensors bsz feat pieces) c0 inc w = (Ok (hs, c, inc'), w') ->
  (all_steps hs, from_option id (zeros2 bsz (C_output_size self)) c)
  = cell_frames self m bsz (concat pieces)
      (from_option id (zeros2 bsz (C_output_size self)) c0) /\
  (is_Some c0 \/ pieces <> [] -> is_Some c) /\
  (pieces <> [] -> feat = lin_in (L_linear1 m) /\ L_tail_accepts m (lin_out (L_linear1 m))).
Proof.
  intros Ht Htr Hev Hrw. revert c0 inc w hs c inc'.
  induction pieces as [|p pieces IH]; intros c0 inc w hs c inc' Hsv Hrun; simpl in Hrun.
  - apply ret_Ok in Hrun as [Heq ->]. injection Heq as E1 E2 E3. subst hs c inc'.
    split_and!; [|by intros [?|?]|done].
    unfold cell_frames. by simpl.
  - apply bindM_Ok in Hrun as ([[h c1] inc1] & w1 & Hcall & Hrun).
    apply bindM_Ok in Hrun as ([[hs' c2] inc2] & w2 & Hrest & Hrun).
    apply ret_Ok in Hrun as [Heq ->]. injection Heq as E1 E2 E3. subst hs c inc'.
    apply (cell_forward_frames _ _ _ _ _ _ _ _ _ _ Ht Htr Hev Hrw Hsv) in Hcall
      as (-> & Hfr & Hsv1 & Hf & Hacc).
    apply IH in Hrest as (Hrest & Hsome & _); [|done]. simpl in Hfr, Hf.
    split_and!.
    + change (concat (p :: pieces)) with (p ++ concat pieces).
      rewrite cell_frames_app, <- Hfr. simpl in Hrest. rewrite <- Hrest.
      done.
    + intros _. apply Hsome. by left.
    + done.
Qed.

(** *** The streaming calls return *)

Lemma take_saved_queries_total (rw : Z) (q : tensor) (inc : loc) (w : world) :
  saved_query_fits w inc (t_bsz q) (t_feat q) ->
  exists s cur w1, take_saved_queries rw q inc w = (Ok (s, cur), w1).
Proof.
  unfold saved_query_fits. intros Hfit. unfold take_saved_queries.
  destruct (fetch_attn_state_total inc w) as (s & w0 & Hf).
  pose proof Hf as Hf'. apply fetch_attn_state_Ok in Hf' as (Hd & _).
  rewrite slot_state_dict, <- Hd in Hfit.
  erewrite bindM_step; [|exact Hf].
  erewrite bindM_step; [|done].
  destruct (inner_dict w0 s !! "saved_query") as [[t|]|]; [|done|].
  - destruct Hfit as [Hb Hft].
    erewrite bindM_step; [|unfold lift, cat0; by rewrite decide_True by done].
    by eexists _, _, _.
  - erewrite bindM_step; [|done]. by eexists _, _, _.
Qed.

Lemma linear_streaming_total (self : SRUppTransducerLinear) (chunk : tensor)
    attn_mask (inc : loc) (w : world) :
  drop_training (L_dropout self) = false ->
  0 <= L_right_window self ->
  t_feat chunk = lin_in (L_linear1 self) ->
  L_tail_accepts self (lin_out (L_linear1 self)) ->
  saved_query_fits w inc (t_bsz chunk) (lin_out (L_linear1 self)) ->
  exists out w',
    transform_call (TLinear self) chunk attn_mask (Some inc) w = (Ok (out, Some inc), w') /\
    saved_query_fits w' inc (t_bsz chunk) (lin_out (L_linear1 self)).
Proof.
  intros Hev Hrw Hf Hacc Hfit.
  set (q := mkTensor (t_bsz chunk) (lin_out (L_linear1 self))
              (map (Linear_rows (L_linear1 self) (t_bsz chunk)) (t_steps chunk))).
  destruct (take_saved_queries_total (L_right_window self) q inc w Hfit)
    as (s & cur & w1 & Htk).
  pose proof Htk as Htk'.
  apply take_saved_queries_Ok in Htk' as (_ & _ & _ & _ & _ & _ & _ & Hc).
  pose proof (cursor_spec_sizes _ _ _ _ _ Hc) as (_ & _ & Hbr & Hfr & Hbn & Hfn & _).
  assert (exists out lc w',
            SRUppTransducerLinear_locals self chunk None attn_mask (Some inc) w
            = (Ok (out, Some inc, lc), w')) as (out & lc & w' & Hrun).
  { unfold SRUppTransducerLinear_locals.
    erewrite bindM_step; [|unfold lift; by rewrite (Linear_forward_shape _ _ Hf)].
    fold q.
    erewrite bindM_step.
    2:{ erewrite bindM_step; [|done].
        erewrite bindM_step; [|exact Htk].
        erewrite bindM_step; [|unfold dict_set; done].
        erewrite bindM_step; [|unfold outer_set; done].
        done. }
    simpl.
    erewrite bindM_step; [|apply linear_tail_total; [done|by rewrite Hfr]].
    by eexists _, _, _. }
  exists out, w'. split.
  - unfold transform_call, transform_module_forward, SRUppTransducerLinear_forward.
    by erewrite bindM_step; [|exact Hrun].
  - apply linear_streaming_call in Hrun
      as (q' & cur' & _ & _ & _ & Hq' & _ & Hc' & Hw & _).
    rewrite (Linear_forward_shape _ _ Hf) in Hq'. injection Hq' as <-. fold q in Hc'.
    pose proof (cursor_spec_sizes _ _ _ _ _ Hc') as (_ & _ & _ & _ & Hbn' & Hfn' & _).
    unfold saved_query_fits. rewrite (state_written_slot _ _ _ _ _ Hw).
    by rewrite lookup_insert_eq.
Qed.

Lemma linear_stream_total (self : SRUppTransducerLinear) (bsz feat : nat)
    (pieces : list (list (list R))) (inc : loc) (w : world) :
  drop_training (L_dropout self) = false ->
  0 <= L_right_window self ->
  feat = lin_in (L_linear1 self) ->
  L_tail_accepts self (lin_out (L_linear1 self)) ->
  saved_query_fits w inc bsz (lin_out (L_linear1 self)) ->
  exists outs w',
    stream (transform_call (TLinear self)) (chunk_calls bsz feat pieces) (Some inc) w
    = (Ok (outs, Some inc), w').
Proof.
  intros Hev Hrw Hf Hacc. revert w.
  induction pieces as [|p pieces IH]; intros w Hfit; simpl.
  - by eexists _, _.
  - destruct (linear_streaming_total self (mkTensor bsz feat p) None inc w Hev Hrw Hf Hacc Hfit)
      as (out & w1 & Hcall & Hfit1).
    destruct (IH w1 Hfit1) as (outs & w2 & Hrest).
    erewrite bindM_step; [|exact Hcall]. simpl.
    erewrite bindM_step; [|exact Hrest]. by eexists _, _.
Qed.

Lemma cell_streaming_total (self : cell) (m : SRUppTransducerLinear)
    (chunk : tensor) (c0 : option (Tensor2 R)) (inc : loc) (w : world) :
  C_transform_module self = TLinear m ->
  C_training self = false -> drop_training (L_dropout m) = false ->
  0 <= L_right_window m ->
  t_feat chunk = lin_in (L_linear1 m) ->
  L_tail_accepts m (lin_out (L_linear1 m)) ->
  saved_query_fits w inc (t_bsz chunk) (lin_out (L_linear1 m)) ->
  exists h c w',
    SRUppTransducerCell_forward self chunk c0 None None (Some inc) w
    = (Ok (h, c, Some inc), w') /\
    saved_query_fits w' inc (t_bsz chunk) (lin_out (L_linear1 m)).
Proof.
  intros Ht Htr Hev Hrw Hf Hacc Hfit. unfold SRUppTransducerCell_forward.
  destruct (cell_dropout_mask_run self (t_bsz chunk) w) as (mc & w0 & Hm & _ & Hmc).
  destruct (Hmc Htr) as [-> ->].
  rewrite (bindM_step _ _ _ _ _ Hm). rewrite Ht.
  destruct (linear_streaming_total m chunk None inc w Hev Hrw Hf Hacc Hfit)
    as (U & w1 & Hcall & Hfit1).
  unfold transform_call in Hcall.
  erewrite bindM_step; [|exact Hcall]. cbv beta iota.
  destruct (decide _); [by eexists _, _, _|].
  unfold bindM, apply_recurrence. simpl.
  destruct (recurrence _ _ _ _ _ _). by eexists _, _, _.
Qed.

Lemma cell_stream_total (self : cell) (m : SRUppTransducerLinear) (bsz feat : nat)
    (pieces : list (list (list R))) (c0 : option (Tensor2 R)) (inc : loc) (w : world) :
  C_transform_module self = TLinear m ->
  C_training self = false -> drop_training (L_dropout m) = false ->
  0 <= L_right_window m ->
  feat = lin_in (L_linear1 m) ->
  L_tail_accepts m (lin_out (L_linear1 m)) ->
  saved_query_fits w inc bsz (lin_out (L_linear1 m)) ->
  exists hs c w',
    stream_cell self (chunk_tensors bsz feat pieces) c0 (Some inc) w
    = (Ok (hs, c, Some inc), w').
Proof.
  intros Ht Htr Hev Hrw Hf Hacc. revert c0 w.
  induction pieces as [|p pieces IH]; intros c0 w Hfit; simpl.
  - by eexists _, _, _.
  - destruct (cell_streaming_total self m (mkTensor bsz feat p) c0 inc w
                Ht Htr Hev Hrw Hf Hacc Hfit) as (h & c1 & w1 & Hcall & Hfit1).
    destruct (IH (Some c1) w1 Hfit1) as (hs & c2 & w2 & Hrest).
    erewrite bindM_step; [|exact Hcall]. simpl.
    erewrite bindM_step; [|exact Hrest]. by eexists _, _, _.
Qed.

Lemma new_outer_fits (w : world) (bsz feat : nat) :
  exists inc w0, new_outer w = (Ok inc, w0) /\ saved_query_fits w0 inc bsz feat.
Proof.
  eexists _, _. split; [done|].
  unfold saved_query_fits.
  by rewrite (proj2 (proj2 (new_outer_fresh w _ _ eq_refl))).
Qed.

End CellChunks.
(** ** C1: chunk invariance *)

Section ChunkInvariance.

Context {R : Type} `{Scalar R} {Rng : Type} `{Dropper R Rng}.

Local Abbreviation tensor := (@Tensor R).
Local Abbreviation world := (@World R Rng).
Local Abbreviation cell := (@SRUppTransducerCell R Rng).

Lemma recurrence_length
    (step : option (list bool) -> list R -> list R -> Tensor2 R -> list R * Tensor2 R)
    (pads : nat -> option (list bool)) (f : list R -> list R) (t : nat)
    (xs : list (list R)) (c : Tensor2 R) :
  length (recurrence step pads t (map f xs) xs c).1 = length xs.
Proof.
  revert t c. induction xs as [|x xs IH]; intros t c; simpl; [done|].
  destruct (step (pads t) (f x) x c) as [h c1].
  specialize (IH (S t) c1). destruct (recurrence _ _ _ _ _ _). simpl in *. by rewrite IH.
Qed.

(** A streaming session of the cell over the linear transform with
    [right_window = 0], against the non-streaming call. *)
Lemma cell_session_frames (self : cell) (m : SRUppTransducerLinear) (xs : tensor)
    (pad : list (list R)) (pieces : list (list (list R))) (w w' w0 : world) hs c inc' :
  C_transform_module self = TLinear m ->
  C_training self = false -> drop_training (L_dropout m) = false ->
  L_right_window m = 0 ->
  pieces <> [] ->
  concat pieces = t_steps xs ++ pad ->
  session_cell self (chunk_tensors (t_bsz xs) (t_feat xs) pieces) w = (Ok (hs, c, inc'), w') ->
  exists h cfull w0',
    SRUppTransducerCell_forward self xs None None None None w0 = (Ok (h, cfull, None), w0') /\
    t_steps h `prefix_of` all_steps hs /\
    ((t_bsz xs * lin_out (L_linear2 m))%nat <> 0%nat -> size0 h = size0 xs) /\
    (pad = [] -> all_steps hs = t_steps h /\ c = Some cfull).
Proof.
  intros Ht Htr Hev Hrw Hne Hcat Hrun. unfold session_cell in Hrun.
  apply bindM_Ok in Hrun as (inc & w1 & Hn & Hrun).
  apply new_outer_fresh in Hn as (_ & _ & Hslot).
  assert (saved_steps w1 inc "saved_query" = []) as Hsv
    by (unfold saved_steps; by rewrite Hslot).
  apply (cell_stream_frames _ _ _ _ _ _ (Some inc) _ _ _ _ _ Ht Htr Hev Hrw Hsv) in Hrun
    as (Hfr & Hsome & Hacc).
  destruct (Hacc Hne) as [Hf Hta]. destruct (Hsome (or_intror Hne)) as [c2 ->].
  destruct (cell_forward_total self m xs None w0 Ht Htr Hev Hf Hta) as (h & cfull & w0' & Hfull).
  exists h, cfull, w0'. split; [done|].
  apply (cell_forward_frames _ _ _ _ None _ _ _ _ _ Ht Htr Hev Hrw I) in Hfull
    as (_ & Hh & _).
  simpl in Hfr, Hh. rewrite Hcat, cell_frames_app, <- Hh in Hfr.
  destruct (cell_frames self m (t_bsz xs) pad cfull) as [h2 c3] eqn:Epad.
  injection Hfr as Hhs Hc. split_and!.
  - rewrite Hhs. by apply prefix_app_r.
  - intros Hnz. unfold cell_frames in Hh. unfold size0.
    destruct (decide _) as [Hz|Hz] in Hh.
    + injection Hh as -> _. simpl. nia.
    + apply (f_equal (fun p => length p.1)) in Hh. simpl in Hh.
      by rewrite recurrence_length in Hh.
  - intros ->. unfold cell_frames in Epad. simpl in Epad. injection Epad as <- <-.
    by rewrite Hhs, app_nil_r, Hc.
Qed.

(** The sessions return whenever the chunks have the input size of
    the first projection and the later modules accept its output. *)
Lemma linear_session_total (self : SRUppTransducerLinear) (bsz feat : nat)
    (pieces : list (list (list R))) (w : world) :
  drop_training (L_dropout self) = false ->
  0 <= L_right_window self ->
  feat = lin_in (L_linear1 self) ->
  L_tail_accepts self (lin_out (L_linear1 self)) ->
  exists outs inc w',
    session (transform_call (TLinear self)) (chunk_calls bsz feat pieces) w
    = (Ok (outs, Some inc), w').
Proof.
  intros Hev Hrw Hf Hacc. unfold session.
  destruct (new_outer_fits w bsz (lin_out (L_linear1 self))) as (inc & w0 & Hn & Hfit).
  destruct (linear_stream_total self bsz feat pieces inc w0 Hev Hrw Hf Hacc Hfit)
    as (outs & w' & Hrun).
  exists outs, inc, w'. by erewrite bindM_step; [|exact Hn].
Qed.

Lemma cell_session_total (self : cell) (m : SRUppTransducerLinear) (bsz feat : nat)
    (pieces : list (list (list R))) (w : world) :
  C_transform_module self = TLinear m ->
  C_training self = false -> drop_training (L_dropout m) = false ->
  0 <= L_right_window m ->
  feat = lin_in (L_linear1 m) ->
  L_tail_accepts m (lin_out (L_linear1 m)) ->
  exists hs c inc w',
    session_cell self (chunk_tensors bsz feat pieces) w = (Ok (hs, c, Some inc), w').
Proof.
  intros Ht Htr Hev Hrw Hf Hacc. unfold session_cell.
  destruct (new_outer_fits w bsz (lin_out (L_linear1 m))) as (inc & w0 & Hn & Hfit).
  destruct (cell_stream_total self m bsz feat pieces None inc w0 Ht Htr Hev Hrw Hf Hacc Hfit)
    as (hs & c & w' & Hrun).
  exists hs, c, inc, w'. by erewrite bindM_step; [|exact Hn].
Qed.

(** C1 (amended): for a cell whose transform is the linear variant,
    outside training mode, for every input sequence and every partition
    of it (with at least [right_window] extra trailing timesteps) into
    the consecutive chunks of a streaming session that starts from a
    fresh incremental state. The session of the transform returns
    whenever its non-streaming call does, and the other way round, and
    its outputs over the original timesteps are those of the
    non-streaming call. When [right_window = 0], the session of the
    cell, with the carry threaded between the calls, returns whenever
    the non-streaming call of the cell does, and the other way round;
    its hidden states start with the hidden states of the non-streaming
    call, and are those and end in its carry when no extra timestep is
    fed. *)
Theorem C1_chunk_invariance (self : cell) (m : SRUppTransducerLinear) (xs : tensor)
    (pad : list (list R)) (pieces : list (list (list R))) :
  C_transform_module self = TLinear m ->
  C_training self = false -> drop_training (L_dropout m) = false ->
  0 <= L_right_window m ->
  pieces <> [] ->
  concat pieces = t_steps xs ++ pad ->
  L_right_window m <= Z.of_nat (length pad) ->
  (forall (w0 w0' w : world) full inc0,
     SRUppTransducerLinear_forward m xs None None None w0 = (Ok (full, inc0), w0') ->
     exists outs inc w',
       session (transform_call (TLinear m)) (chunk_calls (t_bsz xs) (t_feat xs) pieces) w
         = (Ok (outs, Some inc), w') /\
       take (size0 xs) (all_steps outs) = t_steps full) /\
  (forall (w w' : world) outs inc',
     session (transform_call (TLinear m)) (chunk_calls (t_bsz xs) (t_feat xs) pieces) w
       = (Ok (outs, inc'), w') ->
     exists full,
       (forall w0 : world,
          SRUppTransducerLinear_forward m xs None None None w0 = (Ok (full, None), w0)) /\
       take (size0 xs) (all_steps outs) = t_steps full) /\
  (L_right_window m = 0 ->
   (forall (w0 w0' w : world) h cfull inc0,
      SRUppTransducerCell_forward self xs None None None None w0
        = (Ok (h, cfull, inc0), w0') ->
      exists hs c inc w',
        session_cell self (chunk_tensors (t_bsz xs) (t_feat xs) pieces) w
          = (Ok (hs, c, Some inc), w') /\
        t_steps h `prefix_of` all_steps hs /\
        (pad = [] -> all_steps hs = t_steps h /\ c = Some cfull)) /\
   (forall (w w' w0 : world) hs c inc',
      session_cell self (chunk_tensors (t_bsz xs) (t_feat xs) pieces) w
        = (Ok (hs, c, inc'), w') ->
      exists h cfull w0',
        SRUppTransducerCell_forward self xs None None None None w0
          = (Ok (h, cfull, None), w0') /\
        t_steps h `prefix_of` all_steps hs /\
        ((t_bsz xs * lin_out (L_linear2 m))%nat <> 0%nat -> size0 h = size0 xs) /\
        (pad = [] -> all_steps hs = t_steps h /\ c = Some cfull))).
Proof.
  intros Ht Htr Hev Hrw Hne Hcat Hpad. split_and!.
  - intros w0 w0' w full inc0 Hfull.
    apply (linear_full_eval _ _ _ _ _ _ _ _ Hev) in Hfull as (_ & _ & -> & Hf & Hacc).
    destruct (linear_session_total m (t_bsz xs) (t_feat xs) pieces w Hev Hrw Hf Hacc)
      as (outs & inc & w' & Hrun).
    exists outs, inc, w'. split; [done|].
    by destruct (linear_session_eval _ _ _ _ _ _ _ _ Hev Hrw Hne Hcat Hpad Hrun) as [_ Htake].
  - intros w w' outs inc' Hrun.
    destruct (linear_session_eval _ _ _ _ _ _ _ _ Hev Hrw Hne Hcat Hpad Hrun) as [Hfull Htake].
    eexists. split; [exact Hfull|exact Htake].
  - intros Hz. split.
    + intros w0 w0' w h cfull inc0 Hfull.
      pose proof Hfull as Hfull'.
      apply (cell_forward_frames _ _ _ _ None _ _ _ _ _ Ht Htr Hev Hz I) in Hfull'
        as (-> & _ & _ & Hf & Hacc).
      destruct (cell_session_total self m (t_bsz xs) (t_feat xs) pieces w
                  Ht Htr Hev Hrw Hf Hacc) as (hs & c & inc & w' & Hrun).
      exists hs, c, inc, w'. split; [done|].
      destruct (cell_session_frames self m xs pad pieces w w' w0 hs c (Some inc)
                  Ht Htr Hev Hz Hne Hcat Hrun) as (h' & c' & w1 & Hfull1 & Hpre & _ & Hsame).
      rewrite Hfull in Hfull1. injection Hfull1 as <- <- _. done.
    + intros w w' w0 hs c inc' Hrun. by eapply cell_session_frames.
Qed.

End ChunkInvariance.
(** ** C9: the cached slots a streaming call of the attention reads *)

Section Slots.

Context {R : Type} `{Scalar R} {Rng : Type} `{Dropper R Rng}.

Local Abbreviation tensor := (@Tensor R).
Local Abbreviation world := (@World R Rng).

Lemma slot_Some (w : world) (inc : loc) (key : string) (v : option tensor) :
  slot w inc key = Some v ->
  exists s, outer_dict w inc !! "attn_state" = Some s /\ inner_dict w s !! key = Some v.
Proof.
  unfold slot, attn_state_of. intros Hs.
  destruct (outer_dict w inc !! "attn_state") as [s|] eqn:E; [|done]. eauto.
Qed.

Lemma take_saved_queries_None (rw : Z) (q : tensor) (inc : loc) (w : world) :
  slot w inc "saved_query" = Some None ->
  take_saved_queries rw q inc w = (Raise AssertionError, w).
Proof.
  intros (s & Ho & Hi)%slot_Some. unfold take_saved_queries.
  erewrite bindM_step; [|unfold fetch_attn_state; by rewrite Ho].
  erewrite bindM_step; [|unfold dict_get; by rewrite Hi].
  by apply bindM_raise.
Qed.

Lemma take_saved_queries_absent (rw : Z) (q : tensor) (inc : loc) (w : world) :
  slot w inc "saved_query" = None ->
  exists s cur w1,
    take_saved_queries rw q inc w = (Ok (s, cur), w1) /\ all_query cur = q.
Proof.
  intros Hs. unfold take_saved_queries.
  destruct (fetch_attn_state_total inc w) as (s & w0 & Hf).
  pose proof Hf as Hf'. apply fetch_attn_state_Ok in Hf' as (Hd & _).
  rewrite slot_state_dict, <- Hd in Hs.
  erewrite bindM_step; [|exact Hf].
  erewrite bindM_step; [|unfold dict_get; by rewrite Hs].
  erewrite bindM_step; [|done]. by eexists _, _, _.
Qed.

Lemma update_saved_key_None (state inc : loc) (cur : Cursor) (k v : tensor) (w : world) :
  inner_dict w state !! "saved_key" = Some None ->
  update_saved state inc cur k v w = (Raise AssertionError, w).
Proof.
  intros Hk. unfold update_saved.
  erewrite bindM_step; [|unfold dict_get; by rewrite Hk].
  by apply bindM_raise.
Qed.

Lemma update_saved_value_None (state inc : loc) (cur : Cursor) (k v : tensor) (w : world) :
  inner_dict w state !! "saved_key" = None ->
  inner_dict w state !! "saved_value" = Some None ->
  update_saved state inc cur k v w = (Raise AssertionError, w).
Proof.
  intros Hk Hv. unfold update_saved.
  erewrite bindM_step; [|unfold dict_get; by rewrite Hk].
  erewrite bindM_step; [|done].
  erewrite bindM_step; [|unfold dict_get; by rewrite Hv].
  by apply bindM_raise.
Qed.

Lemma update_saved_absent (state inc : loc) (cur : Cursor) (k v : tensor) (w : world) :
  inner_dict w state !! "saved_key" = None ->
  inner_dict w state !! "saved_value" = None ->
  size0 v = size0 k ->
  exists w1, update_saved state inc cur k v w = (Ok (k, v), w1).
Proof.
  intros Hk Hv Hsz. unfold update_saved.
  erewrite bindM_step; [|unfold dict_get; by rewrite Hk].
  erewrite bindM_step; [|done].
  erewrite bindM_step; [|unfold dict_get; by rewrite Hv].
  erewrite bindM_step; [|done].
  erewrite bindM_step; [|by rewrite bool_decide_eq_true_2 by done].
  by eexists.
Qed.

(** The first projection succeeding, a streaming call that finds [None]
    under ["saved_query"] fails its assertion with the store as it was. *)
Lemma attention_forward_query_None (self : SRUppTransducerAttention) (input q : tensor)
    attn_mask (inc : loc) (w : world) :
  A_num_heads self <> 0 -> A_proj_features self / A_num_heads self <> 0 ->
  Linear_forward (A_linear1 self) input = Ok q ->
  slot w inc "saved_query" = Some None ->
  SRUppTransducerAttention_forward self input None attn_mask (Some inc) w
  = (Raise AssertionError, w).
Proof.
  intros Hh Hd Hq Hs.
  unfold SRUppTransducerAttention_forward, SRUppTransducerAttention_locals.
  apply bindM_raise, bindM_raise. unfold attention_inputs.
  apply Z.eqb_neq in Hh, Hd. rewrite Hh.
  erewrite bindM_step; [|done]. rewrite Hd.
  erewrite bindM_step; [|done].
  erewrite bindM_step; [|unfold lift; by rewrite Hq].
  apply bindM_raise. simpl.
  erewrite bindM_step; [|done].
  apply bindM_raise. by apply take_saved_queries_None.
Qed.

(** C9 (amended): the streaming call of the attention transform reads a
    cached slot only when its key is in the state, and an absent slot is
    an empty history: without ["saved_query"] the queue of queries is
    the new queries, and without ["saved_key"] and ["saved_value"] the
    keys and values are the new ones and the update succeeds. What fails
    fast, with an assertion error and the store as it was, is a slot
    that is present and holds [None], where it is read. So a streaming
    call that returns found [None] under none of the three keys, and
    found key and value histories of the same length. *)
Theorem C9_slot_contract (self : SRUppTransducerAttention) :
  (forall rw (q : tensor) inc (w : world),
     slot w inc "saved_query" = None ->
     exists s cur w1,
       take_saved_queries rw q inc w = (Ok (s, cur), w1) /\ all_query cur = q) /\
  (forall state inc cur (k v : tensor) (w : world),
     inner_dict w state !! "saved_key" = None ->
     inner_dict w state !! "saved_value" = None ->
     size0 v = size0 k ->
     exists w1, update_saved state inc cur k v w = (Ok (k, v), w1)) /\
  (forall rw (q : tensor) inc (w : world),
     slot w inc "saved_query" = Some None ->
     take_saved_queries rw q inc w = (Raise AssertionError, w)) /\
  (forall state inc cur (k v : tensor) (w : world),
     inner_dict w state !! "saved_key" = Some None ->
     update_saved state inc cur k v w = (Raise AssertionError, w)) /\
  (forall state inc cur (k v : tensor) (w : world),
     inner_dict w state !! "saved_key" = None ->
     inner_dict w state !! "saved_value" = Some None ->
     update_saved state inc cur k v w = (Raise AssertionError, w)) /\
  (forall (input q : tensor) attn_mask inc (w : world),
     A_num_heads self <> 0 -> A_proj_features self / A_num_heads self <> 0 ->
     Linear_forward (A_linear1 self) input = Ok q ->
     slot w inc "saved_query" = Some None ->
     SRUppTransducerAttention_forward self input None attn_mask (Some inc) w
     = (Raise AssertionError, w)) /\
  (forall (input : tensor) mask_pad attn_mask inc (w w' : world) out inc',
     SRUppTransducerAttention_forward self input mask_pad attn_mask (Some inc) w
     = (Ok (out, inc'), w') ->
     slot w inc "saved_query" <> Some None /\
     slot w inc "saved_key" <> Some None /\
     slot w inc "saved_value" <> Some None /\
     length (saved_steps w inc "saved_key") = length (saved_steps w inc "saved_value")).
Proof.
  split_and!.
  - apply take_saved_queries_absent.
  - apply update_saved_absent.
  - apply take_saved_queries_None.
  - apply update_saved_key_None.
  - apply update_saved_value_None.
  - apply attention_forward_query_None.
  - intros input mask_pad attn_mask inc w w' out inc' Hrun.
    apply attention_forward_locals in Hrun as [L Hrun].
    apply attention_streaming_call in Hrun
      as (q & cur & k & v & kn & vn & _ & _ & _ & _ & Hn1 & Hn2 & Hn3 & _ & _ & _
          & Hkn & Hvn & Hk & Hv & Hsz & _).
    split_and!; try done.
    unfold size0 in *. apply (f_equal length) in Hk, Hv.
    rewrite length_app in Hk, Hv. lia.
Qed.

End Slots.
(** ** Concrete runs *)

(** C1, refuted as stated: the cell around the attention transform with
    [right_window = 0], outside training. On the sequence 1, 3, 5, 7 the
    non-streaming call and the streaming session over the chunks [1]
    and [3, 5, 7] return; the outputs of the transform differ, and the
    cell differs in every hidden state and in the final carry: the
    streaming call attends only to the keys that have arrived. *)
Lemma C1_counterexample :
  let t := xq_attention 0 in
  let self := xq_cell (TAttention t) in
  (exists U w1 outs inc w2,
     SRUppTransducerAttention_forward t (xq_seq [1; 3; 5; 7]) None None None xq_world
       = (Ok (U, None), w1) /\
     session (transform_call (TAttention t)) [(xq_seq [1], None); (xq_seq [3; 5; 7], None)]
       xq_world = (Ok (outs, inc), w2) /\
     length (all_steps outs) = size0 U /\
     all_steps outs <> t_steps U) /\
  (exists h c w1 hs c' inc w2,
     SRUppTransducerCell_forward self (xq_seq [1; 3; 5; 7]) None None None None xq_world
       = (Ok (h, c, None), w1) /\
     session_cell self [xq_seq [1]; xq_seq [3; 5; 7]] xq_world = (Ok (hs, Some c', inc), w2) /\
     length (all_steps hs) = size0 h /\
     (forall j x y, t_steps h !! j = Some x -> all_steps hs !! j = Some y -> x <> y) /\
     c' <> c).
Proof.
  simpl. split.
  - eexists _, _, _, _, _.
    split; [vm_compute; reflexivity|].
    split; [vm_compute; reflexivity|].
    split; [reflexivity|discriminate].
  - eexists _, _, _, _, _, _, _.
    split; [vm_compute; reflexivity|].
    split; [vm_compute; reflexivity|].
    split; [reflexivity|].
    split; [|discriminate].
    intros [|[|[|[|j]]]] x y; simpl; intros [= <-] [= <-]; discriminate.
Qed.

(** The streaming session of the cell around the linear transform
    without look-ahead over the chunks [1] and [3, 5, 7] gives the hidden
    states and the carry of the non-streaming call. *)
Lemma C1_chunk_invariance_witness :
  let self := xq_cell (TLinear (xq_linear 0)) in
  let r := session_cell self [xq_seq [1]; xq_seq [3; 5; 7]] xq_world in
  exists h cfull w0',
    SRUppTransducerCell_forward self (xq_seq [1; 3; 5; 7]) None None None None xq_world
      = (Ok (h, cfull, None), w0') /\
    all_steps (xq_value ([], None, None) r).1.1 = t_steps h /\
    (xq_value ([], None, None) r).1.2 = Some cfull.
Proof.
  simpl.
  set (self := xq_cell (TLinear (xq_linear 0))).
  set (r := session_cell self [xq_seq [1]; xq_seq [3; 5; 7]] xq_world).
  destruct (C1_chunk_invariance self (xq_linear 0) (xq_seq [1; 3; 5; 7]) []
              [t_steps (xq_seq [1]); t_steps (xq_seq [3; 5; 7])])
    as (_ & _ & Hcell); [reflexivity|reflexivity|reflexivity|vm_compute; discriminate|
                         discriminate|reflexivity|vm_compute; discriminate|].
  destruct (Hcell eq_refl) as [_ Hstream].
  destruct (Hstream xq_world (xq_store r) xq_world
              (xq_value ([], None, None) r).1.1 (xq_value ([], None, None) r).1.2
              (xq_value ([], None, None) r).2)
    as (h & cfull & w0' & Hfull & _ & _ & Hsame); [vm_compute; reflexivity|].
  exists h, cfull, w0'. split; [exact Hfull|]. exact (Hsame eq_refl).
Defined.

(** C2, refuted as stated: with [right_window = 2], the linear
    transform fed the chunks of lengths 3, 3, 3 and 2 returns outputs of
    lengths 1, 3, 3 and 2, and its [saved_query] then has length 2, not
    0. *)
Lemma C2_counterexample :
  exists outs inc w',
    session (transform_call (TLinear (xq_linear 2))) xq_chunks xq_world
      = (Ok (outs, Some inc), w') /\
    map size0 outs = [1; 3; 3; 2]%nat /\
    slot_len w' inc "saved_query" = Some 2%nat /\
    slot_len w' inc "saved_query" <> Some 0%nat.
Proof.
  eexists _, _, _. split; [vm_compute; reflexivity|].
  split; [reflexivity|]. split; [vm_compute; reflexivity|].
  vm_compute. discriminate.
Qed.

(** The scenario of C2 on the session of the chunks 1..9 and two more
    timesteps. *)
Lemma C2_ready_count_witness :
  let r := session (transform_call (TLinear (xq_linear 2))) xq_chunks xq_world in
  map size0 (xq_value ([], None) r).1 = [1; 3; 3; 2]%nat /\
  exists inc, (xq_value ([], None) r).2 = Some inc /\
              slot_len (xq_store r) inc "saved_query" = Some 2%nat.
Proof.
  simpl.
  set (r := session (transform_call (TLinear (xq_linear 2))) xq_chunks xq_world).
  destruct C2_ready_count as [_ Hscenario].
  apply (Hscenario (xq_linear 2) (xq_seq [1; 2; 3]) (xq_seq [4; 5; 6]) (xq_seq [7; 8; 9])
           (xq_seq [0; 0]) None None None None xq_world);
    [reflexivity|reflexivity|reflexivity|reflexivity|reflexivity|vm_compute; reflexivity].
Defined.

(** After the first chunk of three timesteps, with [right_window = 2],
    two saved queries are held. *)
Lemma C3_window_bound_witness :
  exists inc outs1 w1,
    session (transform_call (TLinear (xq_linear 2))) (take 1 xq_chunks) xq_world
      = (Ok (outs1, Some inc), w1) /\
    slot_len w1 inc "saved_query" = Some 2%nat.
Proof.
  set (r := session (transform_call (TLinear (xq_linear 2))) xq_chunks xq_world).
  destruct (C3_window_bound (TLinear (xq_linear 2)) (take 1 xq_chunks) (drop 1 xq_chunks)
              xq_world (xq_store r) (xq_value ([], None) r).1 (xq_value ([], None) r).2)
    as (inc & outs1 & w1 & n & Hrun & _ & Hlen & _ & Hfull & _);
    [vm_compute; discriminate|discriminate|vm_compute; reflexivity|].
  exists inc, outs1, w1. split; [exact Hrun|].
  rewrite Hlen. f_equal. apply Nat2Z.inj. apply Hfull. vm_compute. discriminate.
Defined.

(** After two chunks of three timesteps, with [right_window = 1], five
    queries were ready, and five keys and five values are cached. *)
Lemma C4_key_value_growth_witness :
  exists inc outs1 w1,
    session (attention_call (xq_attention 1)) (take 2 xq_chunks) xq_world
      = (Ok (outs1, Some inc), w1) /\
    sumZ (ready_counts outs1) = 5 /\
    slot_len w1 inc "saved_key" = Some 5%nat /\
    slot_len w1 inc "saved_value" = Some 5%nat.
Proof.
  set (r := session (attention_call (xq_attention 1)) xq_chunks xq_world).
  destruct (C4_key_value_growth (xq_attention 1) (take 2 xq_chunks) (drop 2 xq_chunks)
              xq_world (xq_store r) (xq_value ([], None) r).1 (xq_value ([], None) r).2)
    as (inc & outs1 & w1 & lst & Hrun & _ & _ & _ & Hk & Hv & _);
    [vm_compute; discriminate|discriminate|vm_compute; reflexivity|].
  exists inc, outs1, w1.
  assert (sumZ (ready_counts outs1) = 5) as Hsum.
  { vm_compute in Hrun. injection Hrun as <- _ _. reflexivity. }
  rewrite Hsum in Hk, Hv. by split_and!.
Defined.

(** The first chunk of a session is shorter than the window. *)
Lemma C5_starvation_short_circuit_witness :
  let self := xq_cell (TLinear (xq_linear 2)) in
  exists w1,
    SRUppTransducerCell_forward self (xq_seq [1]) None None None (Some xq_state) xq_started
      = (Ok (zeros3 0 1 1, zeros2 1 1, Some xq_state), w1) /\
    w_log w1 = [].
Proof.
  simpl.
  set (self := xq_cell (TLinear (xq_linear 2))).
  set (r := transform_module_forward (C_transform_module self) (xq_seq [1]) None None
              (Some xq_state) xq_started).
  destruct (C5_starvation_short_circuit self (xq_seq [1]) None None None (Some xq_state)
              xq_started xq_started (xq_store r) None
              (xq_value (xq_seq [], None) r).1 (xq_value (xq_seq [], None) r).2)
    as (Hrun & _ & _ & _ & Hlog); [reflexivity|vm_compute; reflexivity|reflexivity|].
  exists (xq_store r). split; [exact Hrun|exact Hlog].
Defined.

(** The constructor on 10 and 3, and on 12 and 3. *)
Lemma C6_construction_validation_witness :
  SRUppTransducerAttention_init 1 1 10 3 (XQ 0) (XQ 0) (XQ 1) false true 0
    xq_one xq_one xq_one (fun x => x) = Raise (ValueError msg_divisible) /\
  is_ok (SRUppTransducerAttention_init 1 1 12 3 (XQ 0) (XQ 0) (XQ 1) false true 0
           xq_one xq_one xq_one (fun x => x)) = true.
Proof.
  split.
  - destruct (C6_construction_validation 1 1 10 3 (XQ 0) (XQ 0) (XQ 1) false true 0
                xq_one xq_one xq_one (fun x => x))
      as (_ & _ & Hbad & _); [lia|lia|lia|reflexivity|].
    exact (Hbad eq_refl eq_refl).
  - destruct (C6_construction_validation 1 1 12 3 (XQ 0) (XQ 0) (XQ 1) false true 0
                xq_one xq_one xq_one (fun x => x))
      as (_ & _ & _ & Hgood & _); [lia|lia|lia|reflexivity|].
    exact (Hgood eq_refl eq_refl).
Defined.

(** C6, refuted as stated: [num_heads = 3] divides [proj_features = 0],
    and the constructor does not return: [reset_parameters] raises
    [ZeroDivisionError] in the Xavier initialiser, on the weight of
    [linear2], which has neither rows nor columns. *)
Lemma C6_counterexample :
  0 mod 3 = 0 /\
  SRUppTransducerAttention_init 1 1 0 3 (XQ 0) (XQ 0) (XQ 1) false true 0
    xq_one [] xq_one (fun x => x) = Raise ZeroDivisionError.
Proof. split; reflexivity. Qed.

(** A streaming call of the attention transform with a pad mask. *)
Lemma C7_mask_contract_witness :
  transform_module_forward (TAttention (xq_attention 0)) (xq_seq [1; 2])
    (Some (mkTensor2 1 [[false]; [false]])) None (Some xq_state) xq_started
  = (Raise AssertionError, xq_started).
Proof.
  destruct (C7_mask_contract (TAttention (xq_attention 0)) (xq_seq [1; 2])
              (mkTensor2 1 [[false]; [false]]) None xq_state xq_started)
    as [(e & Hrun & Hassert) _].
  rewrite Hrun. f_equal. f_equal. apply Hassert. vm_compute.
  split_and!; [discriminate|discriminate|reflexivity].
Defined.


(** C9, refuted as stated: a streaming call of the attention transform
    on a state that holds a saved query and has neither ["saved_key"]
    nor ["saved_value"] does not fail; it returns. *)
Lemma C9_counterexample :
  slot xq_query_only 0%nat "saved_query" = Some (Some (xq_seq [5])) /\
  slot xq_query_only 0%nat "saved_key" = None /\
  slot xq_query_only 0%nat "saved_value" = None /\
  exists out w',
    SRUppTransducerAttention_forward (xq_attention 0) (xq_seq [1; 3]) None None (Some 0%nat)
      xq_query_only = (Ok (out, Some 0%nat), w') /\
    size0 out = 3%nat /\
    slot_len w' 0%nat "saved_key" = Some 3%nat.
Proof.
  split_and!; [reflexivity|reflexivity|reflexivity|].
  eexists _, _. split_and!; [vm_compute; reflexivity|reflexivity|vm_compute; reflexivity].
Qed.

(** The call on the state that has a saved query only returns, so it
    met [None] under no key. *)
Lemma C9_slot_contract_witness :
  slot xq_query_only 0%nat "saved_query" <> Some None /\
  slot xq_query_only 0%nat "saved_key" <> Some None /\
  slot xq_query_only 0%nat "saved_value" <> Some None /\
  length (saved_steps xq_query_only 0%nat "saved_key")
  = length (saved_steps xq_query_only 0%nat "saved_value").
Proof.
  set (r := SRUppTransducerAttention_forward (xq_attention 0) (xq_seq [1; 3]) None None
              (Some 0%nat) xq_query_only).
  destruct (C9_slot_contract (xq_attention 0)) as (_ & _ & _ & _ & _ & _ & Hok).
  apply (Hok (xq_seq [1; 3]) None None 0%nat xq_query_only (xq_store r)
           (xq_value (xq_seq [], None) r).1 (xq_value (xq_seq [], None) r).2).
  vm_compute; reflexivity.
Defined.

(** The slots after the first streaming call of each transform. *)
Lemma C10_slots_after_call_witness :
  let ra := SRUppTransducerAttention_forward (xq_attention 1) (xq_seq [1; 2; 3]) None None
              (Some xq_state) xq_started in
  let rl := SRUppTransducerLinear_forward (xq_linear 1) (xq_seq [1; 2; 3]) None None
              (Some xq_state) xq_started in
  (exists nr k v,
     slot (xq_store ra) xq_state "saved_query" = Some (Some nr) /\
     slot (xq_store ra) xq_state "saved_key" = Some (Some k) /\
     slot (xq_store ra) xq_state "saved_value" = Some (Some v) /\
     size0 k = size0 v) /\
  (exists nr,
     slot (xq_store rl) xq_state "saved_query" = Some (Some nr) /\
     slot (xq_store rl) xq_state "saved_key" = None /\
     slot (xq_store rl) xq_state "saved_value" = None).
Proof.
  simpl.
  set (ra := SRUppTransducerAttention_forward (xq_attention 1) (xq_seq [1; 2; 3]) None None
               (Some xq_state) xq_started).
  set (rl := SRUppTransducerLinear_forward (xq_linear 1) (xq_seq [1; 2; 3]) None None
               (Some xq_state) xq_started).
  destruct C10_slots_after_call as [Hattn Hlin]. split.
  - destruct (Hattn (xq_attention 1) (xq_seq [1; 2; 3]) None None xq_state xq_started
                (xq_store ra) (xq_value (xq_seq [], None) ra).1 (xq_value (xq_seq [], None) ra).2)
      as (_ & nr & k & v & _ & Hq & Hk & Hv & Hsz); [vm_compute; reflexivity|].
    exists nr, k, v. split; [exact Hq|]. split; [exact Hk|]. split; [exact Hv|exact Hsz].
  - destruct (Hlin (xq_linear 1) (xq_seq [1; 2; 3]) None None xq_state xq_started
                (xq_store rl) (xq_value (xq_seq [], None) rl).1 (xq_value (xq_seq [], None) rl).2)
      as (_ & nr & _ & Hq & Hother); [vm_compute; reflexivity|].
    exists nr. split; [exact Hq|]. split.
    + rewrite Hother by discriminate. vm_compute. reflexivity.
    + rewrite Hother by discriminate. vm_compute. reflexivity.
Defined.
(** ** The attention computation returns *)

Section AttentionReturns.

Context {R : Type} `{Scalar R} {Rng : Type} `{Dropper R Rng}.

Local Abbreviation tensor := (@Tensor R).
Local Abbreviation world := (@World R Rng).
Local Abbreviation comp := (@M R Rng).

Lemma view_heads_total (x : tensor) (len heads : nat) (hd : Z) :
  0 < hd -> (0 < len)%nat -> size0 x = len ->
  t_feat x = (heads * Z.to_nat hd)%nat ->
  exists y,
    view_heads x len hd = Ok y /\ t_bsz y = (t_bsz x * heads)%nat /\
    size0 y = len /\ t_feat y = Z.to_nat hd.
Proof.
  intros Hhd Hlen Hsz Hf. unfold view_heads.
  destruct (Z.ltb_spec hd 0) as [?|_]; [lia|].
  set (d := Z.to_nat hd). assert (0 < d)%nat as Hd by lia.
  assert (numel x = (t_bsz x * heads) * (len * d))%nat as Hn.
  { unfold numel. rewrite Hsz, Hf. fold d. lia. }
  rewrite Hn.
  assert (bool_decide ((t_bsz x * heads * (len * d))%nat = (len * d)%nat)
          || bool_decide (0 < len * d)%nat
             && bool_decide ((t_bsz x * heads * (len * d)) mod (len * d) = 0)%nat = true)
    as ->.
  { apply orb_true_iff. right. apply andb_true_iff. split.
    - apply bool_decide_eq_true_2. nia.
    - apply bool_decide_eq_true_2. apply Nat.Div0.mod_mul. }
  rewrite decide_False by nia.
  eexists. split; [done|]. simpl. split_and!.
  - rewrite Nat.div_mul by nia. done.
  - unfold size0, rows_of. simpl. by rewrite length_map, length_seq.
  - done.
Qed.

Lemma transpose01_length (x : tensor) : length (transpose01 x) = t_bsz x.
Proof. unfold transpose01, transpose_n. by rewrite length_map, length_seq. Qed.

Lemma bindM_lift {A B} (r : result A) (a : A) (k : A -> comp B) (w : world) :
  r = Ok a -> bindM (lift r) k w = k a w.
Proof. intros ->. done. Qed.

Lemma drop_mats_length (p : R) (ms : list (list (list R))) (g : Rng) :
  length (drop_mats p ms g).1 = length ms.
Proof.
  revert g. induction ms as [|m ms IH]; intros g; simpl; [done|].
  destruct (drop_rows p m g) as [y g1]. specialize (IH g1).
  destruct (drop_mats p ms g1) as [ys g2]. simpl in *. by rewrite IH.
Qed.

Lemma F_dropout_mats_total (x : list (list (list R))) (p : R) (training : bool) (w : world) :
  bad_probability p = false ->
  exists y w', F_dropout_mats x p training w = (Ok y, w') /\ length y = length x.
Proof.
  intros Hp. unfold F_dropout_mats. rewrite Hp. destruct training.
  - pose proof (drop_mats_length p x (w_rng w)) as Hl.
    destruct (drop_mats p x (w_rng w)) as [y g]. by eexists _, _.
  - by eexists _, _.
Qed.

Lemma F_dropout_total (x : tensor) (p : R) (training : bool) (w : world) :
  bad_probability p = false ->
  exists y w', F_dropout x p training w = (Ok y, w') /\
               size0 y = size0 x /\ t_bsz y = t_bsz x /\ t_feat y = t_feat x.
Proof.
  intros Hp.
  assert (exists y w', F_dropout x p training w = (Ok y, w')) as (y & w' & Hrun).
  { unfold F_dropout. rewrite Hp. destruct training; [|by eexists _, _].
    destruct (drop_rows p (t_steps x) (w_rng w)). by eexists _, _. }
  exists y, w'. split; [done|].
  by apply F_dropout_Ok in Hrun as (_ & ? & ? & ? & _).
Qed.

Lemma attention_check_fit mask_pad (attn_mask : option (Tensor2 R))
    (tgt_len src_len bsz : nat) (p : R) :
  masks_fit mask_pad attn_mask tgt_len src_len bsz -> bad_probability p = false ->
  attention_check mask_pad attn_mask tgt_len src_len bsz p = None.
Proof.
  intros [Ham Hmp] Hp. unfold attention_check. rewrite Hp.
  destruct attn_mask as [am|], mask_pad as [mp|]; simpl;
    rewrite ?bool_decide_eq_true_2 by done; done.
Qed.

Lemma attention_run (self : SRUppTransducerAttention) (q k v residual : tensor)
    (tgt_len src_len bsz : nat) (head_dim : Z) (scaling : R) mask_pad attn_mask (w : world) :
  attn_shaped self ->
  head_dim = A_proj_features self / A_num_heads self ->
  (0 < tgt_len)%nat -> (0 < src_len)%nat ->
  size0 q = tgt_len -> size0 k = src_len -> size0 v = src_len ->
  t_bsz q = bsz -> t_bsz k = bsz -> t_bsz v = bsz ->
  t_feat q = Z.to_nat (A_proj_features self) ->
  t_feat k = Z.to_nat (A_proj_features self) ->
  t_feat v = Z.to_nat (A_proj_features self) ->
  size0 residual = tgt_len -> t_bsz residual = bsz ->
  t_feat residual = Z.to_nat (A_proj_features self) ->
  match attention_check mask_pad attn_mask tgt_len src_len bsz (A_attn_dropout self) with
  | Some e =>
      attention self q k v residual tgt_len src_len bsz head_dim scaling mask_pad attn_mask w
      = (Raise e, w)
  | None =>
      exists out w',
        attention self q k v residual tgt_len src_len bsz head_dim scaling mask_pad attn_mask w
        = (Ok out, w') /\
        t_feat out = lin_out (A_linear3 self)
  end.
Proof.
  intros (Hh & Hp & Hdiv & Hl1 & Hl2i & Hl2o & Hl3 & Hln & Hd) Hhd Htgt Hsrc
         Hsq Hsk Hsv Hbq Hbk Hbv Hfq Hfk Hfv Hsr Hbr Hfr.
  set (heads := Z.to_nat (A_num_heads self)).
  set (P := Z.to_nat (A_proj_features self)) in *.
  assert (A_proj_features self = A_num_heads self * head_dim) as Hprod.
  { subst head_dim. apply Z.div_exact; lia. }
  assert (0 < head_dim) as Hpos by nia.
  assert (P = heads * Z.to_nat head_dim)%nat as HP.
  { subst P heads. rewrite Hprod. rewrite Z2Nat.inj_mul by lia. done. }
  destruct (view_heads_total q tgt_len heads head_dim Hpos Htgt Hsq) as (q1 & Hq1 & Hbq1 & Hsq1 & Hfq1);
    [by rewrite Hfq|].
  destruct (view_heads_total k src_len heads head_dim Hpos Hsrc Hsk) as (k1 & Hk1 & Hbk1 & Hsk1 & Hfk1);
    [by rewrite Hfk|].
  destruct (view_heads_total v src_len heads head_dim Hpos Hsrc Hsv) as (v1 & Hv1 & Hbv1 & Hsv1 & Hfv1);
    [by rewrite Hfv|].
  unfold attention.
  rewrite (bindM_lift _ _ _ _ Hq1), (bindM_lift _ _ _ _ Hk1), (bindM_lift _ _ _ _ Hv1).
  cbv zeta.
  set (qs := map (map (map (fun x => rmul x scaling))) (transpose01 q1)).
  set (ks := map (transpose_n (Z.to_nat head_dim)) (transpose01 k1)).
  assert (length qs = t_bsz q1) as Hlq by (subst qs; by rewrite length_map, transpose01_length).
  assert (length ks = t_bsz q1) as Hlk.
  { subst ks. rewrite length_map, transpose01_length. congruence. }
  erewrite bindM_lift; [|unfold bmm; by rewrite decide_True by congruence].
  set (sc := zip_with (matmul src_len) qs ks).
  assert (length sc = t_bsz q1) as Hlsc.
  { subst sc. rewrite length_zip_with. lia. }
  erewrite bindM_step.
  2:{ assert ((Z.of_nat (t_bsz q1) =? Z.of_nat bsz * A_num_heads self) = true) as ->; [|done].
      apply Z.eqb_eq. rewrite Hbq1, Hbq. subst heads. lia. }
  set (sc1 := match attn_mask with
              | Some attn_mask =>
                  map (fun mat => zip_with (zip_with radd) mat (m_rows attn_mask)) sc
              | None => sc
              end).
  assert (length sc1 = t_bsz q1) as Hlsc1.
  { subst sc1. destruct attn_mask; [by rewrite length_map|done]. }
  unfold attention_check.
  assert (from_option (fun am : Tensor2 R => bool_decide (size2 am = [tgt_len; src_len]))
            true attn_mask = false \/
          match attn_mask with
          | Some attn_mask => size2 attn_mask = [tgt_len; src_len]
          | None => True
          end) as [Hbada|Ham].
  { destruct attn_mask as [am|]; simpl; [|by right].
    destruct (decide (size2 am = [tgt_len; src_len])); [by right|left].
    by apply bool_decide_eq_false_2. }
  { rewrite Hbada. simpl. apply bindM_raise.
    destruct attn_mask as [am|]; [|done]. simpl in Hbada.
    apply bool_decide_eq_false_1 in Hbada. by rewrite decide_False by done. }
  assert (from_option (fun am : Tensor2 R => bool_decide (size2 am = [tgt_len; src_len]))
            true attn_mask = true) as ->.
  { destruct attn_mask as [am|]; [|done]. simpl. by apply bool_decide_eq_true_2. }
  simpl negb. cbv iota.
  erewrite (bindM_step _ _ _ _ sc1).
  2:{ subst sc1. destruct attn_mask as [am|]; [|done]. by rewrite decide_True by done. }
  set (sc2 := match mask_pad with
              | Some mask_pad => masked_fill_pad sc1 mask_pad (A_num_heads self)
              | None => sc1
              end).
  assert (length sc2 = t_bsz q1) as Hlsc2.
  { subst sc2. destruct mask_pad; [|done]. unfold masked_fill_pad. by rewrite length_imap. }
  assert (from_option (fun mp : Tensor2 bool => bool_decide (size2 mp = [src_len; bsz]))
            true mask_pad = false \/
          match mask_pad with
          | Some mask_pad => size2 mask_pad = [src_len; bsz]
          | None => True
          end) as [Hbadp|Hmp].
  { destruct mask_pad as [mp|]; simpl; [|by right].
    destruct (decide (size2 mp = [src_len; bsz])); [by right|left].
    by apply bool_decide_eq_false_2. }
  { rewrite Hbadp. simpl. apply bindM_raise.
    destruct mask_pad as [mp|]; [|done]. simpl in Hbadp.
    apply bool_decide_eq_false_1 in Hbadp. by rewrite decide_False by done. }
  assert (from_option (fun mp : Tensor2 bool => bool_decide (size2 mp = [src_len; bsz]))
            true mask_pad = true) as ->.
  { destruct mask_pad as [mp|]; [|done]. simpl. by apply bool_decide_eq_true_2. }
  simpl negb. cbv iota.
  erewrite (bindM_step _ _ _ _ sc2).
  2:{ subst sc2. destruct mask_pad as [mp|]; [|done]. by rewrite decide_True by done. }
  destruct (bad_probability (A_attn_dropout self)) eqn:Had.
  { apply bindM_raise. unfold F_dropout_mats. by rewrite Had. }
  destruct (F_dropout_mats_total (map (map softmax) sc2) (A_attn_dropout self)
              (A_training self) w Had) as (wt & w1 & Hdrop & Hlwt).
  rewrite length_map in Hlwt.
  rewrite (bindM_step _ _ _ _ _ Hdrop).
  erewrite bindM_lift.
  2:{ unfold bmm. rewrite decide_True; [done|]. rewrite transpose01_length. congruence. }
  set (ao := zip_with (matmul (Z.to_nat head_dim)) wt (transpose01 v1)).
  erewrite bindM_lift.
  2:{ unfold merge_heads. destruct (Z.ltb_spec (A_proj_features self) 0) as [?|_]; [lia|].
      rewrite decide_True; [done|]. fold P. rewrite Hbq1, Hbq, HP. lia. }
  erewrite bindM_lift.
  2:{ unfold rezero. rewrite decide_True; [done|]. unfold size0. simpl.
      rewrite length_map. unfold transpose_n. rewrite length_map, length_seq.
      fold P. unfold size0 in Hsr. by rewrite Hsr, Hbr, Hfr. }
  simpl t_bsz. simpl t_feat.
  set (rz := mkTensor bsz (Z.to_nat (A_proj_features self)) (zip_with _ _ _)).
  assert (exists ln_out, match A_layer_norm self with
                         | Some layer_norm =>
                             if A_normalize_after self
                             then lift (LayerNorm_forward layer_norm rz)
                             else ret rz
                         | None => ret rz
                         end w1 = (Ok ln_out, w1) /\ t_feat ln_out = P)
    as (lo & Hlo & Hflo).
  { destruct (A_layer_norm self) as [ln|]; [|by eexists].
    destruct (A_normalize_after self); [|by eexists].
    unfold lift, LayerNorm_forward. rewrite decide_True by done. by eexists. }
  rewrite (bindM_step _ _ _ _ _ Hlo).
  destruct (F_dropout_total lo (drop_p (A_dropout self)) (drop_training (A_dropout self))
              w1 Hd) as (dr & w2 & Hdr & _ & _ & Hfdr).
  unfold Dropout_forward. rewrite (bindM_step _ _ _ _ _ Hdr).
  unfold lift, Linear_forward. rewrite decide_True by congruence.
  by eexists _, _.
Qed.

Lemma attention_total (self : SRUppTransducerAttention) (q k v residual : tensor)
    (tgt_len src_len bsz : nat) (head_dim : Z) (scaling : R) mask_pad attn_mask (w : world) :
  attn_sized self ->
  head_dim = A_proj_features self / A_num_heads self ->
  (0 < tgt_len)%nat -> (0 < src_len)%nat ->
  size0 q = tgt_len -> size0 k = src_len -> size0 v = src_len ->
  t_bsz q = bsz -> t_bsz k = bsz -> t_bsz v = bsz ->
  t_feat q = Z.to_nat (A_proj_features self) ->
  t_feat k = Z.to_nat (A_proj_features self) ->
  t_feat v = Z.to_nat (A_proj_features self) ->
  size0 residual = tgt_len -> t_bsz residual = bsz ->
  t_feat residual = Z.to_nat (A_proj_features self) ->
  masks_fit mask_pad attn_mask tgt_len src_len bsz ->
  exists out w',
    attention self q k v residual tgt_len src_len bsz head_dim scaling mask_pad attn_mask w
    = (Ok out, w') /\
    t_feat out = lin_out (A_linear3 self).
Proof.
  intros [Hsh Had] Hhd Htgt Hsrc Hsq Hsk Hsv Hbq Hbk Hbv Hfq Hfk Hfv Hsr Hbr Hfr Hm.
  pose proof (attention_run self q k v residual tgt_len src_len bsz head_dim scaling
                mask_pad attn_mask w Hsh Hhd Htgt Hsrc Hsq Hsk Hsv Hbq Hbk Hbv Hfq Hfk Hfv
                Hsr Hbr Hfr) as Hrun.
  by rewrite (attention_check_fit _ _ _ _ _ _ Hm Had) in Hrun.
Qed.

Lemma attn_shaped_wf (self : SRUppTransducerAttention) : attn_shaped self -> attn_wf self.
Proof. intros (? & ? & ? & ? & ? & ? & _). unfold attn_wf. split_and!; try done; lia. Qed.

Lemma attn_shaped_head_dim (self : SRUppTransducerAttention) :
  attn_shaped self ->
  0 < A_proj_features self / A_num_heads self /\
  (A_num_heads self =? 0) = false /\
  (A_proj_features self / A_num_heads self =? 0) = false.
Proof.
  intros (Hh & Hp & Hdiv & _).
  assert (A_proj_features self = A_num_heads self * (A_proj_features self / A_num_heads self))
    as Hprod by (apply Z.div_exact; lia).
  assert (0 < A_proj_features self / A_num_heads self) by nia.
  split_and!; [done|lia|lia].
Qed.

(** The keys and values of a tensor of queries (lines 147-153). *)
Lemma key_value_total (self : SRUppTransducerAttention) (q : tensor) (w : world) :
  attn_shaped self ->
  t_feat q = Z.to_nat (A_proj_features self) ->
  exists q1 k v,
    match A_layer_norm self with
    | Some layer_norm =>
        if negb (A_normalize_after self)
        then lift (LayerNorm_forward layer_norm q)
        else ret q
    | None => ret q
    end w = (Ok q1, w) /\
    bindM (lift (Linear_forward (A_linear2 self) q1)) (fun x => lift (chunk2 x)) w
    = (Ok (k, v), w) /\
    size0 q1 = size0 q /\ t_bsz q1 = t_bsz q /\ t_feat q1 = t_feat q /\
    size0 k = size0 q /\ t_bsz k = t_bsz q /\ t_feat k = Z.to_nat (A_proj_features self) /\
    size0 v = size0 q /\ t_bsz v = t_bsz q /\ t_feat v = Z.to_nat (A_proj_features self).
Proof.
  intros (Hh & Hp & Hdiv & Hl1 & Hl2i & Hl2o & Hl3 & Hln & Hd) Hf.
  set (P := Z.to_nat (A_proj_features self)) in *.
  assert (exists q1, match A_layer_norm self with
                     | Some layer_norm =>
                         if negb (A_normalize_after self)
                         then lift (LayerNorm_forward layer_norm q)
                         else ret q
                     | None => ret q
                     end w = (Ok q1, w) /\
                     size0 q1 = size0 q /\ t_bsz q1 = t_bsz q /\ t_feat q1 = t_feat q)
    as (q1 & Hq1 & Hs1 & Hb1 & Hf1).
  { destruct (A_layer_norm self) as [ln|]; [|by eexists].
    destruct (negb (A_normalize_after self)); [|by eexists].
    unfold lift, LayerNorm_forward. rewrite decide_True by congruence.
    eexists. split; [done|]. unfold size0. simpl. by rewrite length_map. }
  assert (lin_out (A_linear2 self) = 2 * P)%nat as Hout.
  { rewrite Hl2o. subst P. rewrite Z2Nat.inj_mul by lia. lia. }
  assert (0 < P)%nat as HP by (subst P; lia).
  exists q1. unfold bindM at 1, lift at 1, Linear_forward.
  rewrite decide_True by congruence. unfold lift, chunk2. simpl t_feat.
  destruct (decide (lin_out (A_linear2 self) = 1%nat)) as [Hone|_]; [lia|].
  eexists _, _. split; [done|]. split; [done|].
  rewrite Hout, half_of_double.
  unfold size0 in *. simpl. rewrite !length_map.
  split_and!; try done; try congruence; lia.
Qed.

Lemma attention_inputs_full (self : SRUppTransducerAttention) (input : tensor)
    mask_pad attn_mask (w : world) :
  attn_shaped self ->
  t_feat input = lin_in (A_linear1 self) ->
  exists a,
    attention_inputs self input mask_pad attn_mask None w = (Ok a, w) /\
    ai_tgt_len a = size0 input /\ ai_src_len a = size0 input /\ ai_bsz a = t_bsz input /\
    ai_head_dim a = A_proj_features self / A_num_heads self /\
    ai_attn_mask a = attn_mask /\
    size0 (ai_q a) = size0 input /\ t_bsz (ai_q a) = t_bsz input /\
    t_feat (ai_q a) = Z.to_nat (A_proj_features self) /\
    size0 (ai_k a) = size0 input /\ t_bsz (ai_k a) = t_bsz input /\
    t_feat (ai_k a) = Z.to_nat (A_proj_features self) /\
    size0 (ai_v a) = size0 input /\ t_bsz (ai_v a) = t_bsz input /\
    t_feat (ai_v a) = Z.to_nat (A_proj_features self) /\
    size0 (ai_residual a) = size0 input /\ t_bsz (ai_residual a) = t_bsz input /\
    t_feat (ai_residual a) = Z.to_nat (A_proj_features self).
Proof.
  intros Hsz Hf. pose proof Hsz as (Hh & Hp & Hdiv & Hl1 & _).
  destruct (attn_shaped_head_dim self Hsz) as (Hpos & Hh0 & Hd0).
  set (q := mkTensor (t_bsz input) (lin_out (A_linear1 self))
              (map (Linear_rows (A_linear1 self) (t_bsz input)) (t_steps input))).
  destruct (key_value_total self q w Hsz Hl1)
    as (q1 & k & v & Hq1 & Hkv & Hs1 & Hb1 & Hf1 & Hsk & Hbk & Hfk & Hsv & Hbv & Hfv).
  unfold attention_inputs. rewrite Hh0.
  erewrite bindM_step; [|done]. rewrite Hd0.
  erewrite bindM_step; [|done].
  erewrite bindM_lift; [|by apply Linear_forward_shape].
  fold q. erewrite bindM_step; [|done]. cbv beta iota.
  rewrite (bindM_step _ _ _ _ _ Hq1), (bindM_step _ _ _ _ _ Hkv).
  erewrite bindM_step; [|done].
  eexists. split; [done|]. simpl.
  assert (size0 q = size0 input) as Hsq by (unfold size0; simpl; by rewrite length_map).
  split_and!; try done; try congruence.
  rewrite Hf1. simpl. exact Hl1.
Qed.

Lemma get_saved_total (slot_v : option (option tensor)) (x : tensor) (w : world) :
  match slot_v with
  | None => True
  | Some None => False
  | Some (Some t) => t_bsz t = t_bsz x /\ t_feat t = t_feat x
  end ->
  exists y,
    match slot_v with
    | Some saved =>
        match saved with
        | Some saved => lift (cat0 saved x)
        | None => raise AssertionError
        end
    | None => ret x
    end w = (Ok y, w) /\
    t_steps y = match slot_v with Some (Some t) => t_steps t | _ => [] end ++ t_steps x.
Proof.
  destruct slot_v as [[t|]|]; [|done|by eexists].
  intros Hfit. unfold lift, cat0. rewrite decide_True by done. by eexists.
Qed.

Lemma update_saved_total (state inc : loc) (cur : Cursor) (k v : tensor) (w : world) :
  let d := inner_dict w state in
  match d !! "saved_key" with
  | None => True
  | Some None => False
  | Some (Some t) => t_bsz t = t_bsz k /\ t_feat t = t_feat k
  end ->
  match d !! "saved_value" with
  | None => True
  | Some None => False
  | Some (Some t) => t_bsz t = t_bsz v /\ t_feat t = t_feat v
  end ->
  (length (match d !! "saved_key" with Some (Some t) => t_steps t | _ => [] end) + size0 k
   = length (match d !! "saved_value" with Some (Some t) => t_steps t | _ => [] end) + size0 v)%nat ->
  exists k' v' w', update_saved state inc cur k v w = (Ok (k', v'), w').
Proof.
  intros d Hk Hv Hlen. unfold update_saved.
  erewrite bindM_step; [|unfold dict_get; done]. fold d.
  destruct (get_saved_total (d !! "saved_key") k w Hk) as (k' & Hk' & Hsk).
  rewrite (bindM_step _ _ _ _ _ Hk').
  erewrite bindM_step; [|unfold dict_get; done]. fold d.
  destruct (get_saved_total (d !! "saved_value") v w Hv) as (v' & Hv' & Hsv).
  rewrite (bindM_step _ _ _ _ _ Hv').
  erewrite bindM_step.
  2:{ rewrite bool_decide_eq_true_2; [done|]. unfold size0 in *.
      rewrite Hsk, Hsv, !length_app. lia. }
  erewrite bindM_step; [|unfold dict_set; done].
  erewrite bindM_step; [|unfold dict_set; done].
  erewrite bindM_step; [|unfold dict_set; done].
  erewrite bindM_step; [|unfold outer_set; done].
  by eexists _, _, _.
Qed.

(** Lines 105-173 in a streaming call on a state that fits. *)
Lemma attention_inputs_streaming_total (self : SRUppTransducerAttention) (input : tensor)
    attn_mask (inc : loc) (w : world) :
  attn_shaped self ->
  t_feat input = lin_in (A_linear1 self) ->
  attn_state_fits w inc (t_bsz input) (Z.to_nat (A_proj_features self)) ->
  exists a w',
    attention_inputs self input None attn_mask (Some inc) w = (Ok a, w') /\
    ai_bsz a = t_bsz input /\
    t_bsz (ai_k a) = t_bsz input /\ t_bsz (ai_v a) = t_bsz input /\
    size0 (ai_residual a) = ai_tgt_len a /\ t_bsz (ai_residual a) = t_bsz input /\
    t_feat (ai_residual a) = Z.to_nat (A_proj_features self).
Proof.
  intros Hsz Hf (Hfq & Hfk & Hfv & Hlen). pose proof Hsz as (Hh & Hp & Hdiv & Hl1 & _).
  destruct (attn_shaped_head_dim self Hsz) as (Hpos & Hh0 & Hd0).
  set (q := mkTensor (t_bsz input) (lin_out (A_linear1 self))
              (map (Linear_rows (A_linear1 self) (t_bsz input)) (t_steps input))).
  destruct (take_saved_queries_total (A_right_window self) q inc w)
    as (s & cur & w1 & Htk).
  { unfold saved_query_fits. unfold slot_fits in Hfq. simpl. by rewrite Hl1. }
  pose proof Htk as Htk'.
  apply take_saved_queries_Ok in Htk' as (Hd1 & _ & _ & _ & _ & _ & _ & Hc).
  pose proof (cursor_spec_sizes _ _ _ _ _ Hc) as (_ & _ & Hbr & Hfr & _).
  simpl in Hbr, Hfr.
  destruct (key_value_total self (query_ready cur) w1 Hsz)
    as (q1 & k & v & Hq1 & Hkv & Hs1 & Hb1 & Hf1 & Hsk & Hbk & Hfk' & Hsv & Hbv & Hfv');
    [congruence|].
  destruct (update_saved_total s inc cur k v w1) as (k' & v' & w2 & Hup).
  { rewrite Hd1, <- slot_state_dict. unfold slot_fits in Hfk.
    destruct (slot w inc "saved_key") as [[t|]|]; try done.
    rewrite Hbk, Hbr, Hfk'. done. }
  { rewrite Hd1, <- slot_state_dict. unfold slot_fits in Hfv.
    destruct (slot w inc "saved_value") as [[t|]|]; try done.
    rewrite Hbv, Hbr, Hfv'. done. }
  { rewrite Hd1, <- !slot_state_dict. unfold saved_steps in Hlen. rewrite Hlen. lia. }
  unfold attention_inputs. rewrite Hh0.
  erewrite bindM_step; [|done]. rewrite Hd0.
  erewrite bindM_step; [|done].
  erewrite bindM_lift; [|by apply Linear_forward_shape].
  fold q. erewrite bindM_step.
  2:{ erewrite bindM_step; [|done]. erewrite bindM_step; [|exact Htk]. done. }
  cbv beta iota. simpl fst. simpl snd.
  rewrite (bindM_step _ _ _ _ _ Hq1), (bindM_step _ _ _ _ _ Hkv).
  erewrite bindM_step.
  2:{ simpl. erewrite bindM_step; [|exact Hup]. done. }
  eexists _, _. split; [done|]. simpl.
  apply update_saved_Ok in Hup as (_ & _ & _ & _ & Hbk' & _ & Hbv' & _).
  split_and!; try done; congruence.
Qed.

End AttentionReturns.
(** ** Calls of the attention transform that return, and calls without a
    ready query *)

Section AttentionCalls.

Context {R : Type} `{Scalar R} {Rng : Type} `{Dropper R Rng}.

Local Abbreviation tensor := (@Tensor R).
Local Abbreviation world := (@World R Rng).
Local Abbreviation comp := (@M R Rng).

Lemma attention_init_sized
    (in_features out_features proj_features num_heads : Z)
    (dropout attn_dropout rezero_init_alpha : R)
    (layer_norm normalize_after : bool) (right_window : Z)
    (xavier1 xavier2 xavier3 : list (list R)) (norm : list R -> list R) :
  0 <= in_features -> 0 <= out_features -> 0 < proj_features -> 0 < num_heads ->
  proj_features mod num_heads = 0 ->
  bad_probability dropout = false -> bad_probability attn_dropout = false ->
  exists m,
    SRUppTransducerAttention_init in_features out_features proj_features num_heads
      dropout attn_dropout rezero_init_alpha layer_norm normalize_after
      right_window xavier1 xavier2 xavier3 norm = Ok m /\
    attn_sized m /\ attn_sized (SRUppTransducerAttention_eval m) /\
    lin_in (A_linear1 m) = Z.to_nat in_features /\
    lin_out (A_linear3 m) = Z.to_nat out_features /\
    A_right_window m = right_window.
Proof.
  intros Hi Ho Hp Hh Hdiv Hd Had. unfold SRUppTransducerAttention_init, nn_Dropout.
  rewrite Hd. simpl. rewrite !nn_Linear_Ok by lia. simpl.
  destruct (Z.eqb_spec num_heads 0); [lia|].
  destruct (Z.eqb_spec (proj_features mod num_heads) 0); [|done]. simpl.
  rewrite !xavier_uniform_Ok by lia. simpl.
  eexists. split; [done|].
  unfold attn_sized, attn_shaped. simpl.
  destruct (rltb r0 dropout); destruct layer_norm; simpl; split_and!; done.
Qed.

(** Without a ready query the first [view] of the attention computation
    raises. *)
Lemma attention_empty (self : SRUppTransducerAttention) (q k v residual : tensor)
    (src_len bsz : nat) (head_dim : Z) (scaling : R) mask_pad attn_mask (w : world) :
  0 <= head_dim -> size0 q = 0%nat ->
  attention self q k v residual 0 src_len bsz head_dim scaling mask_pad attn_mask w
  = (Raise (RuntimeError msg_view_ambiguous), w).
Proof.
  intros Hhd Hq. unfold attention. apply bindM_raise.
  unfold lift, view_heads. destruct (Z.ltb_spec head_dim 0) as [?|_]; [lia|].
  unfold numel. rewrite Hq. simpl. done.
Qed.

Lemma attention_forward_full (self : SRUppTransducerAttention) (input : tensor)
    mask_pad attn_mask (w : world) :
  attn_sized self ->
  t_feat input = lin_in (A_linear1 self) ->
  (0 < size0 input)%nat ->
  masks_fit mask_pad attn_mask (size0 input) (size0 input) (t_bsz input) ->
  exists out w',
    SRUppTransducerAttention_forward self input mask_pad attn_mask None w
    = (Ok (out, None), w') /\
    size0 out = size0 input /\ t_bsz out = t_bsz input /\
    t_feat out = lin_out (A_linear3 self) /\ same_dicts w w'.
Proof.
  intros Hsz Hf Hlen Hm. pose proof (proj1 Hsz) as Hsh.
  destruct (attention_inputs_full self input mask_pad attn_mask w Hsh Hf)
    as (a & Ha & Htg & Hsrc & Hb & Hhd & Ham & Hsq & Hbq & Hfq & Hsk & Hbk & Hfk
        & Hsv & Hbv & Hfv & Hsr & Hbr & Hfr).
  destruct (attention_total self (ai_q a) (ai_k a) (ai_v a) (ai_residual a)
              (ai_tgt_len a) (ai_src_len a) (ai_bsz a) (ai_head_dim a) (ai_scaling a)
              mask_pad (ai_attn_mask a) w Hsz) as (out & w' & Hat & Hfo);
    try congruence; try lia.
  exists out, w'.
  pose proof Hat as Hat'. apply attention_Ok in Hat' as (Hsame & Hso & _ & Hbo & _).
  split; [|split_and!; try done; congruence].
  unfold SRUppTransducerAttention_forward, SRUppTransducerAttention_locals.
  erewrite bindM_step.
  2:{ erewrite bindM_step; [|exact Ha]. erewrite bindM_step; [|exact Hat]. done. }
  done.
Qed.

Lemma attn_state_fits_same (w w' : world) (inc : loc) (bsz proj : nat) :
  same_dicts w w' -> attn_state_fits w inc bsz proj -> attn_state_fits w' inc bsz proj.
Proof.
  intros Hs (Hq & Hk & Hv & Hl). unfold attn_state_fits, slot_fits, saved_steps in *.
  rewrite !(same_dicts_slot _ _ _ _ Hs). done.
Qed.

(** Lines 105-173 of a streaming call on a state that fits: what they
    hand over and what they leave in the state. *)
Lemma attention_inputs_streaming_run (self : SRUppTransducerAttention) (input : tensor)
    attn_mask (inc : loc) (w : world) :
  attn_shaped self ->
  t_feat input = lin_in (A_linear1 self) ->
  attn_state_fits w inc (t_bsz input) (Z.to_nat (A_proj_features self)) ->
  exists a w1 cur,
    attention_inputs self input None attn_mask (Some inc) w = (Ok a, w1) /\
    cursor_spec (A_right_window self)
      (mkTensor (t_bsz input) (lin_out (A_linear1 self))
         (map (Linear_rows (A_linear1 self) (t_bsz input)) (t_steps input))) w inc cur /\
    ai_tgt_len a = size0 (query_ready cur) /\
    slot w1 inc "saved_query" = Some (Some (query_not_ready cur)) /\
    (exists knew, saved_steps w1 inc "saved_key" = saved_steps w inc "saved_key" ++ knew /\
                  length knew = ai_tgt_len a) /\
    (exists vnew, saved_steps w1 inc "saved_value" = saved_steps w inc "saved_value" ++ vnew /\
                  length vnew = ai_tgt_len a) /\
    ai_src_len a = length (saved_steps w1 inc "saved_key") /\
    attn_state_fits w1 inc (t_bsz input) (Z.to_nat (A_proj_features self)) /\
    w_log w1 = w_log w /\ w_rng w1 = w_rng w.
Proof.
  intros Hsz Hf Hfit.
  destruct (attention_inputs_streaming_total self input attn_mask inc w Hsz Hf Hfit)
    as (a & w1 & Hrun & Hb & Hbk & Hbv & Hsr & Hbr & Hfr).
  pose proof (attention_inputs_meta _ _ _ _ _ _ _ _ (attn_shaped_wf _ Hsz) Hrun)
    as (_ & _ & _ & _ & Hfk & Hfv & _).
  pose proof Hrun as Hinv.
  apply attention_inputs_streaming in Hinv
    as (q & cur & kn & vn & _ & Hcur & Hq & _ & _ & _ & Hc & Hres & Htg & Hsq
        & Hkn & Hvn & Hk & Hv & Hsvk & Hsrc & Hw & Hl & Hr & Ham).
  rewrite (Linear_forward_shape _ _ Hf) in Hq. injection Hq as <-.
  pose proof (cursor_spec_sizes _ _ _ _ _ Hc) as (_ & _ & _ & _ & Hbn & Hfn & _).
  simpl in Hbn, Hfn.
  assert (slot w1 inc "saved_query" = Some (Some (query_not_ready cur))) as Hs1.
  { rewrite (state_written_slot _ _ _ _ _ Hw). unfold attn_dict.
    rewrite lookup_insert_ne by done. rewrite lookup_insert_ne by done.
    by rewrite lookup_insert_eq. }
  assert (slot w1 inc "saved_key" = Some (Some (ai_k a))) as Hs2.
  { rewrite (state_written_slot _ _ _ _ _ Hw). unfold attn_dict.
    rewrite lookup_insert_ne by done. by rewrite lookup_insert_eq. }
  assert (slot w1 inc "saved_value" = Some (Some (ai_v a))) as Hs3.
  { rewrite (state_written_slot _ _ _ _ _ Hw). unfold attn_dict.
    by rewrite lookup_insert_eq. }
  exists a, w1, cur. split; [done|]. split; [done|]. split; [done|]. split; [done|].
  rewrite (saved_steps_slot _ _ _ _ Hs2), (saved_steps_slot _ _ _ _ Hs3).
  split; [exists (t_steps kn); split; [done|exact Hkn]|].
  split; [exists (t_steps vn); split; [done|exact Hvn]|].
  split; [exact Hsrc|]. split; [|done].
  destruct Hsz as (_ & _ & _ & Hl1 & _).
  unfold attn_state_fits, slot_fits. rewrite Hs1, Hs2, Hs3.
  rewrite (saved_steps_slot _ _ _ _ Hs2), (saved_steps_slot _ _ _ _ Hs3).
  split_and!; try done; try congruence.
Qed.

(** A streaming call with at least one ready query, on a state that
    fits. *)
Lemma attention_streaming_total (self : SRUppTransducerAttention) (input : tensor)
    (inc : loc) (w : world) :
  attn_sized self ->
  t_feat input = lin_in (A_linear1 self) ->
  attn_state_fits w inc (t_bsz input) (Z.to_nat (A_proj_features self)) ->
  0 <= A_right_window self ->
  A_right_window self
  < Z.of_nat (length (saved_steps w inc "saved_query") + size0 input) ->
  exists out w',
    SRUppTransducerAttention_forward self input None None (Some inc) w
    = (Ok (out, Some inc), w') /\
    Z.of_nat (size0 out)
    = Z.of_nat (length (saved_steps w inc "saved_query") + size0 input)
      - A_right_window self /\
    t_bsz out = t_bsz input /\ t_feat out = lin_out (A_linear3 self) /\
    attn_state_fits w' inc (t_bsz input) (Z.to_nat (A_proj_features self)) /\
    Z.of_nat (length (saved_steps w' inc "saved_query")) = A_right_window self.
Proof.
  intros Hsz Hf Hfit Hrw Hready. pose proof (proj1 Hsz) as Hsh.
  destruct (attention_inputs_streaming_run self input None inc w Hsh Hf Hfit)
    as (a & w1 & cur & Hrun & Hc & Htg & Hsq & (kn & Hk & Hlk) & (vn & Hv & Hlv) & Hsrc
        & Hfit1 & Hl & Hr).
  pose proof (cursor_spec_lengths _ _ _ _ _ Hrw Hc) as (Hnr & Hnum & Hheld).
  unfold size0 in Hnr, Hnum, Hheld. simpl in Hnr, Hnum, Hheld.
  rewrite length_map in Hnum, Hheld.
  fold (size0 (query_ready cur)) in Hnr. fold (size0 input) in Hnum, Hheld.
  pose proof (attention_inputs_meta _ _ _ _ _ _ _ _ (attn_shaped_wf _ Hsh) Hrun)
    as (Hhd & _ & Hbq & Hfq & Hfk & Hfv & Hsvk & Htq & Hsk).
  destruct (attention_inputs_streaming_total self input None inc w Hsh Hf Hfit)
    as (a' & w1' & Hrun' & Hb & Hbk & Hbv & Hsr & Hbr & Hfr).
  rewrite Hrun in Hrun'. injection Hrun' as <- <-.
  destruct (attention_total self (ai_q a) (ai_k a) (ai_v a) (ai_residual a)
              (ai_tgt_len a) (ai_src_len a) (ai_bsz a) (ai_head_dim a) (ai_scaling a)
              None (ai_attn_mask a) w1 Hsz) as (out & w' & Hat & Hfo);
    try congruence; try lia.
  { rewrite Hsrc, Hk, length_app. lia. }
  { apply attention_inputs_streaming in Hrun
      as (? & ? & ? & ? & _ & _ & _ & _ & _ & _ & _ & _ & _ & _ & _ & _ & _ & _ & _ & _
          & _ & _ & _ & ->).
    done. }
  exists out, w'.
  pose proof Hat as Hat'. apply attention_Ok in Hat' as (Hsame & Hso & _ & Hbo & _).
  split.
  { unfold SRUppTransducerAttention_forward, SRUppTransducerAttention_locals.
    erewrite bindM_step.
    2:{ erewrite bindM_step; [|exact Hrun]. erewrite bindM_step; [|exact Hat]. done. }
    done. }
  split_and!; try done; try congruence; try lia.
  - by apply (attn_state_fits_same w1).
  - unfold saved_steps at 1. rewrite (same_dicts_slot _ _ _ _ Hsame).
    fold (saved_steps w1 inc "saved_query").
    rewrite (saved_steps_slot _ _ _ _ Hsq). lia.
Qed.

(** A streaming call without a ready query, on a state that fits. *)
Lemma attention_streaming_starved (self : SRUppTransducerAttention) (input : tensor)
    attn_mask (inc : loc) (w : world) :
  attn_shaped self ->
  t_feat input = lin_in (A_linear1 self) ->
  attn_state_fits w inc (t_bsz input) (Z.to_nat (A_proj_features self)) ->
  Z.of_nat (length (saved_steps w inc "saved_query") + size0 input)
  <= A_right_window self ->
  exists w',
    SRUppTransducerAttention_forward self input None attn_mask (Some inc) w
    = (Raise (RuntimeError msg_view_ambiguous), w') /\
    saved_steps w' inc "saved_query"
    = saved_steps w inc "saved_query"
      ++ map (Linear_rows (A_linear1 self) (t_bsz input)) (t_steps input) /\
    saved_steps w' inc "saved_key" = saved_steps w inc "saved_key" /\
    saved_steps w' inc "saved_value" = saved_steps w inc "saved_value" /\
    attn_state_fits w' inc (t_bsz input) (Z.to_nat (A_proj_features self)) /\
    w_log w' = w_log w /\ w_rng w' = w_rng w.
Proof.
  intros Hsz Hf Hfit Hstarved.
  assert (0 <= A_right_window self) as Hrw by lia.
  destruct (attention_inputs_streaming_run self input attn_mask inc w Hsz Hf Hfit)
    as (a & w1 & cur & Hrun & Hc & Htg & Hsq & (kn & Hk & Hlk) & (vn & Hv & Hlv) & Hsrc
        & Hfit1 & Hl & Hr).
  pose proof (cursor_spec_lengths _ _ _ _ _ Hrw Hc) as (Hnr & Hnum & _).
  pose proof (cursor_spec_sizes _ _ _ _ _ Hc) as (_ & Hnot & _ & _ & _ & _ & _).
  unfold size0 in Hnr, Hnum. simpl in Hnr, Hnum, Hnot. rewrite length_map in Hnum.
  fold (size0 (query_ready cur)) in Hnr. fold (size0 input) in Hnum.
  assert (ai_tgt_len a = 0%nat) as Hzero by lia.
  pose proof (attention_inputs_meta _ _ _ _ _ _ _ _ (attn_shaped_wf _ Hsz) Hrun)
    as (Hhd & _ & _ & _ & _ & _ & _ & Htq & _).
  destruct (attn_shaped_head_dim self Hsz) as (Hpos & _ & _).
  exists w1. split.
  { unfold SRUppTransducerAttention_forward, SRUppTransducerAttention_locals.
    apply bindM_raise. erewrite bindM_step; [|exact Hrun]. apply bindM_raise.
    rewrite Hzero. apply attention_empty; [lia|congruence]. }
  rewrite (saved_steps_slot _ _ _ _ Hsq), Hnot.
  replace (Z.to_nat (num_query_ready cur)) with 0%nat by lia. rewrite drop_0.
  rewrite Hzero in Hlk, Hlv. apply nil_length_inv in Hlk, Hlv. subst kn vn.
  rewrite app_nil_r in Hk, Hv. split_and!; done.
Qed.

(** A call without an incremental state on an empty input. *)
Lemma attention_forward_empty (self : SRUppTransducerAttention) (input : tensor)
    mask_pad attn_mask (w : world) :
  attn_shaped self ->
  t_feat input = lin_in (A_linear1 self) ->
  size0 input = 0%nat ->
  SRUppTransducerAttention_forward self input mask_pad attn_mask None w
  = (Raise (RuntimeError msg_view_ambiguous), w).
Proof.
  intros Hsh Hf Hlen.
  destruct (attention_inputs_full self input mask_pad attn_mask w Hsh Hf)
    as (a & Ha & Htg & _ & _ & Hhd & _ & Hsq & _).
  destruct (attn_shaped_head_dim self Hsh) as (Hpos & _ & _).
  unfold SRUppTransducerAttention_forward, SRUppTransducerAttention_locals.
  apply bindM_raise. erewrite bindM_step; [|exact Ha]. apply bindM_raise.
  rewrite Htg, Hlen. apply attention_empty; [lia|congruence].
Qed.

(** A call without [incremental_state] on a non-empty input runs into the
    first failing check of the attention computation, or returns. *)
Lemma attention_forward_checked (self : SRUppTransducerAttention) (input : tensor)
    mask_pad attn_mask (w : world) :
  attn_shaped self ->
  t_feat input = lin_in (A_linear1 self) ->
  (0 < size0 input)%nat ->
  match attention_check mask_pad attn_mask (size0 input) (size0 input) (t_bsz input)
          (A_attn_dropout self) with
  | Some e =>
      SRUppTransducerAttention_forward self input mask_pad attn_mask None w = (Raise e, w)
  | None =>
      exists out w',
        SRUppTransducerAttention_forward self input mask_pad attn_mask None w
        = (Ok (out, None), w') /\
        size0 out = size0 input /\ t_bsz out = t_bsz input /\
        t_feat out = lin_out (A_linear3 self) /\ same_dicts w w'
  end.
Proof.
  intros Hsh Hf Hlen.
  destruct (attention_inputs_full self input mask_pad attn_mask w Hsh Hf)
    as (a & Ha & Htg & Hsrc & Hb & Hhd & Ham & Hsq & Hbq & Hfq & Hsk & Hbk & Hfk
        & Hsv & Hbv & Hfv & Hsr & Hbr & Hfr).
  pose proof (attention_run self (ai_q a) (ai_k a) (ai_v a) (ai_residual a)
                (ai_tgt_len a) (ai_src_len a) (ai_bsz a) (ai_head_dim a) (ai_scaling a)
                mask_pad (ai_attn_mask a) w Hsh) as Hrun.
  rewrite Htg, Hsrc, Hb, Ham in Hrun.
  destruct (attention_check mask_pad attn_mask (size0 input) (size0 input) (t_bsz input)
              (A_attn_dropout self)) as [e|].
  - unfold SRUppTransducerAttention_forward, SRUppTransducerAttention_locals.
    apply bindM_raise. erewrite bindM_step; [|exact Ha]. apply bindM_raise.
    rewrite Htg, Hsrc, Hb, Ham. apply Hrun; try congruence; try lia.
  - destruct Hrun as (out & w' & Hat & Hfo); try congruence; try lia.
    exists out, w'.
    pose proof Hat as Hat'.
    apply attention_Ok in Hat' as (Hsame & Hso & _ & Hbo & _).
    split; [|split_and!; try done; congruence].
    unfold SRUppTransducerAttention_forward, SRUppTransducerAttention_locals.
    erewrite bindM_step.
    2:{ erewrite bindM_step; [|exact Ha]. rewrite Htg, Hsrc, Hb, Ham.
        erewrite bindM_step; [|exact Hat]. done. }
    done.
Qed.

(** With [head_dim = 0] the scaling [float(head_dim) ** -0.5] cannot be
    computed. *)
Lemma attention_forward_zero_head_dim (self : SRUppTransducerAttention) (input : tensor)
    mask_pad attn_mask inc (w : world) :
  A_num_heads self <> 0 -> A_proj_features self / A_num_heads self = 0 ->
  SRUppTransducerAttention_forward self input mask_pad attn_mask inc w
  = (Raise ZeroDivisionError, w).
Proof.
  intros Hh Hd.
  unfold SRUppTransducerAttention_forward, SRUppTransducerAttention_locals.
  apply bindM_raise, bindM_raise. unfold attention_inputs.
  apply Z.eqb_neq in Hh. rewrite Hh.
  erewrite bindM_step; [|done]. rewrite Hd. simpl. by apply bindM_raise.
Qed.

End AttentionCalls.
(** ** What a call leaves untouched *)

Section Preserved.

Context {R : Type} `{Scalar R} {Rng : Type} `{Dropper R Rng}.

Local Abbreviation tensor := (@Tensor R).
Local Abbreviation world := (@World R Rng).
Local Abbreviation comp := (@M R Rng).

Section Generic.

Context {X : Type} (f : world -> X).

Lemma preserves_ret {A} (a : A) : preserves f (ret a : comp A).
Proof. intros w r w' [= _ <-]. done. Qed.

Lemma preserves_raise {A} (e : exn) : preserves f (raise e : comp A).
Proof. intros w r w' [= _ <-]. done. Qed.

Lemma preserves_lift {A} (x : result A) : preserves f (lift x : comp A).
Proof. intros w r w' [= _ <-]. done. Qed.

Lemma preserves_assert (b : bool) : preserves f (assert_ b : comp unit).
Proof. destruct b; [apply preserves_ret | apply preserves_raise]. Qed.

Lemma preserves_dict_get (s : loc) (key : string) : preserves f (dict_get s key : comp _).
Proof. intros w r w' [= _ <-]. done. Qed.

Lemma preserves_bind {A B} (m : comp A) (k : A -> comp B) :
  preserves f m -> (forall a, preserves f (k a)) -> preserves f (bindM m k).
Proof.
  intros Hm Hk w r w'. unfold bindM. destruct (m w) as [[a|e] w1] eqn:E.
  - intros Hr. apply Hk in Hr. apply Hm in E. congruence.
  - intros [= _ <-]. by apply Hm in E.
Qed.

End Generic.

(** Dropout draws from the generator and leaves the dictionaries. *)
Lemma dicts_F_dropout (x : tensor) (p : R) (training : bool) :
  preserves dicts (F_dropout x p training).
Proof.
  intros w r w'. unfold F_dropout. destruct (bad_probability p); [by intros [= _ <-]|].
  destruct training; [|by intros [= _ <-]].
  destruct (drop_rows p (t_steps x) (w_rng w)). by intros [= _ <-].
Qed.

Lemma dicts_F_dropout_mats (x : list (list (list R))) (p : R) (training : bool) :
  preserves dicts (F_dropout_mats x p training : comp _).
Proof.
  intros w r w'. unfold F_dropout_mats. destruct (bad_probability p); [by intros [= _ <-]|].
  destruct training; [|by intros [= _ <-]].
  destruct (drop_mats p x (w_rng w)). by intros [= _ <-].
Qed.

(** Outside training mode dropout leaves the generator. *)
Lemma rng_F_dropout (x : tensor) (p : R) : preserves w_rng (F_dropout x p false).
Proof.
  unfold F_dropout. destruct (bad_probability p); [apply preserves_raise|apply preserves_ret].
Qed.

Lemma rng_F_dropout_mats (x : list (list (list R))) (p : R) :
  preserves w_rng (F_dropout_mats x p false : comp _).
Proof.
  unfold F_dropout_mats.
  destruct (bad_probability p); [apply preserves_raise|apply preserves_ret].
Qed.

(** The dictionary operations leave the generator. *)
Lemma rng_dict_set (s : loc) (key : string) (v : option tensor) :
  preserves w_rng (dict_set s key v : comp _).
Proof. intros w r w' [= _ <-]. done. Qed.

Lemma rng_outer_set (inc : loc) (key : string) (s : loc) :
  preserves w_rng (outer_set inc key s : comp _).
Proof. intros w r w' [= _ <-]. done. Qed.

Lemma rng_fetch (inc : loc) : preserves w_rng (fetch_attn_state inc : comp _).
Proof.
  intros w r w'. unfold fetch_attn_state, new_inner.
  destruct (outer_dict w inc !! "attn_state"); by intros [= _ <-].
Qed.

Ltac pres_step :=
  first
    [ apply preserves_ret | apply preserves_raise | apply preserves_lift
    | apply preserves_assert | apply preserves_dict_get
    | apply dicts_F_dropout | apply dicts_F_dropout_mats
    | apply rng_F_dropout | apply rng_F_dropout_mats
    | apply rng_dict_set | apply rng_outer_set | apply rng_fetch
    | apply preserves_bind; [|intros ?]
    | match goal with
      | |- preserves _ (match ?x with _ => _ end) => destruct x
      | |- preserves _ (if ?b then _ else _) => destruct b
      | |- preserves _ (let '(_, _) := ?p in _) => destruct p
      end ].

(** *** A call without an incremental state leaves the dictionaries *)

Lemma dicts_attention (self : SRUppTransducerAttention) (q k v residual : tensor)
    (tgt_len src_len bsz : nat) (head_dim : Z) (scaling : R) mask_pad attn_mask :
  preserves dicts (attention self q k v residual tgt_len src_len bsz head_dim scaling
                     mask_pad attn_mask : comp _).
Proof. unfold attention, Dropout_forward. repeat pres_step. Qed.

Lemma dicts_attention_forward (self : SRUppTransducerAttention) (input : tensor)
    mask_pad attn_mask :
  preserves dicts (SRUppTransducerAttention_forward self input mask_pad attn_mask None
                   : comp _).
Proof.
  unfold SRUppTransducerAttention_forward, SRUppTransducerAttention_locals,
    attention_inputs.
  repeat first [apply dicts_attention | pres_step].
Qed.

Lemma dicts_linear_forward (self : SRUppTransducerLinear) (input : tensor)
    mask_pad attn_mask :
  preserves dicts (SRUppTransducerLinear_forward self input mask_pad attn_mask None
                   : comp _).
Proof.
  unfold SRUppTransducerLinear_forward, SRUppTransducerLinear_locals,
    SRUppTransducerLinear_tail, Dropout_forward.
  repeat pres_step.
Qed.

Lemma dicts_cell_forward (self : SRUppTransducerCell) (input : tensor) c0
    mask_pad attn_mask :
  preserves dicts (SRUppTransducerCell_forward self input c0 mask_pad attn_mask None).
Proof.
  unfold SRUppTransducerCell_forward. apply preserves_bind.
  { unfold cell_dropout_mask. destruct (_ && _); [|apply preserves_ret].
    apply preserves_bind; [|intros ?; apply preserves_ret].
    intros w r w'. unfold get_dropout_mask_.
    destruct (C_get_dropout_mask_ self _ _ _). by intros [= _ <-]. }
  intros mc. apply preserves_bind.
  { destruct (C_transform_module self);
      [apply dicts_attention_forward | apply dicts_linear_forward]. }
  intros [U i]. destruct (decide _); [apply preserves_ret|].
  apply preserves_bind; [|intros ?; apply preserves_ret].
  intros w r w'. unfold apply_recurrence. destruct (recurrence _ _ _ _ _ _).
  by intros [= _ <-].
Qed.

(** *** Outside training mode a call leaves the generator *)

Lemma rng_take_saved_queries (rw : Z) (q : tensor) (inc : loc) :
  preserves w_rng (take_saved_queries rw q inc : comp _).
Proof. unfold take_saved_queries. repeat pres_step. Qed.

Lemma rng_update_saved (state inc : loc) (cur : Cursor) (k v : tensor) :
  preserves w_rng (update_saved state inc cur k v : comp _).
Proof. unfold update_saved. repeat pres_step. Qed.

Lemma rng_attention_forward (self : SRUppTransducerAttention) (input : tensor)
    mask_pad attn_mask inc :
  A_training self = false -> drop_training (A_dropout self) = false ->
  preserves w_rng (SRUppTransducerAttention_forward self input mask_pad attn_mask inc
                   : comp _).
Proof.
  intros Htr Hd.
  unfold SRUppTransducerAttention_forward, SRUppTransducerAttention_locals,
    attention_inputs, attention, Dropout_forward.
  rewrite Htr, Hd.
  repeat first [apply rng_take_saved_queries | apply rng_update_saved | pres_step].
Qed.

Lemma rng_linear_forward (self : SRUppTransducerLinear) (input : tensor)
    mask_pad attn_mask inc :
  drop_training (L_dropout self) = false ->
  preserves w_rng (SRUppTransducerLinear_forward self input mask_pad attn_mask inc
                   : comp _).
Proof.
  intros Hd.
  unfold SRUppTransducerLinear_forward, SRUppTransducerLinear_locals,
    SRUppTransducerLinear_tail, Dropout_forward.
  rewrite Hd.
  repeat first [apply rng_take_saved_queries | pres_step].
Qed.

Lemma rng_transform_forward (t : Transform) (input : tensor) mask_pad attn_mask inc :
  transform_eval_mode t ->
  preserves w_rng (transform_module_forward t input mask_pad attn_mask inc : comp _).
Proof.
  destruct t as [m|m]; simpl.
  - intros [Htr Hd]. by apply rng_attention_forward.
  - intros Hd. by apply rng_linear_forward.
Qed.

Lemma rng_cell_forward (self : SRUppTransducerCell) (input : tensor) c0
    mask_pad attn_mask inc :
  C_training self = false -> transform_eval_mode (C_transform_module self) ->
  preserves w_rng (SRUppTransducerCell_forward self input c0 mask_pad attn_mask inc).
Proof.
  intros Htr Ht. unfold SRUppTransducerCell_forward, cell_dropout_mask. rewrite Htr. simpl.
  apply preserves_bind; [apply preserves_ret|]. intros mc.
  apply preserves_bind; [by apply rng_transform_forward|].
  intros [U i]. destruct (decide _); [apply preserves_ret|].
  apply preserves_bind; [|intros ?; apply preserves_ret].
  intros w r w'. unfold apply_recurrence. destruct (recurrence _ _ _ _ _ _).
  by intros [= _ <-].
Qed.

Lemma transform_eval_mode_eval (t : @Transform R) : transform_eval_mode (Transform_eval t).
Proof. by destruct t. Qed.

End Preserved.
(** ** Calls of the linear transform return *)

Section LinearReturns.

Context {R : Type} `{Scalar R} {Rng : Type} `{Dropper R Rng}.

Local Abbreviation tensor := (@Tensor R).
Local Abbreviation world := (@World R Rng).
Local Abbreviation comp := (@M R Rng).

Lemma linear_init_sized
    (in_features out_features proj_features : Z) (dropout : R)
    (layer_norm : bool) (right_window : Z)
    (xavier1 xavier2 : list (list R)) (norm : list R -> list R) :
  0 <= in_features -> 0 <= out_features -> 0 < proj_features ->
  bad_probability dropout = false ->
  exists m,
    SRUppTransducerLinear_init in_features out_features proj_features dropout layer_norm
      right_window xavier1 xavier2 norm = Ok m /\
    lin_in (L_linear1 m) = Z.to_nat in_features /\
    lin_out (L_linear2 m) = Z.to_nat out_features /\
    L_tail_accepts m (lin_out (L_linear1 m)) /\
    L_right_window m = right_window /\
    drop_training (L_dropout m) = true /\
    (L_layer_norm m <> None <-> layer_norm = true).
Proof.
  intros Hi Ho Hp Hd. unfold SRUppTransducerLinear_init, nn_Dropout.
  rewrite Hd. simpl. rewrite !nn_Linear_Ok by lia. simpl.
  rewrite !xavier_uniform_Ok by lia. simpl.
  eexists. split; [done|]. unfold L_tail_accepts. simpl.
  destruct (rltb r0 dropout); destruct layer_norm; simpl; split_and!; try done;
    split; done.
Qed.

(** Lines 321-323 in either mode. *)
Lemma linear_tail_returns (self : SRUppTransducerLinear) (q : tensor) (w : world) :
  L_tail_accepts self (t_feat q) ->
  exists out w',
    SRUppTransducerLinear_tail self q w = (Ok out, w') /\
    size0 out = size0 q /\ t_bsz out = t_bsz q /\ t_feat out = lin_out (L_linear2 self) /\
    same_dicts w w'.
Proof.
  intros (Hln & Hp & Hf). unfold SRUppTransducerLinear_tail.
  assert (exists q1, match L_layer_norm self with
                     | Some layer_norm => lift (LayerNorm_forward layer_norm q)
                     | None => ret q
                     end w = (Ok q1, w) /\ t_feat q1 = t_feat q)
    as (q1 & Hq1 & Hf1).
  { destruct (L_layer_norm self) as [ln|]; [|by eexists].
    unfold lift, LayerNorm_forward. rewrite decide_True by done. by eexists. }
  rewrite (bindM_step _ _ _ _ _ Hq1).
  destruct (F_dropout_total q1 (drop_p (L_dropout self)) (drop_training (L_dropout self))
              w Hp) as (d & w' & Hd & _ & _ & Hfd).
  unfold Dropout_forward. rewrite (bindM_step _ _ _ _ _ Hd).
  assert (exists out, lift (Linear_forward (L_linear2 self) d) w' = (Ok out, w') /\
                      t_feat out = lin_out (L_linear2 self)) as (out & Hout & Hfo).
  { unfold lift, Linear_forward. rewrite decide_True by congruence. by eexists. }
  exists out, w'. split; [done|].
  assert (SRUppTransducerLinear_tail self q w = (Ok out, w')) as Hrun.
  { unfold SRUppTransducerLinear_tail, Dropout_forward.
    rewrite (bindM_step _ _ _ _ _ Hq1), (bindM_step _ _ _ _ _ Hd). done. }
  apply linear_tail_Ok in Hrun as (Hs & Hsz & Hb & _). done.
Qed.

Lemma linear_forward_returns (self : SRUppTransducerLinear) (input : tensor)
    mask_pad attn_mask (w : world) :
  t_feat input = lin_in (L_linear1 self) ->
  L_tail_accepts self (lin_out (L_linear1 self)) ->
  exists out w',
    SRUppTransducerLinear_forward self input mask_pad attn_mask None w
    = (Ok (out, None), w') /\
    size0 out = size0 input /\ t_bsz out = t_bsz input /\
    t_feat out = lin_out (L_linear2 self) /\ same_dicts w w'.
Proof.
  intros Hf Hacc.
  set (q := mkTensor (t_bsz input) (lin_out (L_linear1 self))
              (map (Linear_rows (L_linear1 self) (t_bsz input)) (t_steps input))).
  destruct (linear_tail_returns self q w Hacc) as (out & w' & Hrun & Hs & Hb & Hfo & Hsame).
  exists out, w'. split.
  - unfold SRUppTransducerLinear_forward, SRUppTransducerLinear_locals.
    erewrite bindM_step.
    2:{ erewrite bindM_lift; [|by apply Linear_forward_shape]. fold q.
        erewrite bindM_step; [|done]. simpl.
        erewrite bindM_step; [|exact Hrun]. done. }
    done.
  - split_and!; try done. rewrite Hs. unfold size0. simpl. by rewrite length_map.
Qed.

Lemma linear_streaming_returns (self : SRUppTransducerLinear) (chunk : tensor)
    attn_mask (inc : loc) (w : world) :
  0 <= L_right_window self ->
  t_feat chunk = lin_in (L_linear1 self) ->
  L_tail_accepts self (lin_out (L_linear1 self)) ->
  saved_query_fits w inc (t_bsz chunk) (lin_out (L_linear1 self)) ->
  let all := saved_steps w inc "saved_query"
             ++ map (Linear_rows (L_linear1 self) (t_bsz chunk)) (t_steps chunk) in
  let n := Z.to_nat (Z.max 0 (Z.of_nat (length all) - L_right_window self)) in
  exists out w',
    SRUppTransducerLinear_forward self chunk None attn_mask (Some inc) w
    = (Ok (out, Some inc), w') /\
    size0 out = n /\ t_bsz out = t_bsz chunk /\ t_feat out = lin_out (L_linear2 self) /\
    saved_steps w' inc "saved_query" = drop n all /\
    saved_query_fits w' inc (t_bsz chunk) (lin_out (L_linear1 self)) /\
    w_log w' = w_log w.
Proof.
  intros Hrw Hf Hacc Hfit all n.
  set (q := mkTensor (t_bsz chunk) (lin_out (L_linear1 self))
              (map (Linear_rows (L_linear1 self) (t_bsz chunk)) (t_steps chunk))).
  destruct (take_saved_queries_total (L_right_window self) q inc w Hfit)
    as (s & cur & w1 & Htk).
  pose proof Htk as Htk'.
  apply take_saved_queries_Ok in Htk' as (_ & _ & _ & _ & _ & _ & _ & Hc).
  pose proof (cursor_spec_sizes _ _ _ _ _ Hc) as (_ & _ & Hbr & Hfr & _).
  simpl in Hbr, Hfr.
  assert (exists out lc w',
            SRUppTransducerLinear_locals self chunk None attn_mask (Some inc) w
            = (Ok (out, Some inc, lc), w') /\ t_feat out = lin_out (L_linear2 self))
    as (out & lc & w' & Hrun & Hfo).
  { unfold SRUppTransducerLinear_locals.
    erewrite bindM_lift; [|by apply Linear_forward_shape]. fold q.
    erewrite bindM_step.
    2:{ erewrite bindM_step; [|done].
        erewrite bindM_step; [|exact Htk].
        erewrite bindM_step; [|unfold dict_set; done].
        erewrite bindM_step; [|unfold outer_set; done].
        done. }
    simpl.
    destruct (linear_tail_returns self (query_ready cur)
                (mkWorld (<[inc:=<["attn_state":=s]> (outer_dict
                   (mkWorld (w_outer w1)
                      (<[s:=<["saved_query":=Some (query_not_ready cur)]> (inner_dict w1 s)]>
                         (w_inner w1)) (w_rng w1) (w_log w1)) inc)]> (w_outer w1))
                   (<[s:=<["saved_query":=Some (query_not_ready cur)]> (inner_dict w1 s)]>
                      (w_inner w1)) (w_rng w1) (w_log w1)))
      as (out & w' & Ht & _ & _ & Hfo & _); [by rewrite Hfr|].
    erewrite bindM_step; [|exact Ht]. by eexists _, _, _. }
  exists out, w'. split.
  { unfold SRUppTransducerLinear_forward. by erewrite bindM_step; [|exact Hrun]. }
  apply linear_streaming_call in Hrun
    as (q' & cur' & _ & _ & _ & Hq' & _ & Hc' & Hw & Hlog & Hso & Hbo & _).
  rewrite (Linear_forward_shape _ _ Hf) in Hq'. injection Hq' as <-. fold q in Hc'.
  pose proof (cursor_spec_sizes _ _ _ _ _ Hc')
    as (Hready & Hnot & _ & _ & Hbn & Hfn & Hnum).
  simpl in Hready, Hnot, Hbn, Hfn, Hnum. fold all in Hready, Hnot, Hnum.
  assert (slot w' inc "saved_query" = Some (Some (query_not_ready cur'))) as Hslot.
  { rewrite (state_written_slot _ _ _ _ _ Hw). by rewrite lookup_insert_eq. }
  split_and!; try done.
  - rewrite Hso. unfold size0. rewrite Hready, length_take, Hnum. subst n. lia.
  - by rewrite (saved_steps_slot _ _ _ _ Hslot), Hnot, Hnum.
  - unfold saved_query_fits. by rewrite Hslot.
Qed.

End LinearReturns.
(** ** The cell: construction, and calls around each transform *)

Section CellCalls.

Context {R : Type} `{Scalar R} {Rng : Type} `{Dropper R Rng}.

Local Abbreviation tensor := (@Tensor R).
Local Abbreviation world := (@World R Rng).
Local Abbreviation cell := (@SRUppTransducerCell R Rng).

Lemma cell_init_cases
    (input_size hidden_size projection_size num_heads : Z)
    (dropout attn_dropout : R)
    (layer_norm normalize_after has_attention : bool) (right_window : Z)
    (xavier1 xavier2 xavier3 : list (list R)) (norm : list R -> list R)
    (weight_c : list R)
    (get_mask : Rng -> nat * nat -> R -> Tensor2 R * Rng)
    (step : list R -> option (Tensor2 R) -> option (list bool) ->
            list R -> list R -> Tensor2 R -> list R * Tensor2 R) :
  0 <= input_size -> 0 <= hidden_size -> 0 < projection_size ->
  bad_probability dropout = false ->
  let r : result cell :=
    SRUppTransducerCell_init input_size hidden_size projection_size num_heads
      dropout attn_dropout layer_norm normalize_after has_attention right_window
      xavier1 xavier2 xavier3 norm weight_c get_mask step in
  (has_attention = false ->
   exists c m,
     r = Ok c /\ C_transform_module c = TLinear m /\
     L_right_window m = right_window /\
     lin_in (L_linear1 m) = Z.to_nat input_size /\
     lin_out (L_linear2 m) = Z.to_nat hidden_size /\
     C_output_size c = Z.to_nat hidden_size /\ C_training c = true) /\
  (has_attention = true -> num_heads = 0 -> r = Raise ZeroDivisionError) /\
  (has_attention = true -> num_heads <> 0 -> projection_size mod num_heads <> 0 ->
   r = Raise (ValueError msg_divisible)) /\
  (has_attention = true -> num_heads <> 0 -> projection_size mod num_heads = 0 ->
   exists c m,
     r = Ok c /\ C_transform_module c = TAttention m /\
     A_right_window m = right_window /\ A_num_heads m = num_heads /\
     A_alpha m = r0 /\
     lin_in (A_linear1 m) = Z.to_nat input_size /\
     lin_out (A_linear3 m) = Z.to_nat hidden_size /\
     C_output_size c = Z.to_nat hidden_size /\ C_training c = true).
Proof.
  intros Hi Hh Hp Hd. simpl. unfold SRUppTransducerCell_init. split_and!.
  - intros ->.
    destruct (linear_init_sized input_size hidden_size projection_size dropout layer_norm
                right_window xavier1 xavier2 norm Hi Hh Hp Hd)
      as (m & -> & Hin & Hout & _ & Hrw & _). simpl.
    by eexists _, m.
  - intros -> ->.
    destruct (attention_init_cases input_size hidden_size projection_size 0 dropout
                attn_dropout r0 layer_norm normalize_after right_window
                xavier1 xavier2 xavier3 norm Hi Hh ltac:(lia) Hd) as (Hz & _).
    simpl in Hz. by rewrite (Hz eq_refl).
  - intros -> Hn Hm.
    destruct (attention_init_cases input_size hidden_size projection_size num_heads dropout
                attn_dropout r0 layer_norm normalize_after right_window
                xavier1 xavier2 xavier3 norm Hi Hh ltac:(lia) Hd) as (_ & Hbad & _).
    simpl in Hbad. by rewrite (Hbad Hn Hm).
  - intros -> Hn Hm. simpl.
    unfold SRUppTransducerAttention_init, nn_Dropout.
    rewrite Hd. simpl. rewrite !nn_Linear_Ok by lia. simpl.
    destruct (Z.eqb_spec num_heads 0); [done|].
    destruct (Z.eqb_spec (projection_size mod num_heads) 0); [|done]. simpl.
    rewrite !xavier_uniform_Ok by lia. simpl.
    eexists _, _. split; [done|]. simpl. split; [done|].
    destruct (rltb r0 dropout); simpl; split_and!; done.
Qed.

(** What the cell does with the outcome of its transform. *)
Lemma cell_forward_raise (self : cell) (input : tensor) c0 mask_pad attn_mask inc
    (w w0 w1 : world) mask_c (e : exn) :
  cell_dropout_mask self (t_bsz input) w = (Ok mask_c, w0) ->
  transform_module_forward (C_transform_module self) input mask_pad attn_mask inc w0
  = (Raise e, w1) ->
  SRUppTransducerCell_forward self input c0 mask_pad attn_mask inc w = (Raise e, w1).
Proof.
  intros Hm Ht. unfold SRUppTransducerCell_forward.
  rewrite (bindM_step _ _ _ _ _ Hm). by apply bindM_raise.
Qed.

Lemma cell_forward_empty (self : cell) (input : tensor) c0 mask_pad attn_mask inc
    (w w0 w1 : world) mask_c (U : tensor) inc' :
  cell_dropout_mask self (t_bsz input) w = (Ok mask_c, w0) ->
  transform_module_forward (C_transform_module self) input mask_pad attn_mask inc w0
  = (Ok (U, inc'), w1) ->
  numel U = 0%nat ->
  SRUppTransducerCell_forward self input c0 mask_pad attn_mask inc w
  = (Ok (zeros3 0 (t_bsz input) (C_output_size self),
         from_option id (zeros2 (t_bsz input) (C_output_size self)) c0, inc'), w1).
Proof.
  intros Hm Ht Hz. unfold SRUppTransducerCell_forward.
  rewrite (bindM_step _ _ _ _ _ Hm), (bindM_step _ _ _ _ _ Ht).
  rewrite decide_True by done. by destruct c0.
Qed.

Lemma cell_forward_recurrence (self : cell) (input : tensor) c0 mask_pad attn_mask inc
    (w w0 w1 : world) mask_c (U : tensor) inc' :
  cell_dropout_mask self (t_bsz input) w = (Ok mask_c, w0) ->
  transform_module_forward (C_transform_module self) input mask_pad attn_mask inc w0
  = (Ok (U, inc'), w1) ->
  numel U <> 0%nat ->
  exists h c w2,
    SRUppTransducerCell_forward self input c0 mask_pad attn_mask inc w
    = (Ok (h, c, inc'), w2) /\
    w_log w2 = EvRecurrence (size0 U) :: w_log w1 /\
    dicts w2 = dicts w1 /\ w_rng w2 = w_rng w1 /\
    t_bsz h = t_bsz U /\ t_feat h = C_output_size self.
Proof.
  intros Hm Ht Hz. unfold SRUppTransducerCell_forward.
  rewrite (bindM_step _ _ _ _ _ Hm), (bindM_step _ _ _ _ _ Ht).
  rewrite decide_False by done.
  unfold bindM, apply_recurrence. destruct (recurrence _ _ _ _ _ _).
  by eexists _, _, _.
Qed.

End CellCalls.
(** ** Two incremental states in one store *)

Section TwoStates.

Context {R : Type} `{Scalar R} {Rng : Type} `{Dropper R Rng}.

Local Abbreviation tensor := (@Tensor R).
Local Abbreviation world := (@World R Rng).

(** A streaming call of either transform that returns has written one
    inner dictionary through its incremental state. *)
Lemma transform_state_written (t : Transform) (input : tensor) mask_pad attn_mask
    (inc : loc) (w w' : world) out inc' :
  transform_module_forward t input mask_pad attn_mask (Some inc) w = (Ok (out, inc'), w') ->
  exists d', state_written w w' inc d'.
Proof.
  destruct t as [m|m]; simpl; intros Hrun.
  - apply attention_forward_locals in Hrun as [L Hrun].
    apply attention_streaming_call in Hrun
      as (q & cur & k & v & kn & vn & _ & _ & _ & _ & _ & _ & _ & _ & _ & _ & _ & _ & _ & _
          & _ & _ & Hw & _).
    eauto.
  - apply linear_forward_locals in Hrun as [lc Hrun].
    apply linear_streaming_call in Hrun as (q & cur & _ & _ & _ & _ & _ & _ & Hw & _).
    eauto.
Qed.

Lemma state_written_other (w w' : world) (inc inc2 : loc) d' :
  state_written w w' inc d' -> inc2 <> inc ->
  outer_dict w' inc2 = outer_dict w inc2 /\
  forall s2, outer_dict w inc !! "attn_state" <> Some s2 -> is_Some (w_inner w !! s2) ->
             inner_dict w' s2 = inner_dict w s2.
Proof.
  intros (s & Hs & Ho & Hi) Hne. split.
  - unfold outer_dict. rewrite Ho. by rewrite lookup_insert_ne.
  - intros s2 Hs2 [d2 Hd2]. unfold inner_dict. rewrite Hi.
    rewrite lookup_insert_ne; [done|].
    intros <-. destruct Hs as [Hs|[_ Hs]]; congruence.
Qed.

Lemma state_written_alias (w w' : world) (inc inc2 : loc) d' (s : loc) :
  state_written w w' inc d' -> inc2 <> inc ->
  outer_dict w inc !! "attn_state" = Some s ->
  outer_dict w inc2 !! "attn_state" = Some s ->
  forall key, slot w' inc2 key = d' !! key.
Proof.
  intros (s0 & Hs & Ho & Hi) Hne H1 H2 key.
  assert (s0 = s) as -> by (destruct Hs as [Hs|[Hs _]]; congruence).
  unfold slot, attn_state_of, outer_dict, inner_dict. rewrite Ho, Hi.
  rewrite lookup_insert_ne by done.
  unfold outer_dict in H2. rewrite H2. simpl. by rewrite lookup_insert_eq.
Qed.

End TwoStates.
(** ** The queue of queries over a session *)

Section Queue.

Context {R : Type} `{Scalar R} {Rng : Type} `{Dropper R Rng}.

Local Abbreviation tensor := (@Tensor R).
Local Abbreviation world := (@World R Rng).

Lemma cursor_of_call_Ok (t : Transform) (chunk : tensor) attn_mask (inc : loc)
    (w w' : world) c inc' :
  0 <= transform_right_window t ->
  cursor_of_call t chunk attn_mask (Some inc) w = (Ok (c, inc'), w') ->
  let all := saved_steps w inc "saved_query"
             ++ map (Linear_rows (transform_linear1 t) (t_bsz chunk)) (t_steps chunk) in
  let n := Z.to_nat (Z.max 0 (Z.of_nat (length all) - transform_right_window t)) in
  inc' = Some inc /\
  ready_frames c = take n all /\
  saved_steps w' inc "saved_query" = drop n all.
Proof.
  intros Hrw Hrun. unfold cursor_of_call in Hrun.
  apply bindM_Ok in Hrun as ([[o i] lc] & w1 & Hrun & Hret).
  apply ret_Ok in Hret as [Heq ->]. simpl in Heq. injection Heq as E1 E2. subst c inc'.
  apply transform_locals_streaming in Hrun
    as (q & cur & _ & -> & -> & Hq & Hc & Hslot & _).
  apply Linear_forward_Ok in Hq as [_ ->].
  pose proof (cursor_spec_sizes _ _ _ _ _ Hc) as (Hready & Hnot & _ & _ & _ & _ & Hnum).
  simpl in *. rewrite (saved_steps_slot _ _ _ _ Hslot), Hready, Hnot, Hnum. done.
Qed.

(** Whatever the partition into chunks, the ready queries of the calls
    so far are the queue of queries up to its last [right_window]
    entries, which are the saved queries. *)
Lemma cursor_stream (t : Transform) (chunks : list (tensor * option (Tensor2 R)))
    (inc : loc) (w w' : world) cs inc' :
  0 <= transform_right_window t ->
  Z.of_nat (length (saved_steps w inc "saved_query")) <= transform_right_window t ->
  stream (cursor_of_call t) chunks (Some inc) w = (Ok (cs, inc'), w') ->
  let all := saved_steps w inc "saved_query" ++ projected (transform_linear1 t) chunks in
  let n := Z.to_nat (Z.max 0 (Z.of_nat (length all) - transform_right_window t)) in
  inc' = Some inc /\
  concat (map ready_frames cs) = take n all /\
  saved_steps w' inc "saved_query" = drop n all.
Proof.
  intros Hrw. revert w cs.
  induction chunks as [|[chunk am] chunks IH]; intros w cs Hheld Hrun.
  - apply ret_Ok in Hrun as [Heq ->]. injection Heq as E1 E2. subst cs inc'. simpl.
    unfold projected. simpl. rewrite app_nil_r.
    replace (Z.to_nat _) with 0%nat by lia. by rewrite take_0, drop_0.
  - simpl in Hrun.
    apply bindM_Ok in Hrun as ([c i1] & w1 & Hc & Hrun).
    apply bindM_Ok in Hrun as ([cs' i2] & w2 & Hs & Hrun).
    apply ret_Ok in Hrun as [Heq ->]. simpl in *. injection Heq as E1 E2. subst cs inc'.
    apply (cursor_of_call_Ok _ _ _ _ _ _ _ _ Hrw) in Hc as (-> & Hready & Hsv).
    apply IH in Hs as (-> & Hrest & Hsv'); [|rewrite Hsv, length_drop; lia]. simpl in *.
    set (sv := saved_steps w inc "saved_query") in *.
    set (q1 := map (Linear_rows (transform_linear1 t) (t_bsz chunk)) (t_steps chunk)) in *.
    set (n1 := Z.to_nat (Z.max 0 (Z.of_nat (length (sv ++ q1)) - transform_right_window t)))
      in *.
    assert (n1 <= length (sv ++ q1))%nat as Hn1 by lia.
    rewrite Hsv in Hrest, Hsv'.
    unfold projected in *. simpl. fold q1.
    set (rest := concat (map (fun c : tensor * option (Tensor2 R) =>
                                map (Linear_rows (transform_linear1 t) (t_bsz c.1))
                                  (t_steps c.1)) chunks)) in *.
    rewrite app_assoc.
    set (n2 := Z.to_nat (Z.max 0 (Z.of_nat (length (drop n1 (sv ++ q1) ++ rest))
                                  - transform_right_window t))) in *.
    assert (Z.to_nat (Z.max 0 (Z.of_nat (length ((sv ++ q1) ++ rest))
                               - transform_right_window t)) = (n1 + n2)%nat) as ->.
    { subst n1 n2. rewrite !length_app, length_drop, length_app. lia. }
    rewrite Hready, Hrest, Hsv'.
    rewrite take_app_drop by done. rewrite drop_app_drop by done. done.
Qed.

Lemma transform_forward_locals (t : Transform) (input : tensor) mask_pad attn_mask inc
    (w w' : world) out inc' :
  transform_module_forward t input mask_pad attn_mask inc w = (Ok (out, inc'), w') ->
  exists lc, transform_locals t input mask_pad attn_mask inc w = (Ok (out, inc', lc), w').
Proof.
  destruct t as [m|m]; simpl; intros Hrun.
  - apply attention_forward_locals in Hrun as [L Hrun].
    exists (al_cursor L). by erewrite bindM_step; [|exact Hrun].
  - by apply linear_forward_locals in Hrun.
Qed.

(** With [right_window <= 0] nothing is held back. *)
Lemma no_window_call (t : Transform) (input : tensor) mask_pad attn_mask (inc : loc)
    (w w' : world) out inc' :
  transform_right_window t <= 0 ->
  transform_module_forward t input mask_pad attn_mask (Some inc) w = (Ok (out, inc'), w') ->
  size0 out = (length (saved_steps w inc "saved_query") + size0 input)%nat /\
  (exists nr, slot w' inc "saved_query" = Some (Some nr) /\ size0 nr = 0%nat) /\
  saved_steps w' inc "saved_query" = [].
Proof.
  intros Hrw Hrun. apply transform_forward_locals in Hrun as [lc Hrun].
  apply transform_locals_streaming in Hrun
    as (q & cur & _ & -> & -> & Hq & Hc & Hslot & Hout).
  apply Linear_forward_Ok in Hq as [_ ->].
  pose proof (cursor_spec_sizes _ _ _ _ _ Hc) as (Hready & Hnot & _ & _ & _ & _ & Hnum).
  simpl in *.
  set (all := saved_steps w inc "saved_query"
              ++ map (Linear_rows (transform_linear1 t) (t_bsz input)) (t_steps input)) in *.
  assert (length all <= Z.to_nat (num_query_ready cur))%nat as Hall by lia.
  rewrite take_ge in Hready by done. rewrite drop_ge in Hnot by done.
  split_and!.
  - rewrite Hout. unfold size0. rewrite Hready. subst all.
    by rewrite length_app, length_map.
  - exists (query_not_ready cur). split; [done|]. unfold size0. by rewrite Hnot.
  - by rewrite (saved_steps_slot _ _ _ _ Hslot).
Qed.

End Queue.
(** ** The cached keys and values over a session *)

Section Cache.

Context {R : Type} `{Scalar R} {Rng : Type} `{Dropper R Rng}.

Local Abbreviation tensor := (@Tensor R).
Local Abbreviation world := (@World R Rng).

(** Lines 147-153, frame by frame. *)
Lemma key_value_frames (self : SRUppTransducerAttention) (q q1 k v : tensor)
    (w w1 w2 : world) :
  match A_layer_norm self with
  | Some layer_norm =>
      if negb (A_normalize_after self)
      then lift (LayerNorm_forward layer_norm q)
      else ret q
  | None => ret q
  end w = (Ok q1, w1) ->
  bindM (lift (Linear_forward (A_linear2 self) q1)) (fun x => lift (chunk2 x)) w1
  = (Ok (k, v), w2) ->
  t_steps k = map (fun fr => (A_kv_frame self (t_bsz q) fr).1) (t_steps q) /\
  t_steps v = map (fun fr => (A_kv_frame self (t_bsz q) fr).2) (t_steps q).
Proof.
  intros Hln Hkv.
  assert (t_bsz q1 = t_bsz q /\
          t_steps q1 = map (fun fr => match A_layer_norm self with
                                      | Some layer_norm =>
                                          if negb (A_normalize_after self)
                                          then LayerNorm_rows layer_norm (t_bsz q) fr
                                          else fr
                                      | None => fr
                                      end) (t_steps q)) as [Hb1 Hs1].
  { destruct (A_layer_norm self) as [ln|].
    - destruct (negb (A_normalize_after self)).
      + apply lift_Ok in Hln as [Hln _]. apply LayerNorm_forward_Ok in Hln as [_ ->]. done.
      + apply ret_Ok in Hln as [-> _]. by rewrite map_id.
    - apply ret_Ok in Hln as [-> _]. by rewrite map_id. }
  apply bindM_Ok in Hkv as (x & w3 & Hl2 & Hch).
  apply lift_Ok in Hl2 as [Hl2 ->]. apply lift_Ok in Hch as [Hch _].
  apply Linear_forward_Ok in Hl2 as [_ ->].
  unfold chunk2 in Hch. simpl in Hch. case_decide; [done|].
  injection Hch as <- <-. simpl. rewrite Hs1, Hb1, !map_map. done.
Qed.

(** What a streaming call puts in front of the new keys and values, and
    what the new ones are. *)
Lemma attention_inputs_cache (self : SRUppTransducerAttention) (input : tensor)
    mask_pad attn_mask (inc : loc) (w w' : world) (a : AttnInputs) :
  attention_inputs self input mask_pad attn_mask (Some inc) w = (Ok a, w') ->
  t_steps (ai_k a)
  = saved_steps w inc "saved_key"
    ++ map (fun fr => (A_kv_frame self (t_bsz input) fr).1) (ready_frames (ai_cursor a)) /\
  t_steps (ai_v a)
  = saved_steps w inc "saved_value"
    ++ map (fun fr => (A_kv_frame self (t_bsz input) fr).2) (ready_frames (ai_cursor a)).
Proof.
  unfold attention_inputs. intros Hrun.
  apply bindM_Ok in Hrun as (hd & w0 & Hhd & Hrun).
  assert (w0 = w) as ->.
  { destruct (A_num_heads self =? 0); [done|]. by apply ret_Ok in Hhd as [_ ->]. }
  apply bindM_Ok in Hrun as (sc & w0 & Hsc & Hrun).
  assert (w0 = w) as ->.
  { destruct (hd =? 0); [done|]. by apply ret_Ok in Hsc as [_ ->]. }
  apply bindM_Ok in Hrun as (q & w0 & Hq & Hrun). apply lift_Ok in Hq as [Hq ->].
  apply bindM_Ok in Hrun as ([[[qr tgt] am'] sco] & w1 & Hst & Hrun).
  apply bindM_Ok in Hst as ([] & w2 & Has & Hst). apply assert_Ok in Has as [Hmp ->].
  apply bindM_Ok in Hst as ([s cur] & w3 & Htk & Hst).
  apply take_saved_queries_Ok in Htk as (Hd & Ho & Hr & Hl & Hal & Hins & Hnn & Hc).
  apply ret_Ok in Hst as [Heq ->]. injection Heq as -> -> -> ->.
  apply bindM_Ok in Hrun as (q1 & w4 & Hln & Hrun).
  apply bindM_Ok in Hrun as ([k0 v0] & w5 & Hkv & Hrun).
  destruct (key_value_frames _ _ _ _ _ _ _ _ Hln Hkv) as [Hk0 Hv0].
  apply bindM_Ok in Hrun as ([[k v] src] & w6 & Hup & Hrun).
  apply bindM_Ok in Hup as ([k' v'] & w7 & Hup & Hret).
  apply ret_Ok in Hret as [Heq ->]. injection Heq as -> -> ->. simpl in Hup.
  apply pre_layer_norm_Ok in Hln as (-> & _).
  apply bindM_Ok in Hkv as (x & w8 & Hl2 & Hch).
  apply lift_Ok in Hl2 as [_ ->]. apply lift_Ok in Hch as [_ ->].
  apply update_saved_Ok in Hup as (_ & _ & Hks & Hvs & _).
  apply ret_Ok in Hrun as [-> ->]. simpl.
  pose proof (cursor_spec_sizes _ _ _ _ _ Hc) as (_ & _ & Hbr & _).
  apply Linear_forward_Ok in Hq as [_ ->]. simpl in Hbr.
  rewrite Hd in Hks, Hvs. rewrite Hbr in Hk0, Hv0.
  unfold saved_steps. rewrite !slot_state_dict. by rewrite Hks, Hvs, Hk0, Hv0.
Qed.

Lemma attention_call_cache (self : SRUppTransducerAttention) (chunk : tensor) attn_mask
    (inc : loc) (w w' : world) out L inc' :
  attention_call self chunk attn_mask (Some inc) w = (Ok (out, L, inc'), w') ->
  inc' = Some inc /\
  saved_steps w' inc "saved_key"
  = saved_steps w inc "saved_key"
    ++ map (fun fr => (A_kv_frame self (t_bsz chunk) fr).1) (ready_frames (al_cursor L)) /\
  saved_steps w' inc "saved_value"
  = saved_steps w inc "saved_value"
    ++ map (fun fr => (A_kv_frame self (t_bsz chunk) fr).2) (ready_frames (al_cursor L)).
Proof.
  intros Hrun. apply attention_call_Ok in Hrun.
  pose proof Hrun as Hinv.
  apply attention_locals_Ok in Hinv as (a & w1 & Ha & Hat & -> & ->). simpl.
  destruct (attention_inputs_cache _ _ _ _ _ _ _ _ Ha) as [Hk Hv].
  apply attention_Ok in Hat as (Hsame & _).
  apply attention_inputs_streaming in Ha
    as (q & cur & kn & vn & _ & _ & _ & _ & _ & _ & _ & _ & _ & _ & _ & _ & _ & _ & _ & _
        & Hw & _).
  assert (slot w' inc "saved_key" = Some (Some (ai_k a))) as Hs2.
  { rewrite (same_dicts_slot _ _ _ _ Hsame), (state_written_slot _ _ _ _ _ Hw).
    unfold attn_dict. rewrite lookup_insert_ne by done. by rewrite lookup_insert_eq. }
  assert (slot w' inc "saved_value" = Some (Some (ai_v a))) as Hs3.
  { rewrite (same_dicts_slot _ _ _ _ Hsame), (state_written_slot _ _ _ _ _ Hw).
    unfold attn_dict. by rewrite lookup_insert_eq. }
  by rewrite (saved_steps_slot _ _ _ _ Hs2), (saved_steps_slot _ _ _ _ Hs3).
Qed.

Lemma attention_stream_cache (self : SRUppTransducerAttention) (bsz feat : nat)
    (pieces : list (list (list R))) (inc : loc) (w w' : world) xs inc' :
  stream (attention_call self) (chunk_calls bsz feat pieces) (Some inc) w
  = (Ok (xs, inc'), w') ->
  let ready := concat (map (fun x : tensor * AttnLocals => ready_frames (al_cursor x.2)) xs) in
  inc' = Some inc /\
  saved_steps w' inc "saved_key"
  = saved_steps w inc "saved_key" ++ map (fun fr => (A_kv_frame self bsz fr).1) ready /\
  saved_steps w' inc "saved_value"
  = saved_steps w inc "saved_value" ++ map (fun fr => (A_kv_frame self bsz fr).2) ready.
Proof.
  revert w xs. induction pieces as [|p pieces IH]; intros w xs Hrun; simpl in Hrun.
  - apply ret_Ok in Hrun as [Heq ->]. injection Heq as E1 E2. subst xs inc'. simpl.
    by rewrite !app_nil_r.
  - apply bindM_Ok in Hrun as ([[o L] i1] & w1 & Hc & Hrun).
    apply bindM_Ok in Hrun as ([xs' i2] & w2 & Hs & Hrun).
    apply ret_Ok in Hrun as [Heq ->]. simpl in *. injection Heq as E1 E2. subst xs inc'.
    apply attention_call_cache in Hc as (-> & Hk & Hv).
    apply IH in Hs as (-> & Hk' & Hv'). simpl in *.
    rewrite Hk', Hv', Hk, Hv, !map_app, !app_assoc. done.
Qed.

Lemma attention_stream_cursors (self : SRUppTransducerAttention)
    (chunks : list (tensor * option (Tensor2 R))) (inc0 : option loc) (w w' : world) xs inc' :
  stream (attention_call self) chunks inc0 w = (Ok (xs, inc'), w') ->
  stream (cursor_of_call (TAttention self)) chunks inc0 w
  = (Ok (map (fun x : tensor * AttnLocals => al_cursor x.2) xs, inc'), w').
Proof.
  revert inc0 w xs. induction chunks as [|[chunk am] chunks IH]; intros inc0 w xs Hrun;
    simpl in *.
  - apply ret_Ok in Hrun as [Heq ->]. injection Heq as E1 E2. by subst xs inc'.
  - apply bindM_Ok in Hrun as ([[o L] i1] & w1 & Hc & Hrun).
    apply bindM_Ok in Hrun as ([xs' i2] & w2 & Hs & Hrun).
    apply ret_Ok in Hrun as [Heq ->]. simpl in *. injection Heq as E1 E2. subst xs inc'.
    apply attention_call_Ok in Hc. apply IH in Hs.
    erewrite bindM_step.
    2:{ unfold cursor_of_call, transform_locals.
        erewrite bindM_step; [|erewrite bindM_step; [|exact Hc]; done]. done. }
    simpl. erewrite bindM_step; [|exact Hs]. done.
Qed.

Lemma projected_chunk_calls (l : Linear) (bsz feat : nat) (pieces : list (list (list R))) :
  projected l (chunk_calls bsz feat pieces) = map (Linear_rows l bsz) (concat pieces).
Proof.
  unfold projected, chunk_calls. induction pieces as [|p pieces IH]; simpl; [done|].
  by rewrite map_app, IH.
Qed.

End Cache.
(** ** Streaming sessions of the attention transform *)

Section AttentionSession.

Context {R : Type} `{Scalar R} {Rng : Type} `{Dropper R Rng}.

Local Abbreviation tensor := (@Tensor R).
Local Abbreviation world := (@World R Rng).

Lemma attention_check_dropout mask_pad (attn_mask : option (Tensor2 R))
    (tgt_len src_len bsz : nat) (p : R) :
  masks_fit mask_pad attn_mask tgt_len src_len bsz -> bad_probability p = true ->
  attention_check mask_pad attn_mask tgt_len src_len bsz p = Some (ValueError msg_dropout_p).
Proof.
  intros [Ham Hmp] Hp. unfold attention_check. rewrite Hp.
  destruct attn_mask as [am|], mask_pad as [mp|]; simpl;
    rewrite ?bool_decide_eq_true_2 by done; done.
Qed.

Lemma attention_check_attn_mask mask_pad (am : Tensor2 R)
    (tgt_len src_len bsz : nat) (p : R) :
  size2 am <> [tgt_len; src_len] ->
  attention_check mask_pad (Some am) tgt_len src_len bsz p = Some (ValueError msg_attn_mask).
Proof.
  intros Hbad. unfold attention_check. simpl.
  by rewrite bool_decide_eq_false_2 by done.
Qed.

Lemma attention_check_mask_pad (mp : Tensor2 bool) (attn_mask : option (Tensor2 R))
    (tgt_len src_len bsz : nat) (p : R) :
  size2 mp <> [src_len; bsz] ->
  from_option (fun am => size2 am = [tgt_len; src_len]) True attn_mask ->
  attention_check (Some mp) attn_mask tgt_len src_len bsz p = Some (ValueError msg_mask_pad).
Proof.
  intros Hbad Ham. unfold attention_check.
  destruct attn_mask as [am|]; simpl in *;
    rewrite ?(bool_decide_eq_true_2 _ Ham); simpl;
    by rewrite bool_decide_eq_false_2 by done.
Qed.

Lemma pieces_cases (pieces : list (list (list R))) :
  Forall (fun p => p <> []) pieces \/ Exists (fun p => p = []) pieces.
Proof.
  induction pieces as [|p rest IH]; [left; constructor|].
  destruct p as [|fr p]; [right; by constructor|].
  destruct IH as [IH|IH]; [left|right]; by constructor.
Qed.

Lemma new_outer_attn_fits (w w0 : world) (inc : loc) (bsz proj : nat) :
  new_outer w = (Ok inc, w0) ->
  attn_state_fits w0 inc bsz proj /\ saved_steps w0 inc "saved_query" = [].
Proof.
  intros Hn. apply new_outer_fresh in Hn as (_ & _ & Hslot).
  unfold attn_state_fits, slot_fits, saved_steps. rewrite !Hslot. done.
Qed.

(** Once the state holds [right_window] queries, every chunk that is not
    empty has a ready query. *)
Lemma attention_stream_returns (self : SRUppTransducerAttention) (bsz : nat)
    (pieces : list (list (list R))) (inc : loc) (w : world) :
  attn_sized self -> 0 <= A_right_window self ->
  attn_state_fits w inc bsz (Z.to_nat (A_proj_features self)) ->
  Z.of_nat (length (saved_steps w inc "saved_query")) = A_right_window self ->
  Forall (fun p => p <> []) pieces ->
  exists outs w',
    stream (transform_call (TAttention self))
      (chunk_calls bsz (lin_in (A_linear1 self)) pieces) (Some inc) w
    = (Ok (outs, Some inc), w') /\
    map size0 outs = map length pieces /\
    Forall (fun out => t_bsz out = bsz /\ t_feat out = lin_out (A_linear3 self)) outs.
Proof.
  intros Hsz Hrw. revert w.
  induction pieces as [|p rest IH]; intros w Hfit Hheld Hall.
  { exists [], w. split_and!; by try constructor. }
  apply Forall_cons in Hall as [Hp Hrest].
  destruct (attention_streaming_total self (mkTensor bsz (lin_in (A_linear1 self)) p) inc w
              Hsz eq_refl Hfit Hrw)
    as (out & w1 & Hrun & Hso & Hbo & Hfo & Hfit1 & Hheld1).
  { unfold size0. simpl. destruct p; [done|]. simpl. lia. }
  destruct (IH w1 Hfit1 Hheld1 Hrest) as (outs & w' & Hrest' & Hlen & Hshape).
  exists (out :: outs), w'. split_and!.
  - simpl. unfold transform_call at 1. simpl.
    erewrite bindM_step; [|exact Hrun]. simpl.
    erewrite bindM_step; [|exact Hrest']. done.
  - simpl. f_equal; [|done]. unfold size0 in Hso. simpl in Hso. unfold size0. lia.
  - constructor; done.
Qed.

(** An empty chunk has none, and the call raises. *)
Lemma attention_stream_raises (self : SRUppTransducerAttention) (bsz : nat)
    (pieces : list (list (list R))) (inc : loc) (w : world) :
  attn_sized self -> 0 <= A_right_window self ->
  attn_state_fits w inc bsz (Z.to_nat (A_proj_features self)) ->
  Z.of_nat (length (saved_steps w inc "saved_query")) = A_right_window self ->
  Exists (fun p => p = []) pieces ->
  exists w',
    stream (transform_call (TAttention self))
      (chunk_calls bsz (lin_in (A_linear1 self)) pieces) (Some inc) w
    = (Raise (RuntimeError msg_view_ambiguous), w').
Proof.
  intros Hsz Hrw. revert w.
  induction pieces as [|p rest IH]; intros w Hfit Hheld Hex.
  { by apply Exists_nil in Hex. }
  destruct p as [|fr p].
  - destruct (attention_streaming_starved self (mkTensor bsz (lin_in (A_linear1 self)) [])
                None inc w (proj1 Hsz) eq_refl Hfit) as (w' & Hrun & _).
    { unfold size0. simpl. lia. }
    exists w'. simpl. unfold transform_call at 1. simpl. by apply bindM_raise.
  - apply Exists_cons in Hex as [Hex|Hex]; [done|].
    destruct (attention_streaming_total self
                (mkTensor bsz (lin_in (A_linear1 self)) (fr :: p)) inc w
                Hsz eq_refl Hfit Hrw)
      as (out & w1 & Hrun & Hso & Hbo & Hfo & Hfit1 & Hheld1).
    { unfold size0. simpl. lia. }
    destruct (IH w1 Hfit1 Hheld1 Hex) as (w' & Hrest).
    exists w'. simpl. unfold transform_call at 1. simpl.
    erewrite bindM_step; [|exact Hrun]. simpl. by apply bindM_raise.
Qed.

Lemma attention_session_first (self : SRUppTransducerAttention) (bsz feat : nat)
    (first : list (list R)) (rest : list (list (list R))) (w w0 : world) (inc : loc) :
  new_outer w = (Ok inc, w0) ->
  session (transform_call (TAttention self)) (chunk_calls bsz feat (first :: rest)) w
  = bindM (SRUppTransducerAttention_forward self (mkTensor bsz feat first) None None
             (Some inc))
      (fun r => bindM (stream (transform_call (TAttention self))
                         (chunk_calls bsz feat rest) r.2)
                  (fun rs => ret (r.1 :: rs.1, rs.2))) w0.
Proof. intros Hn. unfold session. by rewrite (bindM_step _ _ _ _ _ Hn). Qed.

End AttentionSession.
(** ** Further properties of the three modules *)

Section Further.

Context {R : Type} `{Scalar R} {Rng : Type} `{Dropper R Rng}.

Local Abbreviation tensor := (@Tensor R).
Local Abbreviation world := (@World R Rng).
Local Abbreviation cell := (@SRUppTransducerCell R Rng).

(** X1: an attention transform built by the constructor from sizes
    [in_features > 0], [out_features >= 0], [proj_features > 0] a
    multiple of [num_heads > 0], and probabilities in [0, 1], whether left in
    training mode or put in evaluation mode, returns on every call
    without an incremental state whose input is not empty, has
    [in_features] features and comes with masks of the sizes
    (tgt_len, src_len) and (src_len, bsz), if any: the output has the
    time-length and the batch size of the input and [out_features]
    features, and no dictionary changes. *)
Theorem attention_constructed_returns
    (in_features out_features proj_features num_heads : Z)
    (dropout attn_dropout rezero_init_alpha : R)
    (layer_norm normalize_after : bool) (right_window : Z)
    (xavier1 xavier2 xavier3 : list (list R)) (norm : list R -> list R) :
  0 < in_features -> 0 <= out_features -> 0 < proj_features -> 0 < num_heads ->
  proj_features mod num_heads = 0 ->
  bad_probability dropout = false -> bad_probability attn_dropout = false ->
  exists m,
    SRUppTransducerAttention_init in_features out_features proj_features num_heads
      dropout attn_dropout rezero_init_alpha layer_norm normalize_after
      right_window xavier1 xavier2 xavier3 norm = Ok m /\
    forall self, self = m \/ self = SRUppTransducerAttention_eval m ->
      forall (input : tensor) mask_pad attn_mask (w : world),
        t_feat input = Z.to_nat in_features ->
        (0 < size0 input)%nat ->
        masks_fit mask_pad attn_mask (size0 input) (size0 input) (t_bsz input) ->
        exists out w',
          SRUppTransducerAttention_forward self input mask_pad attn_mask None w
          = (Ok (out, None), w') /\
          size0 out = size0 input /\ t_bsz out = t_bsz input /\
          t_feat out = Z.to_nat out_features /\ same_dicts w w'.
Proof.
  intros Hi Ho Hp Hh Hdiv Hd Had.
  destruct (attention_init_sized in_features out_features proj_features num_heads
              dropout attn_dropout rezero_init_alpha layer_norm normalize_after
              right_window xavier1 xavier2 xavier3 norm ltac:(lia) Ho Hp Hh Hdiv Hd Had)
    as (m & Hm & Hsz & Hsze & Hin & Hout & _).
  exists m. split; [done|].
  intros self Hself input mask_pad attn_mask w Hf Hlen Hmasks.
  assert (attn_sized self /\ lin_in (A_linear1 self) = Z.to_nat in_features /\
          lin_out (A_linear3 self) = Z.to_nat out_features) as (Hs & Hin' & Hout').
  { destruct Hself as [->| ->]; done. }
  destruct (attention_forward_full self input mask_pad attn_mask w Hs) as (out & w' & Hrun);
    [congruence|done|done|].
  exists out, w'. rewrite <- Hout'. done.
Qed.

(** X2: a streaming call of the attention transform with at least one
    ready query, on a state whose slots fit the batch size and
    [proj_features] and whose key and value histories have one length,
    returns: the output has [H_prev + L_in - right_window] timesteps, the
    batch size of the chunk and [out_features] features, and the state
    it leaves fits again, so that the next call can go on. *)
Theorem attention_streaming_returns (self : SRUppTransducerAttention) (input : tensor)
    (inc : loc) (w : world) :
  attn_sized self ->
  t_feat input = lin_in (A_linear1 self) ->
  attn_state_fits w inc (t_bsz input) (Z.to_nat (A_proj_features self)) ->
  0 <= A_right_window self ->
  A_right_window self
  < Z.of_nat (length (saved_steps w inc "saved_query") + size0 input) ->
  exists out w',
    SRUppTransducerAttention_forward self input None None (Some inc) w
    = (Ok (out, Some inc), w') /\
    Z.of_nat (size0 out)
    = Z.of_nat (length (saved_steps w inc "saved_query") + size0 input)
      - A_right_window self /\
    t_bsz out = t_bsz input /\ t_feat out = lin_out (A_linear3 self) /\
    attn_state_fits w' inc (t_bsz input) (Z.to_nat (A_proj_features self)).
Proof.
  intros Hsz Hf Hfit Hrw Hready.
  destruct (attention_streaming_total self input inc w Hsz Hf Hfit Hrw Hready)
    as (out & w' & Hrun & Hso & Hb & Hfo & Hfit' & _).
  by exists out, w'.
Qed.

(** X3: a streaming call of the attention transform without a ready
    query ([H_prev + L_in <= right_window]) does not return an empty
    output: the first [view] raises a [RuntimeError], after the state
    was written. The saved queries are then the old ones followed by
    the projected chunk, the key and value histories are as before, and
    the state still fits. The cell around the transform raises the same
    error instead of taking its short cut. A call without an incremental
    state on an empty input raises it too. *)
Theorem attention_starved_raises (self : SRUppTransducerAttention) (input : tensor)
    attn_mask (inc : loc) (w : world) :
  attn_shaped self ->
  t_feat input = lin_in (A_linear1 self) ->
  attn_state_fits w inc (t_bsz input) (Z.to_nat (A_proj_features self)) ->
  Z.of_nat (length (saved_steps w inc "saved_query") + size0 input)
  <= A_right_window self ->
  (exists w',
     SRUppTransducerAttention_forward self input None attn_mask (Some inc) w
     = (Raise (RuntimeError msg_view_ambiguous), w') /\
     saved_steps w' inc "saved_query"
     = saved_steps w inc "saved_query"
       ++ map (Linear_rows (A_linear1 self) (t_bsz input)) (t_steps input) /\
     saved_steps w' inc "saved_key" = saved_steps w inc "saved_key" /\
     saved_steps w' inc "saved_value" = saved_steps w inc "saved_value" /\
     attn_state_fits w' inc (t_bsz input) (Z.to_nat (A_proj_features self))) /\
  (forall (c : cell) c0,
     C_transform_module c = TAttention self ->
     exists w',
       SRUppTransducerCell_forward c input c0 None attn_mask (Some inc) w
       = (Raise (RuntimeError msg_view_ambiguous), w')) /\
  (size0 input = 0%nat ->
   forall mask_pad (w0 : world),
     SRUppTransducerAttention_forward self input mask_pad attn_mask None w0
     = (Raise (RuntimeError msg_view_ambiguous), w0)).
Proof.
  intros Hsh Hf Hfit Hstarved. split_and!.
  - destruct (attention_streaming_starved self input attn_mask inc w Hsh Hf Hfit Hstarved)
      as (w' & Hrun & Hq & Hk & Hv & Hfit' & _).
    by exists w'.
  - intros c c0 Ht.
    destruct (cell_dropout_mask_run c (t_bsz input) w) as (mc & w0 & Hm & Hsame & _).
    destruct (attention_streaming_starved self input attn_mask inc w0 Hsh Hf)
      as (w' & Hrun & _).
    { by apply (attn_state_fits_same w). }
    { unfold saved_steps. by rewrite (same_dicts_slot _ _ _ _ Hsame). }
    exists w'. apply (cell_forward_raise _ _ _ _ _ _ _ _ _ _ _ Hm). by rewrite Ht.
  - intros Hlen mask_pad w0. by apply attention_forward_empty.
Qed.

(** X4: a call without an incremental state, of either transform or of
    the cell, leaves every dictionary object as it was, whether it
    returns or raises. *)
Theorem non_streaming_leaves_dicts (input : tensor) mask_pad attn_mask :
  (forall t : Transform,
     preserves dicts (transform_module_forward t input mask_pad attn_mask None
                      : @M R Rng _)) /\
  (forall (c : cell) c0,
     preserves dicts (SRUppTransducerCell_forward c input c0 mask_pad attn_mask None)).
Proof.
  split.
  - intros [m|m]; [apply dicts_attention_forward | apply dicts_linear_forward].
  - intros c c0. apply dicts_cell_forward.
Qed.

(** X5: after [eval()] no call of a transform draws from the random
    generator: a call in evaluation mode, streaming or not, leaves the
    state of the generator as it was, whether it returns or raises. *)
Theorem eval_mode_leaves_generator (t : Transform) (input : tensor) mask_pad attn_mask inc :
  preserves w_rng (transform_module_forward (Transform_eval t) input mask_pad attn_mask inc
                   : @M R Rng _).
Proof. apply rng_transform_forward, transform_eval_mode_eval. Qed.

(** X6: a streaming call that returns changes nothing that another
    incremental state can see, as long as the two do not share their
    inner dictionary: every slot of the other state is as before. When
    the two outer dictionaries hold the same inner dictionary object,
    the other state sees what the call wrote. *)
Theorem streaming_call_isolation (t : Transform) (input : tensor) mask_pad attn_mask
    (inc inc2 : loc) (w w' : world) out inc' :
  transform_module_forward t input mask_pad attn_mask (Some inc) w = (Ok (out, inc'), w') ->
  inc2 <> inc ->
  (outer_dict w inc2 !! "attn_state" = None -> forall key, slot w' inc2 key = None) /\
  (forall s2, outer_dict w inc2 !! "attn_state" = Some s2 ->
              is_Some (w_inner w !! s2) ->
              outer_dict w inc !! "attn_state" <> Some s2 ->
              forall key, slot w' inc2 key = slot w inc2 key) /\
  (forall s, outer_dict w inc !! "attn_state" = Some s ->
             outer_dict w inc2 !! "attn_state" = Some s ->
             forall key, slot w' inc2 key = slot w' inc key).
Proof.
  intros Hrun Hne. apply transform_state_written in Hrun as [d' Hw].
  destruct (state_written_other _ _ _ _ _ Hw Hne) as [Ho Hi]. split_and!.
  - intros Hnone key. unfold slot, attn_state_of. by rewrite Ho, Hnone.
  - intros s2 Hs2 Halloc Hdiff key. unfold slot, attn_state_of.
    rewrite Ho, Hs2. simpl. by rewrite (Hi s2 Hdiff Halloc).
  - intros s Hs Hs2 key.
    rewrite (state_written_alias _ _ _ _ _ _ Hw Hne Hs Hs2).
    by rewrite (state_written_slot _ _ _ _ _ Hw).
Qed.

(** X7: over a streaming session of either transform, whatever the
    partition of the input into chunks, the ready queries of the calls,
    put one after the other, are the projected queries of the whole
    input without its last [right_window] timesteps, and these last
    ones are the saved queries: no timestep is lost, repeated or moved. *)
Theorem session_queue (t : Transform) (chunks : list (tensor * option (Tensor2 R)))
    (w w' : world) cs inc' :
  0 <= transform_right_window t ->
  session (cursor_of_call t) chunks w = (Ok (cs, inc'), w') ->
  exists inc,
    inc' = Some inc /\
    let all := projected (transform_linear1 t) chunks in
    let n := Z.to_nat (Z.max 0 (Z.of_nat (length all) - transform_right_window t)) in
    concat (map ready_frames cs) = take n all /\
    saved_steps w' inc "saved_query" = drop n all /\
    concat (map ready_frames cs) ++ saved_steps w' inc "saved_query" = all.
Proof.
  intros Hrw Hrun. apply session_stream in Hrun as (inc & w0 & Hn & Hrun).
  apply new_outer_fresh in Hn as (_ & _ & Hslot).
  assert (saved_steps w0 inc "saved_query" = []) as Hsv
    by (unfold saved_steps; by rewrite Hslot).
  apply (cursor_stream _ _ _ _ _ _ _ Hrw) in Hrun as (-> & Hready & Hsaved).
  2:{ rewrite Hsv. simpl. lia. }
  rewrite Hsv in Hready, Hsaved. simpl in Hready, Hsaved.
  exists inc. split; [done|]. simpl. rewrite Hready, Hsaved.
  split_and!; try done. apply take_drop.
Qed.

(** X8: with [right_window <= 0] a streaming call of either transform
    holds nothing back: the output has the timesteps of the saved
    queries and of the chunk, and the call leaves an empty tensor under
    ["saved_query"]. A negative [right_window] acts as 0. *)
Theorem no_window_holds_nothing (t : Transform) (input : tensor) mask_pad attn_mask
    (inc : loc) (w w' : world) out inc' :
  transform_right_window t <= 0 ->
  transform_module_forward t input mask_pad attn_mask (Some inc) w = (Ok (out, inc'), w') ->
  size0 out = (length (saved_steps w inc "saved_query") + size0 input)%nat /\
  (exists nr, slot w' inc "saved_query" = Some (Some nr) /\ size0 nr = 0%nat) /\
  saved_steps w' inc "saved_query" = [].
Proof. apply no_window_call. Qed.

(** X9: after a streaming session of the attention transform over
    chunks of one batch size, whatever the partition of the input, the
    cached keys and values are the keys and values, timestep by
    timestep, of the projected queries of the whole input without its
    last [right_window] timesteps, which are the saved queries. *)
Theorem cache_of_session (self : SRUppTransducerAttention) (bsz feat : nat)
    (pieces : list (list (list R))) (w w' : world) xs inc' :
  0 <= A_right_window self ->
  session (attention_call self) (chunk_calls bsz feat pieces) w = (Ok (xs, inc'), w') ->
  exists inc,
    inc' = Some inc /\
    let all := map (Linear_rows (A_linear1 self) bsz) (concat pieces) in
    let n := Z.to_nat (Z.max 0 (Z.of_nat (length all) - A_right_window self)) in
    saved_steps w' inc "saved_query" = drop n all /\
    saved_steps w' inc "saved_key"
    = map (fun fr => (A_kv_frame self bsz fr).1) (take n all) /\
    saved_steps w' inc "saved_value"
    = map (fun fr => (A_kv_frame self bsz fr).2) (take n all).
Proof.
  intros Hrw Hrun. apply session_stream in Hrun as (inc & w0 & Hn & Hrun).
  apply new_outer_fresh in Hn as (_ & _ & Hslot).
  assert (forall key, saved_steps w0 inc key = []) as Hsv
    by (intros key; unfold saved_steps; by rewrite Hslot).
  pose proof (attention_stream_cursors _ _ _ _ _ _ _ Hrun) as Hcur.
  apply (cursor_stream (TAttention self) _ _ _ _ _ _ Hrw) in Hcur
    as (_ & Hready & Hsaved).
  2:{ rewrite Hsv. simpl. lia. }
  apply attention_stream_cache in Hrun as (-> & Hk & Hv).
  rewrite Hsv in Hready, Hsaved, Hk, Hv. simpl in *.
  rewrite projected_chunk_calls in Hready, Hsaved.
  rewrite map_map in Hready.
  exists inc. split; [done|]. simpl. by rewrite Hsaved, Hk, Hv, Hready.
Qed.

(** X10: a linear transform built by the constructor from sizes
    [in_features > 0], [proj_features > 0] and [out_features >= 0] and
    a dropout probability in [0, 1] returns on
    every input with [in_features] features, in either mode. Without an
    incremental state the output has the time-length and the batch size
    of the input and [out_features] features, and no dictionary
    changes. In a streaming call on a state whose saved queries fit, the
    output has [max(0, H_prev + L_in - right_window)] timesteps, none
    when too few have arrived, and the state fits again. *)
Theorem linear_constructed_returns
    (in_features out_features proj_features : Z) (dropout : R)
    (layer_norm : bool) (right_window : Z)
    (xavier1 xavier2 : list (list R)) (norm : list R -> list R) :
  0 < in_features -> 0 <= out_features -> 0 < proj_features ->
  bad_probability dropout = false -> 0 <= right_window ->
  exists m,
    SRUppTransducerLinear_init in_features out_features proj_features dropout layer_norm
      right_window xavier1 xavier2 norm = Ok m /\
    forall self, self = m \/ self = SRUppTransducerLinear_eval m ->
      forall (input : tensor) attn_mask (w : world),
        t_feat input = Z.to_nat in_features ->
        (forall mask_pad,
           exists out w',
             SRUppTransducerLinear_forward self input mask_pad attn_mask None w
             = (Ok (out, None), w') /\
             size0 out = size0 input /\ t_bsz out = t_bsz input /\
             t_feat out = Z.to_nat out_features /\ same_dicts w w') /\
        (forall inc,
           saved_query_fits w inc (t_bsz input) (Z.to_nat proj_features) ->
           let total := Z.of_nat (length (saved_steps w inc "saved_query") + size0 input) in
           exists out w',
             SRUppTransducerLinear_forward self input None attn_mask (Some inc) w
             = (Ok (out, Some inc), w') /\
             Z.of_nat (size0 out) = Z.max 0 (total - right_window) /\
             t_bsz out = t_bsz input /\ t_feat out = Z.to_nat out_features /\
             Z.of_nat (length (saved_steps w' inc "saved_query")) = Z.min right_window total /\
             saved_query_fits w' inc (t_bsz input) (Z.to_nat proj_features)).
Proof.
  intros Hi Ho Hp Hd Hrw.
  destruct (linear_init_sized in_features out_features proj_features dropout layer_norm
              right_window xavier1 xavier2 norm ltac:(lia) Ho ltac:(lia) Hd)
    as (m & Hm & Hin & Hout & Hacc & Hrwm & _).
  assert (lin_out (L_linear1 m) = Z.to_nat proj_features) as Hproj.
  { unfold SRUppTransducerLinear_init, nn_Dropout in Hm. rewrite Hd in Hm. simpl in Hm.
    rewrite !nn_Linear_Ok in Hm by lia. simpl in Hm.
    rewrite !xavier_uniform_Ok in Hm by lia. simpl in Hm. by injection Hm as <-. }
  exists m. split; [done|].
  intros self Hself input attn_mask w Hf.
  assert (lin_in (L_linear1 self) = Z.to_nat in_features /\
          lin_out (L_linear2 self) = Z.to_nat out_features /\
          L_tail_accepts self (lin_out (L_linear1 self)) /\
          L_right_window self = right_window /\
          lin_out (L_linear1 self) = Z.to_nat proj_features)
    as (Hin' & Hout' & Hacc' & Hrw' & Hproj').
  { destruct Hself as [->| ->]; done. }
  split.
  - intros mask_pad.
    destruct (linear_forward_returns self input mask_pad attn_mask w) as (out & w' & Hrun);
      [congruence|done|].
    exists out, w'. by rewrite <- Hout'.
  - intros inc Hfit total.
    destruct (linear_streaming_returns self input attn_mask inc w)
      as (out & w' & Hrun & Hsz & Hb & Hfo & Hsv & Hfit' & _);
      [lia|congruence|done|by rewrite Hproj'|].
    exists out, w'. rewrite Hrw' in Hsz, Hsv. rewrite Hproj' in Hfit'.
    rewrite length_app, length_map in Hsz, Hsv. fold (size0 input) in Hsz, Hsv.
    split_and!; try done; try congruence.
    + rewrite Hsz. subst total. lia.
    + rewrite Hsv, length_drop, length_app, length_map. fold (size0 input).
      subst total. lia.
Qed.

(** X11: the constructor of the cell fails as the constructor of the
    attention transform does when attention is asked for: with
    [ZeroDivisionError] for [num_heads = 0] and with the [ValueError]
    of the divisibility test when [projection_size] is not a multiple
    of [num_heads]. A cell it returns wraps the transform that
    [has_attention] selects, built with [hidden_size] as its number of
    output features and with [right_window]; the attention transform
    has [num_heads] heads dividing [projection_size], and its [alpha]
    starts at 0. *)
Theorem cell_construction
    (input_size hidden_size projection_size num_heads : Z)
    (dropout attn_dropout : R)
    (layer_norm normalize_after has_attention : bool) (right_window : Z)
    (xavier1 xavier2 xavier3 : list (list R)) (norm : list R -> list R)
    (weight_c : list R)
    (get_mask : Rng -> nat * nat -> R -> Tensor2 R * Rng)
    (step : list R -> option (Tensor2 R) -> option (list bool) ->
            list R -> list R -> Tensor2 R -> list R * Tensor2 R) :
  0 < input_size -> 0 <= hidden_size -> 0 < projection_size ->
  bad_probability dropout = false ->
  let r : result cell :=
    SRUppTransducerCell_init input_size hidden_size projection_size num_heads
      dropout attn_dropout layer_norm normalize_after has_attention right_window
      xavier1 xavier2 xavier3 norm weight_c get_mask step in
  (has_attention = true -> num_heads = 0 -> r = Raise ZeroDivisionError) /\
  (has_attention = true -> num_heads <> 0 -> projection_size mod num_heads <> 0 ->
   r = Raise (ValueError msg_divisible)) /\
  (forall c, r = Ok c ->
     if has_attention
     then exists m,
         C_transform_module c = TAttention m /\
         num_heads <> 0 /\ projection_size mod num_heads = 0 /\
         A_right_window m = right_window /\ A_num_heads m = num_heads /\
         A_alpha m = r0 /\
         lin_in (A_linear1 m) = Z.to_nat input_size /\
         lin_out (A_linear3 m) = Z.to_nat hidden_size
     else exists m,
         C_transform_module c = TLinear m /\
         L_right_window m = right_window /\
         lin_in (L_linear1 m) = Z.to_nat input_size /\
         lin_out (L_linear2 m) = Z.to_nat hidden_size).
Proof.
  intros Hi Hh Hp Hd.
  destruct (cell_init_cases input_size hidden_size projection_size num_heads
              dropout attn_dropout layer_norm normalize_after has_attention right_window
              xavier1 xavier2 xavier3 norm weight_c get_mask step
              ltac:(lia) Hh ltac:(lia) Hd) as (Hlin & Hzero & Hbad & Hgood).
  simpl in *. split_and!; try done.
  intros c Hc. destruct has_attention.
  - destruct (decide (num_heads = 0)) as [Hn|Hn].
    { rewrite (Hzero eq_refl Hn) in Hc. done. }
    destruct (decide (projection_size mod num_heads = 0)) as [Hm|Hm].
    2:{ rewrite (Hbad eq_refl Hn Hm) in Hc. done. }
    destruct (Hgood eq_refl Hn Hm) as (c' & m & Hc' & Ht & Hrw & Hnh & Ha & Hin & Hout & _).
    rewrite Hc' in Hc. injection Hc as <-. exists m. split_and!; done.
  - destruct (Hlin eq_refl) as (c' & m & Hc' & Ht & Hrw & Hin & Hout & _).
    rewrite Hc' in Hc. injection Hc as <-. exists m. split_and!; done.
Qed.

(** X12: the two dropout probabilities are checked at different
    times. [dropout] outside [0, 1] is refused by the three
    constructors, with the [ValueError] of [nn.Dropout], before the
    sizes and [num_heads] are looked at. [attn_dropout] is not looked
    at by the constructor: with a value outside [0, 1] the attention
    transform is built, and every call of it without an incremental
    state, on an input that is not empty and with masks of the right
    sizes, raises the [ValueError] of [F.dropout], in training and in
    evaluation mode, with the store as it was. *)
Theorem dropout_probabilities_checked
    (in_features out_features proj_features num_heads : Z)
    (dropout attn_dropout rezero_init_alpha : R)
    (layer_norm normalize_after has_attention : bool) (right_window : Z)
    (xavier1 xavier2 xavier3 : list (list R)) (norm : list R -> list R)
    (weight_c : list R)
    (get_mask : Rng -> nat * nat -> R -> Tensor2 R * Rng)
    (step : list R -> option (Tensor2 R) -> option (list bool) ->
            list R -> list R -> Tensor2 R -> list R * Tensor2 R) :
  (bad_probability dropout = true ->
   SRUppTransducerAttention_init in_features out_features proj_features num_heads
     dropout attn_dropout rezero_init_alpha layer_norm normalize_after
     right_window xavier1 xavier2 xavier3 norm = Raise (ValueError msg_dropout_p) /\
   SRUppTransducerLinear_init in_features out_features proj_features dropout layer_norm
     right_window xavier1 xavier2 norm = Raise (ValueError msg_dropout_p) /\
   (SRUppTransducerCell_init in_features out_features proj_features num_heads
      dropout attn_dropout layer_norm normalize_after has_attention right_window
      xavier1 xavier2 xavier3 norm weight_c get_mask step : result cell)
   = Raise (ValueError msg_dropout_p)) /\
  (bad_probability dropout = false -> bad_probability attn_dropout = true ->
   0 < in_features -> 0 <= out_features -> 0 < proj_features -> 0 < num_heads ->
   proj_features mod num_heads = 0 ->
   exists m,
     SRUppTransducerAttention_init in_features out_features proj_features num_heads
       dropout attn_dropout rezero_init_alpha layer_norm normalize_after
       right_window xavier1 xavier2 xavier3 norm = Ok m /\
     forall self, self = m \/ self = SRUppTransducerAttention_eval m ->
       forall (input : tensor) mask_pad attn_mask (w : world),
         t_feat input = Z.to_nat in_features ->
         (0 < size0 input)%nat ->
         masks_fit mask_pad attn_mask (size0 input) (size0 input) (t_bsz input) ->
         SRUppTransducerAttention_forward self input mask_pad attn_mask None w
         = (Raise (ValueError msg_dropout_p), w)).
Proof.
  split.
  - intros Hbad.
    unfold SRUppTransducerCell_init, SRUppTransducerAttention_init,
      SRUppTransducerLinear_init, nn_Dropout.
    rewrite Hbad. simpl. by destruct has_attention.
  - intros Hd Had Hi Ho Hp Hh Hdiv.
    unfold SRUppTransducerAttention_init, nn_Dropout.
    rewrite Hd. simpl. rewrite !nn_Linear_Ok by lia. simpl.
    destruct (Z.eqb_spec num_heads 0); [lia|].
    destruct (Z.eqb_spec (proj_features mod num_heads) 0); [|done]. simpl.
    rewrite !xavier_uniform_Ok by lia. simpl.
    eexists. split; [done|].
    intros self Hself input mask_pad attn_mask w Hf Hlen Hm.
    assert (attn_shaped self) as Hsh.
    { destruct Hself as [->| ->]; unfold attn_shaped; simpl;
        destruct (rltb r0 dropout); destruct layer_norm; simpl; split_and!; done. }
    assert (t_feat input = lin_in (A_linear1 self)) as Hf'
      by (by destruct Hself as [->| ->]).
    assert (bad_probability (A_attn_dropout self) = true) as Had'
      by (destruct Hself as [->| ->]; simpl; by destruct (rltb r0 dropout)).
    pose proof (attention_forward_checked self input mask_pad attn_mask w Hsh Hf' Hlen)
      as Hrun.
    by rewrite (attention_check_dropout _ _ _ _ _ _ Hm Had') in Hrun.
Qed.

(** X13: the attention transform checks the sizes of its masks in a
    fixed order. On an input of [L > 0] timesteps, without an
    incremental state, an [attn_mask] whose size is not (L, L) raises
    the [ValueError] about [attn_mask], whatever [mask_pad] and
    [attn_dropout] are; with an [attn_mask] that is absent or fits, a
    [mask_pad] whose size is not (L, bsz) raises the [ValueError] about
    [mask_pad]. In both cases the store is as it was. *)
Theorem attention_mask_checks (self : SRUppTransducerAttention) (input : tensor)
    mask_pad attn_mask (w : world) :
  attn_shaped self ->
  t_feat input = lin_in (A_linear1 self) ->
  (0 < size0 input)%nat ->
  (forall am, attn_mask = Some am -> size2 am <> [size0 input; size0 input] ->
     SRUppTransducerAttention_forward self input mask_pad attn_mask None w
     = (Raise (ValueError msg_attn_mask), w)) /\
  (forall mp, mask_pad = Some mp -> size2 mp <> [size0 input; t_bsz input] ->
     from_option (fun am => size2 am = [size0 input; size0 input]) True attn_mask ->
     SRUppTransducerAttention_forward self input mask_pad attn_mask None w
     = (Raise (ValueError msg_mask_pad), w)).
Proof.
  intros Hsh Hf Hlen.
  pose proof (attention_forward_checked self input mask_pad attn_mask w Hsh Hf Hlen) as Hrun.
  split.
  - intros am -> Hbad.
    by rewrite (attention_check_attn_mask _ _ _ _ _ _ Hbad) in Hrun.
  - intros mp -> Hbad Ham.
    by rewrite (attention_check_mask_pad _ _ _ _ _ _ Hbad Ham) in Hrun.
Qed.

(** X14: a streaming session of the attention transform over chunks of
    one batch size returns exactly when every call has a ready query:
    the first chunk has more than [right_window] timesteps and no later
    chunk is empty. Then the first call gives the timesteps of its
    chunk less [right_window] and every later call as many as its
    chunk. Otherwise the first call without a ready query raises the
    [RuntimeError] of [view], and the session ends there. *)
Theorem attention_session_returns (self : SRUppTransducerAttention) (bsz : nat)
    (first : list (list R)) (rest : list (list (list R))) (w : world) :
  attn_sized self -> 0 <= A_right_window self ->
  let run := session (transform_call (TAttention self))
               (chunk_calls bsz (lin_in (A_linear1 self)) (first :: rest)) w in
  (A_right_window self < Z.of_nat (length first) -> Forall (fun p => p <> []) rest ->
   exists outs inc w',
     run = (Ok (outs, Some inc), w') /\
     map size0 outs
     = (length first - Z.to_nat (A_right_window self))%nat :: map length rest /\
     Forall (fun out => t_bsz out = bsz /\ t_feat out = lin_out (A_linear3 self)) outs) /\
  (Z.of_nat (length first) <= A_right_window self \/ Exists (fun p => p = []) rest ->
   exists w', run = (Raise (RuntimeError msg_view_ambiguous), w')).
Proof.
  intros Hsz Hrw. cbv zeta.
  destruct (new_outer w) as [r w0] eqn:Hn.
  assert (exists inc, r = Ok inc) as [inc ->]
    by (unfold new_outer in Hn; injection Hn as <- _; eauto).
  destruct (new_outer_attn_fits w w0 inc bsz (Z.to_nat (A_proj_features self)) Hn)
    as [Hfit Hsv].
  rewrite (attention_session_first self bsz _ first rest w w0 inc Hn).
  set (chunk := mkTensor bsz (lin_in (A_linear1 self)) first).
  split.
  - intros Hlong Hrest.
    destruct (attention_streaming_total self chunk inc w0 Hsz eq_refl Hfit Hrw)
      as (out & w1 & Hrun & Hso & Hbo & Hfo & Hfit1 & Hheld1).
    { rewrite Hsv. simpl. unfold size0. simpl. lia. }
    destruct (attention_stream_returns self bsz rest inc w1 Hsz Hrw Hfit1 Hheld1 Hrest)
      as (outs & w' & Hrest' & Hlen & Hshape).
    exists (out :: outs), inc, w'. split_and!.
    + erewrite bindM_step; [|exact Hrun]. simpl.
      erewrite bindM_step; [|exact Hrest']. done.
    + simpl. f_equal; [|done]. rewrite Hsv in Hso. unfold size0 in *. simpl in Hso. lia.
    + by constructor.
  - intros [Hshort|Hex].
    + destruct (attention_streaming_starved self chunk None inc w0 (proj1 Hsz) eq_refl Hfit)
        as (w' & Hrun & _).
      { rewrite Hsv. simpl. unfold size0. simpl. lia. }
      exists w'. by apply bindM_raise.
    + destruct (Z_lt_le_dec (A_right_window self) (Z.of_nat (length first)))
        as [Hlong|Hshort].
      * destruct (attention_streaming_total self chunk inc w0 Hsz eq_refl Hfit Hrw)
          as (out & w1 & Hrun & Hso & Hbo & Hfo & Hfit1 & Hheld1).
        { rewrite Hsv. simpl. unfold size0. simpl. lia. }
        destruct (attention_stream_raises self bsz rest inc w1 Hsz Hrw Hfit1 Hheld1 Hex)
          as (w' & Hrest').
        exists w'. erewrite bindM_step; [|exact Hrun]. simpl. by apply bindM_raise.
      * destruct (attention_streaming_starved self chunk None inc w0 (proj1 Hsz) eq_refl
                    Hfit) as (w' & Hrun & _).
        { rewrite Hsv. simpl. unfold size0. simpl. lia. }
        exists w'. by apply bindM_raise.
Qed.

(** X15: the cell tests the number of elements of [U], not its
    time-length. Around a linear transform and without an incremental
    state: when the input has no timestep, the batch is empty or the
    transform has no output feature, the cell returns a hidden output
    of time-length 0 and the carry it was given (zeros when it was
    given none) and does not call the recurrence; otherwise it calls
    the recurrence once, on a [U] with the timesteps of the input.
    No dictionary changes. *)
Theorem cell_tests_numel (self : cell) (m : SRUppTransducerLinear) (input : tensor) c0
    (w : world) :
  C_transform_module self = TLinear m ->
  t_feat input = lin_in (L_linear1 m) ->
  L_tail_accepts m (lin_out (L_linear1 m)) ->
  let run := SRUppTransducerCell_forward self input c0 None None None w in
  dicts run.2 = dicts w /\
  if decide (size0 input * t_bsz input * lin_out (L_linear2 m) = 0)%nat
  then run.1 = Ok (zeros3 0 (t_bsz input) (C_output_size self),
                   from_option id (zeros2 (t_bsz input) (C_output_size self)) c0, None) /\
       w_log run.2 = w_log w
  else w_log run.2 = EvRecurrence (size0 input) :: w_log w.
Proof.
  intros Ht Hf Hacc. simpl.
  destruct (cell_dropout_mask_run self (t_bsz input) w) as (mc & w0 & Hm & Hsame & _).
  destruct (linear_forward_returns m input None None w0 Hf Hacc)
    as (U & w1 & HU & Hsz & Hb & Hfo & Hsame1).
  assert (transform_module_forward (C_transform_module self) input None None None w0
          = (Ok (U, None), w1)) as HU' by (by rewrite Ht).
  assert (numel U = (size0 input * t_bsz input * lin_out (L_linear2 m))%nat) as Hn
    by (unfold numel; by rewrite Hsz, Hb, Hfo).
  destruct Hsame as (Ho0 & Hi0 & Hl0). destruct Hsame1 as (Ho1 & Hi1 & Hl1).
  destruct (decide _) as [Hz|Hz].
  - rewrite <- Hn in Hz.
    rewrite (cell_forward_empty self input c0 None None None w w0 w1 mc U None
               Hm HU' Hz). simpl. unfold dicts.
    split_and!; try done; congruence.
  - rewrite <- Hn in Hz.
    destruct (cell_forward_recurrence self input c0 None None None w w0 w1 mc U None
                Hm HU' Hz) as (h & c & w2 & Hrun & Hlog & Hd & _).
    rewrite Hrun. simpl. unfold dicts in *.
    split; [congruence|]. rewrite Hlog, Hsz. congruence.
Qed.

End Further.
(** ** Concrete runs of the further properties *)

Lemma xq_attention_sized (right_window : Z) : attn_sized (xq_attention right_window).
Proof. repeat split; vm_compute; (reflexivity || exact I). Qed.

Lemma xq_started_fits (bsz proj : nat) : attn_state_fits xq_started xq_state bsz proj.
Proof. repeat split; vm_compute; (reflexivity || exact I). Qed.

(** The attention transform of the runs, on three timesteps. *)
Lemma attention_constructed_returns_witness :
  exists out w',
    SRUppTransducerAttention_forward (xq_attention 0) (xq_seq [1; 2; 3]) None None None
      xq_world = (Ok (out, None), w') /\
    size0 out = 3%nat /\ t_feat out = 1%nat.
Proof.
  destruct (attention_constructed_returns 1 1 1 1 (XQ 0) (XQ 0) (XQ 1) false true 0
              xq_one [[XQ 0]; [XQ 1]] xq_one (fun x => x))
    as (m & Hm & Hcalls); [lia|lia|lia|lia|reflexivity|reflexivity|reflexivity|].
  destruct (Hcalls (xq_attention 0)) with (input := xq_seq [1; 2; 3]) (mask_pad := @None (Tensor2 bool))
      (attn_mask := @None (Tensor2 xq)) (w := xq_world)
    as (out & w' & Hrun & Hso & _ & Hfo & _).
  - right. unfold xq_attention. rewrite Hm. reflexivity.
  - reflexivity.
  - unfold size0. simpl. lia.
  - split; exact I.
  - exists out, w'. split; [exact Hrun|]. split; [exact Hso|exact Hfo].
Defined.

(** A first chunk of three timesteps against a window of one. *)
Lemma attention_streaming_returns_witness :
  exists out w',
    SRUppTransducerAttention_forward (xq_attention 1) (xq_seq [1; 2; 3]) None None
      (Some xq_state) xq_started = (Ok (out, Some xq_state), w') /\
    Z.of_nat (size0 out) = 2.
Proof.
  destruct (attention_streaming_returns (xq_attention 1) (xq_seq [1; 2; 3]) xq_state
              xq_started (xq_attention_sized 1) eq_refl (xq_started_fits 1 1))
    as (out & w' & Hrun & Hso & _); [vm_compute; discriminate|vm_compute; reflexivity|].
  exists out, w'. split; [exact Hrun|exact Hso].
Defined.

(** A first chunk of one timestep against a window of two. *)
Lemma attention_starved_raises_witness :
  exists w',
    SRUppTransducerAttention_forward (xq_attention 2) (xq_seq [1]) None None
      (Some xq_state) xq_started = (Raise (RuntimeError msg_view_ambiguous), w') /\
    saved_steps w' xq_state "saved_query" = [[XQ 1]].
Proof.
  destruct (attention_starved_raises (xq_attention 2) (xq_seq [1]) None xq_state
              xq_started (proj1 (xq_attention_sized 2)) eq_refl (xq_started_fits 1 1))
    as [(w' & Hrun & Hq & _) _]; [vm_compute; discriminate|].
  exists w'. split; [exact Hrun|exact Hq].
Defined.

(** A call of the cell around the attention transform without an
    incremental state, in a store that holds one. *)
Lemma non_streaming_leaves_dicts_witness :
  let r := SRUppTransducerCell_forward (xq_cell (TAttention (xq_attention 0)))
             (xq_seq [1; 2]) None None None None xq_started in
  dicts r.2 = dicts xq_started.
Proof.
  intros r.
  exact (proj2 (non_streaming_leaves_dicts (xq_seq [1; 2]) None None)
           (xq_cell (TAttention (xq_attention 0))) None xq_started r.1 r.2
           (surjective_pairing r)).
Defined.

(** Two incremental states with one inner dictionary: a call on the
    first is seen through the second. *)
Lemma streaming_call_isolation_witness :
  let r := transform_module_forward (TLinear (xq_linear 1)) (xq_seq [1; 2]) None None
             (Some 0%nat) xq_shared in
  slot (xq_store r) 1%nat "saved_query" = slot (xq_store r) 0%nat "saved_query".
Proof.
  intros r.
  destruct (streaming_call_isolation (TLinear (xq_linear 1)) (xq_seq [1; 2]) None None
              0%nat 1%nat xq_shared (xq_store r)
              (xq_value (xq_seq [], None) r).1 (xq_value (xq_seq [], None) r).2)
    as (_ & _ & Halias); [vm_compute; reflexivity|discriminate|].
  exact (Halias 0%nat eq_refl eq_refl "saved_query").
Defined.

(** The session of four chunks against a window of two. *)
Lemma session_queue_witness :
  let t := TLinear (xq_linear 2) in
  let r := session (cursor_of_call t) xq_chunks xq_world in
  exists inc,
    (xq_value ([], None) r).2 = Some inc /\
    concat (map ready_frames (xq_value ([], None) r).1)
      ++ saved_steps (xq_store r) inc "saved_query"
    = projected (transform_linear1 t) xq_chunks.
Proof.
  intros t r.
  destruct (session_queue t xq_chunks xq_world (xq_store r)
              (xq_value ([], None) r).1 (xq_value ([], None) r).2)
    as (inc & Hinc & _ & _ & Hall); [vm_compute; discriminate|vm_compute; reflexivity|].
  exists inc. split; [exact Hinc|exact Hall].
Defined.

(** A streaming call without a window. *)
Lemma no_window_holds_nothing_witness :
  let r := transform_module_forward (TLinear (xq_linear 0)) (xq_seq [1; 2]) None None
             (Some xq_state) xq_started in
  size0 (xq_value (xq_seq [], None) r).1 = 2%nat /\
  saved_steps (xq_store r) xq_state "saved_query" = [].
Proof.
  intros r.
  destruct (no_window_holds_nothing (TLinear (xq_linear 0)) (xq_seq [1; 2]) None None
              xq_state xq_started (xq_store r)
              (xq_value (xq_seq [], None) r).1 (xq_value (xq_seq [], None) r).2)
    as (Hso & _ & Hsv); [vm_compute; discriminate|vm_compute; reflexivity|].
  split; [exact Hso|exact Hsv].
Defined.

(** Two chunks, of three and of one timestep, against a window of one. *)
Lemma cache_of_session_witness :
  let self := xq_attention 1 in
  let pieces := [t_steps (xq_seq [1; 2; 3]); t_steps (xq_seq [4])] in
  let r := session (attention_call self) (chunk_calls 1 1 pieces) xq_world in
  exists inc,
    (xq_value ([], None) r).2 = Some inc /\
    saved_steps (xq_store r) inc "saved_query" = [[XQ (inject_Z 4)]] /\
    length (saved_steps (xq_store r) inc "saved_key") = 3%nat.
Proof.
  intros self pieces r.
  destruct (cache_of_session self 1 1 pieces xq_world (xq_store r)
              (xq_value ([], None) r).1 (xq_value ([], None) r).2)
    as (inc & Hinc & Hq & Hk & _); [vm_compute; discriminate|vm_compute; reflexivity|].
  exists inc. split; [exact Hinc|]. split.
  - rewrite Hq. vm_compute. reflexivity.
  - rewrite Hk. vm_compute. reflexivity.
Defined.

(** The first chunk of a session is shorter than the window of the
    linear transform. *)
Lemma linear_constructed_returns_witness :
  exists out w',
    SRUppTransducerLinear_forward (xq_linear 2) (xq_seq [1]) None None (Some xq_state)
      xq_started = (Ok (out, Some xq_state), w') /\
    Z.of_nat (size0 out) = 0 /\
    Z.of_nat (length (saved_steps w' xq_state "saved_query")) = 1.
Proof.
  destruct (linear_constructed_returns 1 1 1 (XQ 0) false 2 xq_one xq_one (fun x => x))
    as (m & Hm & Hcalls); [lia|lia|lia|reflexivity|lia|].
  destruct (Hcalls (xq_linear 2)) with (input := xq_seq [1]) (attn_mask := @None (Tensor2 xq))
      (w := xq_started) as [_ Hstream].
  - right. unfold xq_linear. rewrite Hm. reflexivity.
  - reflexivity.
  - destruct (Hstream xq_state) as (out & w' & Hrun & Hso & _ & _ & Hsv & _).
    + vm_compute. exact I.
    + exists out, w'. split; [exact Hrun|]. split; [exact Hso|exact Hsv].
Defined.

(** A cell with attention and no head. *)
Lemma cell_construction_witness :
  SRUppTransducerCell_init (R := xq) (Rng := unit) 1 1 1 0 (XQ 0) (XQ 0) false true true 0
    xq_one [[XQ 0]; [XQ 1]] xq_one (fun x => x) []
    (fun g _ _ => (mkTensor2 0 [], g)) xq_step
  = Raise ZeroDivisionError.
Proof.
  destruct (cell_construction (R := xq) (Rng := unit) 1 1 1 0 (XQ 0) (XQ 0) false true true 0
              xq_one [[XQ 0]; [XQ 1]] xq_one (fun x => x) []
              (fun g _ _ => (mkTensor2 0 [], g)) xq_step)
    as (Hzero & _); [lia|lia|lia|reflexivity|].
  exact (Hzero eq_refl eq_refl).
Defined.

(** A [dropout] of 2 at construction, and an [attn_dropout] of 2 at the
    first call. *)
Lemma dropout_probabilities_checked_witness :
  SRUppTransducerLinear_init 1 1 1 (XQ (inject_Z 2)) false 0 xq_one xq_one (fun x => x)
  = Raise (ValueError msg_dropout_p) /\
  SRUppTransducerAttention_forward xq_attention_bad (xq_seq [1; 2]) None None None xq_world
  = (Raise (ValueError msg_dropout_p), xq_world).
Proof.
  split.
  - destruct (dropout_probabilities_checked (R := xq) (Rng := unit) 1 1 1 1
                (XQ (inject_Z 2)) (XQ 0) (XQ 1) false true true 0
                xq_one [[XQ 0]; [XQ 1]] xq_one (fun x => x) []
                (fun g _ _ => (mkTensor2 0 [], g)) xq_step) as [Hctor _].
    destruct (Hctor eq_refl) as (_ & Hlin & _). exact Hlin.
  - destruct (dropout_probabilities_checked (R := xq) (Rng := unit) 1 1 1 1
                (XQ 0) (XQ (inject_Z 2)) (XQ 1) false true true 0
                xq_one [[XQ 0]; [XQ 1]] xq_one (fun x => x) []
                (fun g _ _ => (mkTensor2 0 [], g)) xq_step) as [_ Hcall].
    destruct Hcall as (m & Hm & Hcalls); [reflexivity|reflexivity|lia|lia|lia|lia|reflexivity|].
    apply (Hcalls xq_attention_bad).
    + left. unfold xq_attention_bad. rewrite Hm. reflexivity.
    + reflexivity.
    + unfold size0. simpl. lia.
    + split; exact I.
Defined.

(** An attention mask of three rows over two keys for an input of two
    timesteps. *)
Lemma attention_mask_checks_witness :
  SRUppTransducerAttention_forward (xq_attention 0) (xq_seq [1; 2]) None (Some xq_mask) None
    xq_world = (Raise (ValueError msg_attn_mask), xq_world).
Proof.
  destruct (attention_mask_checks (xq_attention 0) (xq_seq [1; 2]) None (Some xq_mask)
              xq_world (proj1 (xq_attention_sized 0)) eq_refl) as [Hmask _].
  - unfold size0. simpl. lia.
  - apply (Hmask xq_mask eq_refl). vm_compute. discriminate.
Defined.

(** Chunks of three and of one timestep against a window of one. *)
Lemma attention_session_returns_witness :
  exists outs inc w',
    session (transform_call (TAttention (xq_attention 1)))
      (chunk_calls 1 1 [t_steps (xq_seq [1; 2; 3]); t_steps (xq_seq [4])]) xq_world
    = (Ok (outs, Some inc), w') /\
    map size0 outs = [2%nat; 1%nat].
Proof.
  destruct (attention_session_returns (xq_attention 1) 1 (t_steps (xq_seq [1; 2; 3]))
              [t_steps (xq_seq [4])] xq_world (xq_attention_sized 1))
    as [Hreturns _]; [vm_compute; discriminate|].
  destruct Hreturns as (outs & inc & w' & Hrun & Hlen & _).
  - vm_compute. reflexivity.
  - repeat constructor. discriminate.
  - exists outs, inc, w'. split; [exact Hrun|exact Hlen].
Defined.

(** Two timesteps of an empty batch. *)
Lemma cell_tests_numel_witness :
  let self := xq_cell (TLinear (xq_linear 0)) in
  let r := SRUppTransducerCell_forward self (mkTensor 0 1 [[]; []]) None None None None
             xq_world in
  r.1 = Ok (zeros3 0 0 1, zeros2 0 1, None) /\ w_log r.2 = [].
Proof.
  intros self r.
  destruct (cell_tests_numel self (xq_linear 0) (mkTensor 0 1 [[]; []]) None xq_world)
    as [_ Hcase]; [reflexivity|reflexivity|repeat split; vm_compute; (reflexivity || exact I)|].
  exact Hcase.
Defined.
